(** * sylvia-iot-node: general-mq queues and the SDK data managers

    A shallow embedding of the JavaScript sources

    - [general-mq/lib/constants.js], [amqp-connection.js], [amqp-queue.js],
      [mqtt-connection.js], [mqtt-queue.js];
    - [sdk/mq/constants.js], [sdk/mq/lib.js], [sdk/mq/network.js],
      [sdk/mq/application.js].

    Objects are records and private fields [#f] are record fields.  A method
    takes the receiver -- and the connection it holds a reference to, when
    it reads or changes it -- and returns the updated objects together with
    the list of effects it performed, in program order: events emitted,
    ticks and timers scheduled, calls into the broker client.  The closures
    handed to the broker client are separate definitions, named after the
    call they complete ([close_done], [subscribe_done], ...).

    A [throw] is the [Throw] result.  The methods throw before they change
    the receiver; where a method can throw after a change, its result
    carries the error next to the state and the effects. *)

From stdpp Require Import gmap strings list.
From Stdlib Require Import ZArith Ascii String Bool Lia.

Local Open Scope string_scope.
Local Open Scope Z_scope.

(** ** JavaScript values *)

Module Js.

(** References to functions: user supplied ones, the bound methods the
    library itself registers, and the closure [(err) => { cb(err || null); }]
    of a task of a manager's [close], by the position of the task. *)
Inductive FunRef : Type :=
| UserFn (id : nat)
| QueueOnConnStatusChanged (qname : string)
| QueueInnerOnMessage (qname : string)
| CloseTaskDone (task : nat).

#[global] Instance FunRef_eq_dec : EqDecision FunRef.
Proof. solve_decision. Defined.

(** Numbers that are not integers. *)
Inductive NonInt : Type := NaN | Infinite | Fraction.

(** The values that reach the option checks.  [JArr] and [JObject] are an
    array and a plain object whose contents the checks never read. *)
Inductive JsVal : Type :=
| JUndefined
| JNull
| JBool (b : bool)
| JInt (z : Z)
| JFloat (k : NonInt)
| JStr (s : string)
| JFun (f : FunRef)
| JArr
| JObject.

Inductive TypeOf : Type :=
| TUndefined | TObject | TBoolean | TNumber | TString | TFunction.

#[global] Instance TypeOf_eq_dec : EqDecision TypeOf.
Proof. solve_decision. Defined.

Definition typeof (v : JsVal) : TypeOf :=
  match v with
  | JUndefined => TUndefined
  | JNull => TObject
  | JBool _ => TBoolean
  | JInt _ | JFloat _ => TNumber
  | JStr _ => TString
  | JFun _ => TFunction
  | JArr | JObject => TObject
  end.

(** ToBoolean. *)
Definition truthy (v : JsVal) : bool :=
  match v with
  | JUndefined | JNull => false
  | JBool b => b
  | JInt z => negb (z =? 0)
  | JFloat NaN => false
  | JFloat _ => true
  | JStr s => negb (String.eqb s "")
  | JFun _ | JArr | JObject => true
  end.

(** [a || b]. *)
Definition orElse (a b : JsVal) : JsVal := if truthy a then a else b.

Definition isUndefined (v : JsVal) : bool :=
  match v with JUndefined => true | _ => false end.

(** [Number.isInteger]. *)
Definition Number_isInteger (v : JsVal) : bool :=
  match v with JInt _ => true | _ => false end.

(** [Array.isArray]. *)
Definition Array_isArray (v : JsVal) : bool :=
  match v with JArr => true | _ => false end.

(** [v < n] and [v > n] for a value already known to be an integer. *)
Definition numLt (v : JsVal) (n : Z) : bool :=
  match v with JInt z => z <? n | _ => false end.
Definition numLe (v : JsVal) (n : Z) : bool :=
  match v with JInt z => z <=? n | _ => false end.
Definition numGt (v : JsVal) (n : Z) : bool :=
  match v with JInt z => z >? n | _ => false end.

(** The string a template literal puts for an optional string. *)
Definition template (o : option string) : string :=
  match o with
  | None => "undefined"
  | Some s => s
  end.

(** [String.prototype.endsWith]. *)
Fixpoint endsWith (s suffix : string) : bool :=
  if String.eqb s suffix then true
  else match s with
       | EmptyString => false
       | String _ rest => endsWith rest suffix
       end.

(** An argument that should be an object with the fields of [R]. *)
Inductive Arg (R : Type) : Type :=
| Obj (r : R)
| NotObj (v : JsVal).
Arguments Obj {R} r.
Arguments NotObj {R} v.

(** [!a || typeof a !== 'object' || Array.isArray(a)]. *)
Definition notAnObject {R : Type} (a : Arg R) : bool :=
  match a with
  | Obj _ => false
  | NotObj v =>
      negb (truthy v) || negb (bool_decide (typeof v = TObject)) || Array_isArray v
  end.

(** The fields read from an argument; an object without the fields of [R]
    reads as the record [none] whose fields are all [undefined]. *)
Definition fields {R : Type} (none : R) (a : Arg R) : R :=
  match a with
  | Obj r => r
  | NotObj _ => none
  end.

End Js.
Import Js.

(** ** Results and effects *)

Inductive Result (A : Type) : Type :=
| Ok (a : A)
| Throw (message : string).
Arguments Ok {A} a.
Arguments Throw {A} message.

Definition bind {A B : Type} (r : Result A) (k : A -> Result B) : Result B :=
  match r with
  | Ok a => k a
  | Throw m => Throw m
  end.

Notation "'let!' x ':=' r 'in' k" := (bind r (fun x => k))
  (at level 10, x pattern, r at level 100, k at level 200).

(** [general-mq/lib/constants.js] *)
Module Constants.

Inductive Status : Type :=
| Closing | Closed | Connecting | Connected | Disconnected.

#[global] Instance Status_eq_dec : EqDecision Status.
Proof. solve_decision. Defined.

Module Errors.
Definition NoMsgHandler : string := "no message handler".
Definition NotConnected : string := "not connected".
Definition QueueIsReceiver : string := "this queue is a receiver".
End Errors.

(** [QueuePattern = /^[a-z0-9_-]+([\.]{1}[a-z0-9_-]+)*$/]: segments of
    lower-case letters, digits, [_] and [-], separated by single dots. *)
Definition isNameChar (c : ascii) : bool :=
  let n := nat_of_ascii c in
  ((97 <=? n) && (n <=? 122) || (48 <=? n) && (n <=? 57)
   || (n =? 95) || (n =? 45))%nat.

Fixpoint matchSegments (s : string) (inSegment : bool) : bool :=
  match s with
  | EmptyString => inSegment
  | String c rest =>
      if isNameChar c then matchSegments rest true
      else if Ascii.eqb c "."%char then inSegment && matchSegments rest false
      else false
  end.

Definition QueuePattern_test (s : string) : bool := matchSegments s false.

End Constants.
Import Constants.

(** The options of an AMQP publish: [{ persistent }], or
    [{ mandatory: true }] together with a confirmation callback. *)
Inductive PublishOpts : Type :=
| Persistent (b : bool)
| MandatoryConfirm.

(** What a method does to the outside world, in program order. *)
Inductive RawCall : Type :=
| AmqplibConnect (uri : string)
| AmqplibClose
| AmqplibCreateChannel (confirm : bool)
| ChannelClose
| ChannelPublish (exchange routingKey : string) (payload : list Byte.byte)
    (opts : PublishOpts)
| MqttLibConnect (uri : string)
| MqttEnd
| MqttSubscribe (topic : string) (qos : Z)
| MqttUnsubscribe (topic : string)
| MqttPublish (topic : string) (payload : list Byte.byte) (qos : Z).

(** What a scheduled closure does when it runs: call a callback with an
    error or [null], or re-enter [#innerConnect]. *)
Inductive Task : Type :=
| Call (callback : FunRef) (err : option string)
| InnerConnect.

Inductive Action : Type :=
| EmitStatus (s : Status)
| EmitError (e : string)
| Now (t : Task)
| NextTick (t : Task)
| SetTimeout (t : Task) (millis : Z)
| Raw (c : RawCall).

(** [if (callback) process.nextTick(() => callback(err))], for a callback
    already replaced by [null] when it is not a function. *)
Definition tick (callback : JsVal) (err : option string) : list Action :=
  match callback with
  | JFun f => [NextTick (Call f err)]
  | _ => []
  end.

(** [if (typeof callback !== 'function') callback = null]. *)
Definition orNull (callback : JsVal) : JsVal :=
  if bool_decide (typeof callback = TFunction) then callback else JNull.

(** ** [general-mq/lib/amqp-connection.js] *)

Module AmqpConnection.

Record t : Type := mk {
  uri : string;
  reconnectMillis : Z;
  status : Status;
  (** [#conn]: the amqplib connection, [None] for [null]. *)
  conn : option nat;
  (** The listeners registered with [on]. *)
  listeners : list FunRef
}.

Definition set_status (s : Status) (c : t) : t :=
  mk (uri c) (reconnectMillis c) s (conn c) (listeners c).
Definition set_conn (r : option nat) (c : t) : t :=
  mk (uri c) (reconnectMillis c) (status c) r (listeners c).

(** The state the constructor leaves, for options that pass its checks. *)
Definition new (uri : string) (reconnectMillis : Z) : t :=
  mk uri reconnectMillis Closed None [].

Definition on (f : FunRef) (c : t) : t :=
  mk (uri c) (reconnectMillis c) (status c) (conn c) (listeners c ++ [f]).

Definition removeAllListeners (c : t) : t :=
  mk (uri c) (reconnectMillis c) (status c) (conn c) [].

Definition getRawConnection (c : t) : option nat := conn c.

(** [#innerConnect]: the dial is asynchronous, [#conn] is not set yet. *)
Definition innerConnect (c : t) : t * list Action :=
  (c, [Raw (AmqplibConnect (uri c))]).

(** The closure given to [amqplib.connect]. *)
Definition innerConnect_done (res : string + nat) (c : t)
  : t * list Action :=
  match res with
  | inl _ => (c, [SetTimeout InnerConnect (reconnectMillis c)])
  | inr raw =>
      (set_status Connected (set_conn (Some raw) c), [EmitStatus Connected])
  end.

Definition connect (c : t) : t * list Action :=
  if negb (bool_decide (status c = Closed))
     && negb (bool_decide (status c = Closing))
  then (c, [])
  else
    let c := set_status Connecting c in
    let '(c, acts) := innerConnect c in
    (c, EmitStatus Connecting :: acts).

Definition close (callback : JsVal) (c : t) : t * list Action :=
  let callback := orNull callback in
  match conn c with
  | None => (c, tick callback None)
  | Some _ =>
      (set_status Closing c, [EmitStatus Closing; Raw AmqplibClose])
  end.

(** The closure given to [#conn.close]; [callback] is the variable it
    captures, which [close] has already replaced by [null] when it was not a
    function. *)
Definition close_done (callback : JsVal) (err : option string) (c : t)
  : t * list Action :=
  let c := match conn c with
           | Some _ => set_conn None c
           | None => c
           end in
  (set_status Closed c, EmitStatus Closed :: tick callback err).

Definition onClose (c : t) : t * list Action :=
  let c := match conn c with
           | Some _ => set_conn None c
           | None => c
           end in
  if negb (bool_decide (status c = Closing))
     && negb (bool_decide (status c = Closed))
  then
    let c := set_status Connecting c in
    let '(c, acts) := innerConnect c in
    (c, EmitStatus Connecting :: acts)
  else (c, []).

Definition onError (err : string) (c : t) : t * list Action :=
  if negb (bool_decide (status c = Closed)) then (c, [EmitError err])
  else (c, []).

End AmqpConnection.

(** ** [general-mq/lib/mqtt-connection.js] *)

Module MqttConnection.

Record PacketHandler : Type := mkHandler {
  topic : string;
  qos : Z;
  handler : FunRef
}.

Record t : Type := mk {
  uri : string;
  reconnectMillis : Z;
  status : Status;
  (** [#conn]: the mqtt client, [None] for [null]. *)
  conn : option nat;
  packetHandlers : gmap string PacketHandler;
  listeners : list FunRef
}.

Definition set_status (s : Status) (c : t) : t :=
  mk (uri c) (reconnectMillis c) s (conn c) (packetHandlers c) (listeners c).
Definition set_conn (r : option nat) (c : t) : t :=
  mk (uri c) (reconnectMillis c) (status c) r (packetHandlers c) (listeners c).
Definition set_packetHandlers (m : gmap string PacketHandler) (c : t) : t :=
  mk (uri c) (reconnectMillis c) (status c) (conn c) m (listeners c).

(** The state the constructor leaves, for options that pass its checks. *)
Definition new (uri : string) (reconnectMillis : Z) : t :=
  mk uri reconnectMillis Closed None ∅ [].

Definition on (f : FunRef) (c : t) : t :=
  mk (uri c) (reconnectMillis c) (status c) (conn c) (packetHandlers c)
     (listeners c ++ [f]).

Definition removeAllListeners (c : t) : t :=
  mk (uri c) (reconnectMillis c) (status c) (conn c) (packetHandlers c) [].

Definition getRawConnection (c : t) : option nat := conn c.

(** [#innerConnect]: [mqtt.connect] returns the client at once; [raw] is
    the handle of the client it returns. *)
Definition innerConnect (raw : nat) (c : t) : t * list Action :=
  (set_conn (Some raw) c, [Raw (MqttLibConnect (uri c))]).

Definition connect (raw : nat) (c : t) : t * list Action :=
  if negb (bool_decide (status c = Closed))
     && negb (bool_decide (status c = Closing))
  then (c, [])
  else
    let c := set_status Connecting c in
    let '(c, acts) := innerConnect raw c in
    (c, EmitStatus Connecting :: acts).

Definition close (callback : JsVal) (c : t) : t * list Action :=
  let callback := orNull callback in
  match conn c with
  | None => (c, tick callback None)
  | Some _ =>
      (set_status Closing c, [EmitStatus Closing; Raw MqttEnd])
  end.

(** The closure given to [#conn.end], capturing [callback] as above. *)
Definition close_done (callback : JsVal) (err : option string) (c : t)
  : t * list Action :=
  let c := match conn c with
           | Some _ => set_conn None c
           | None => c
           end in
  (set_status Closed c, EmitStatus Closed :: tick callback err).

Definition addPacketHandler (name : string) (topic reliable handler : JsVal)
    (c : t) : Result t :=
  if negb (QueuePattern_test name) then
    Throw "`name` is not a valid queue name"
  else
    match topic with
    | JStr tp =>
        if negb (truthy topic) || negb (endsWith tp name) then
          Throw "`topic` is not a valid topic"
        else
          match reliable, handler with
          | JBool r, JFun h =>
              Ok (set_packetHandlers
                    (<[name := mkHandler tp (if r then 1 else 0) h]>
                       (packetHandlers c)) c)
          | JBool _, _ => Throw "`handler` is not a function"
          | _, _ => Throw "`reliable` is not a boolean"
          end
    | _ => Throw "`topic` is not a valid topic"
    end.

Definition removePacketHandler (name : string) (c : t) : Result t :=
  if negb (QueuePattern_test name) then
    Throw "`name` is not a valid queue name"
  else Ok (set_packetHandlers (delete name (packetHandlers c)) c).

Definition onClose (raw : nat) (c : t) : t * list Action :=
  let c := match conn c with
           | Some _ => set_conn None c
           | None => c
           end in
  if negb (bool_decide (status c = Closing))
     && negb (bool_decide (status c = Closed))
  then
    let c := set_status Connecting c in
    let '(c, acts) := innerConnect raw c in
    (c, EmitStatus Connecting :: acts)
  else (c, []).

Definition onConnect (c : t) : t * list Action :=
  match conn c with
  | Some _ => (set_status Connected c, [EmitStatus Connected])
  | None => (c, [])
  end.

Definition onError (err : string) (c : t) : t * list Action :=
  if negb (bool_decide (status c = Closed)) then (c, [EmitError err])
  else (c, []).

(** [#onMessage]: the handler to run, looked up under the inbound topic. *)
Definition onMessage (inbound : string) (c : t) : option FunRef :=
  handler <$> packetHandlers c !! inbound.

Definition onReconnect (c : t) : t * list Action :=
  if negb (bool_decide (status c = Closing))
     && negb (bool_decide (status c = Closed))
  then (set_status Connecting c, [EmitStatus Connecting])
  else (c, []).

End MqttConnection.

(** A value given where a connection is expected. *)
Inductive ConnArg : Type :=
| IsAmqp (c : AmqpConnection.t)
| IsMqtt (c : MqttConnection.t)
| NotConn (v : JsVal).

(** The options object given to a queue constructor.  [name] is kept at its
    documented type; [RegExp.test] would turn any other value into a string
    first. *)
Record QueueOpts : Type := mkQueueOpts {
  o_name : string;
  o_isRecv : JsVal;
  o_reliable : JsVal;
  o_broadcast : JsVal;
  o_reconnectMillis : JsVal;
  o_prefetch : JsVal;
  o_persistent : JsVal;
  o_sharedPrefix : JsVal
}.

(** An object with none of these fields; its missing name is tested by the
    pattern as the string it converts to. *)
Definition noQueueOpts : QueueOpts :=
  mkQueueOpts "undefined" JUndefined JUndefined JUndefined JUndefined
    JUndefined JUndefined JUndefined.

(** A value given where a [Buffer] is expected. *)
Inductive Payload : Type :=
| Buffer (bytes : list Byte.byte)
| NotBuffer (v : JsVal).

Definition DEF_RECONN : Z := 1000.

Definition asBool (v : JsVal) : bool :=
  match v with JBool b => b | _ => false end.
Definition asInt (v : JsVal) : Z :=
  match v with JInt z => z | _ => 0 end.

(** ** [general-mq/lib/mqtt-queue.js] *)

Module MqttQueue.

Record t : Type := mk {
  name : string;
  isRecv : bool;
  reliable : bool;
  broadcast : bool;
  reconnectMillis : Z;
  sharedPrefix : option string;
  status : Status;
  connProcessing : bool;
  msgHandler : option FunRef
}.

Definition set_status (s : Status) (q : t) : t :=
  mk (name q) (isRecv q) (reliable q) (broadcast q) (reconnectMillis q)
     (sharedPrefix q) s (connProcessing q) (msgHandler q).
Definition set_connProcessing (b : bool) (q : t) : t :=
  mk (name q) (isRecv q) (reliable q) (broadcast q) (reconnectMillis q)
     (sharedPrefix q) (status q) b (msgHandler q).
Definition set_msgHandler (h : option FunRef) (q : t) : t :=
  mk (name q) (isRecv q) (reliable q) (broadcast q) (reconnectMillis q)
     (sharedPrefix q) (status q) (connProcessing q) h.

Definition constructor (opts : Arg QueueOpts) (conn : ConnArg)
  : Result (t * MqttConnection.t) :=
  if notAnObject opts then Throw "`opts` is not an object"
  else
    let o := fields noQueueOpts opts in
    match conn with
    | IsMqtt c =>
        if negb (QueuePattern_test (o_name o)) then
          Throw "`name` is not match pattern `^[a-z0-9_-]+([\.]{1}[a-z0-9_-]+)*$`"
        else if negb (bool_decide (typeof (o_isRecv o) = TBoolean)) then
          Throw "`isRecv` is not boolean"
        else if negb (bool_decide (typeof (o_reliable o) = TBoolean)) then
          Throw "`reliable` is not boolean"
        else if negb (bool_decide (typeof (o_broadcast o) = TBoolean)) then
          Throw "`broadcast` is not boolean"
        else if negb (isUndefined (o_sharedPrefix o))
                && (negb (truthy (o_sharedPrefix o))
                    || negb (bool_decide (typeof (o_sharedPrefix o) = TString)))
        then Throw "`sharedPrefix` must be a string"
        else if negb (isUndefined (o_reconnectMillis o))
                && (negb (Number_isInteger (o_reconnectMillis o))
                    || numLt (o_reconnectMillis o) 0)
        then Throw "`reconnectMillis` must be a positive integer"
        else
          Ok (mk (o_name o) (asBool (o_isRecv o)) (asBool (o_reliable o))
                (asBool (o_broadcast o))
                (asInt (orElse (o_reconnectMillis o) (JInt DEF_RECONN)))
                (match o_sharedPrefix o with
                 | JStr p => Some p
                 | _ => None
                 end)
                Closed false None,
              MqttConnection.on (QueueOnConnStatusChanged (o_name o)) c)
    | _ => Throw "`conn` is not a `MqttConnection` object"
    end.

Definition setMsgHandler (handler : JsVal) (q : t) : Result t :=
  match handler with
  | JFun h => Ok (set_msgHandler (Some h) q)
  | _ => Throw "the handler is not a function"
  end.

(** [#topic] *)
Definition topic (q : t) : string :=
  if isRecv q && negb (broadcast q) then
    template (sharedPrefix q) ++ name q
  else name q.

Definition qos (q : t) : Z := if reliable q then 1 else 0.

(** [#innerConnect] *)
Definition innerConnect (q : t) (c : MqttConnection.t) : t * list Action :=
  if negb (bool_decide (status q = Connecting)) || connProcessing q then
    (q, [])
  else
    let q := set_connProcessing true q in
    if negb (bool_decide (MqttConnection.status c = Connected)) then
      (set_connProcessing false q,
       [SetTimeout InnerConnect (reconnectMillis q)])
    else
      match MqttConnection.getRawConnection c with
      | None =>
          (set_connProcessing false q,
           [SetTimeout InnerConnect (reconnectMillis q)])
      | Some _ =>
          if negb (isRecv q) then
            (set_status Connected (set_connProcessing false q),
             [EmitStatus Connected])
          else (q, [Raw (MqttSubscribe (topic q) (qos q))])
      end.

(** The closure given to [rawConn.subscribe]. *)
Definition subscribe_done (err : option string) (q : t) : t * list Action :=
  let q := set_connProcessing false q in
  match err with
  | Some _ => (q, [SetTimeout InnerConnect (reconnectMillis q)])
  | None => (set_status Connected q, [EmitStatus Connected])
  end.

Definition connect (q : t) (c : MqttConnection.t)
  : Result (t * MqttConnection.t * list Action) :=
  if isRecv q && negb (bool_decide (is_Some (msgHandler q))) then
    Throw Errors.NoMsgHandler
  else if negb (bool_decide (status q = Closed))
          && negb (bool_decide (status q = Closing))
  then Ok (q, c, [])
  else
    let! c :=
      (if isRecv q then
         MqttConnection.addPacketHandler (name q) (JStr (topic q))
           (JBool (reliable q)) (JFun (QueueInnerOnMessage (name q))) c
       else Ok c) in
    let q := set_status Connecting q in
    let '(q, acts) := innerConnect q c in
    Ok (q, c, EmitStatus Connecting :: acts).

Definition close (callback : JsVal) (q : t) (c : MqttConnection.t)
  : t * list Action :=
  let callback := orNull callback in
  if bool_decide (status q = Closing) || bool_decide (status q = Closed)
     || negb (bool_decide (is_Some (MqttConnection.getRawConnection c)))
  then (q, tick callback None)
  else
    (set_status Closing q,
     [EmitStatus Closing; Raw (MqttUnsubscribe (topic q))]).

(** The closure given to [rawConn.unsubscribe], capturing the [callback]
    that [close] has normalised. *)
Definition close_done (callback : JsVal) (err : option string) (q : t)
    (c : MqttConnection.t) : Result (t * MqttConnection.t * list Action) :=
  let! c :=
    (if isRecv q then MqttConnection.removePacketHandler (name q) c
     else Ok c) in
  Ok (set_status Closed q, c, EmitStatus Closed :: tick callback err).

Definition sendMsg (payload : Payload) (callback : JsVal) (q : t)
    (c : MqttConnection.t) : Result (list Action) :=
  match payload, callback with
  | NotBuffer _, _ => Throw "`payload` is not a Buffer"
  | Buffer bytes, JFun cb =>
      if negb (bool_decide (status q = Connected)) then
        Ok [NextTick (Call cb (Some Errors.NotConnected))]
      else if isRecv q then
        Ok [NextTick (Call cb (Some Errors.QueueIsReceiver))]
      else
        match MqttConnection.getRawConnection c with
        | None => Throw "TypeError: Cannot read properties of null"
        | Some _ => Ok [Raw (MqttPublish (topic q) bytes (qos q))]
        end
  | Buffer _, _ => Throw "`callback` is not a function"
  end.

(** The closure given to [rawConn.publish]. *)
Definition sendMsg_done (cb : FunRef) (err : option string) : list Action :=
  [Now (Call cb err)].

Definition ack (msg : Arg Payload) (callback : JsVal) (q : t)
  : Result (list Action) :=
  if notAnObject msg then Throw "`msg` is not an object"
  else match callback with
       | JFun cb => Ok [NextTick (Call cb None)]
       | _ => Throw "`callback` is not a function"
       end.

Definition nack (msg : Arg Payload) (callback : JsVal) (q : t)
  : Result (list Action) :=
  if notAnObject msg then Throw "`msg` is not an object"
  else match callback with
       | JFun cb => Ok [NextTick (Call cb None)]
       | _ => Throw "`callback` is not a function"
       end.

(** [#innerOnMessage]: the handler that receives the message, if any. *)
Definition innerOnMessage (q : t) : option FunRef := msgHandler q.

(** [#onConnStatusChanged] *)
Definition onConnStatusChanged (s : Status) (q : t) (c : MqttConnection.t)
  : t * list Action :=
  match s with
  | Closed | Closing | Connecting | Disconnected =>
      if bool_decide (status q = Closing) || bool_decide (status q = Closed)
         || bool_decide (status q = Connecting)
      then (q, [])
      else
        (set_status Connecting q,
         [EmitStatus Connecting; SetTimeout InnerConnect (reconnectMillis q)])
  | Connected => innerConnect q c
  end.

End MqttQueue.

(** ** [general-mq/lib/amqp-queue.js] *)

Module AmqpQueue.

Record t : Type := mk {
  name : string;
  isRecv : bool;
  reliable : bool;
  broadcast : bool;
  reconnectMillis : Z;
  prefetch : JsVal;
  persistent : bool;
  status : Status;
  connProcessing : bool;
  (** [#channel]: the amqplib channel, [None] for [null]. *)
  channel : option nat;
  msgHandler : option FunRef
}.

Definition set_status (s : Status) (q : t) : t :=
  mk (name q) (isRecv q) (reliable q) (broadcast q) (reconnectMillis q)
     (prefetch q) (persistent q) s (connProcessing q) (channel q)
     (msgHandler q).
Definition set_connProcessing (b : bool) (q : t) : t :=
  mk (name q) (isRecv q) (reliable q) (broadcast q) (reconnectMillis q)
     (prefetch q) (persistent q) (status q) b (channel q) (msgHandler q).
Definition set_channel (ch : option nat) (q : t) : t :=
  mk (name q) (isRecv q) (reliable q) (broadcast q) (reconnectMillis q)
     (prefetch q) (persistent q) (status q) (connProcessing q) ch
     (msgHandler q).
Definition set_msgHandler (h : option FunRef) (q : t) : t :=
  mk (name q) (isRecv q) (reliable q) (broadcast q) (reconnectMillis q)
     (prefetch q) (persistent q) (status q) (connProcessing q) (channel q) h.

Definition constructor (opts : Arg QueueOpts) (conn : ConnArg)
  : Result (t * AmqpConnection.t) :=
  if notAnObject opts then Throw "`opts` is not an object"
  else
    let o := fields noQueueOpts opts in
    match conn with
    | IsAmqp c =>
        if negb (QueuePattern_test (o_name o)) then
          Throw "`name` is not match pattern `^[a-z0-9_-]+([\.]{1}[a-z0-9_-]+)*$`"
        else if negb (bool_decide (typeof (o_isRecv o) = TBoolean)) then
          Throw "`isRecv` is not boolean"
        else if negb (bool_decide (typeof (o_reliable o) = TBoolean)) then
          Throw "`reliable` is not boolean"
        else if negb (bool_decide (typeof (o_broadcast o) = TBoolean)) then
          Throw "`broadcast` is not boolean"
        else if truthy (o_isRecv o)
                && (negb (Number_isInteger (o_prefetch o))
                    || numLe (o_prefetch o) 0 || numGt (o_prefetch o) 65535)
        then Throw "`prefetch` must be a positive integer between 1 to 65535"
        else if negb (isUndefined (o_reconnectMillis o))
                && (negb (Number_isInteger (o_reconnectMillis o))
                    || numLt (o_reconnectMillis o) 0)
        then Throw "`reconnectMillis` must be a positive integer"
        else if negb (isUndefined (o_persistent o))
                && negb (bool_decide (typeof (o_persistent o) = TBoolean))
        then Throw "`persistent` is not boolean"
        else
          Ok (mk (o_name o) (asBool (o_isRecv o)) (asBool (o_reliable o))
                (asBool (o_broadcast o))
                (asInt (orElse (o_reconnectMillis o) (JInt DEF_RECONN)))
                (o_prefetch o)
                (asBool (orElse (o_persistent o) (JBool false)))
                Closed false None None,
              AmqpConnection.on (QueueOnConnStatusChanged (o_name o)) c)
    | _ => Throw "`conn` is not a `AmqpConnection` object"
    end.

Definition setMsgHandler (handler : JsVal) (q : t) : Result t :=
  match handler with
  | JFun h => Ok (set_msgHandler (Some h) q)
  | _ => Throw "the handler is not a function"
  end.

(** [#innerConnect], up to the first call of its waterfall; the calls that
    declare the exchange or queue and start the consumer follow on the
    channel, and [innerConnect_done] is the closure that ends the
    waterfall. *)
Definition innerConnect (q : t) (c : AmqpConnection.t) : t * list Action :=
  if negb (bool_decide (status q = Connecting)) || connProcessing q then
    (q, [])
  else
    let q := set_connProcessing true q in
    if negb (bool_decide (AmqpConnection.status c = Connected)) then
      (set_connProcessing false q,
       [SetTimeout InnerConnect (reconnectMillis q)])
    else
      match AmqpConnection.getRawConnection c with
      | None =>
          (set_connProcessing false q,
           [SetTimeout InnerConnect (reconnectMillis q)])
      | Some _ => (q, [Raw (AmqplibCreateChannel (reliable q))])
      end.

(** The closure that ends the waterfall, with the error it throws, if any.
    [errorListener] says whether a listener of the [error] event is
    registered on the queue: an [EventEmitter] without one throws the
    error it is asked to emit, so that the statement after the [emit], the
    retry timer, is not reached. *)
Definition innerConnect_done (errorListener : bool) (res : string + nat)
    (q : t) : t * list Action * option string :=
  let q := set_connProcessing false q in
  match res with
  | inl err =>
      if errorListener then
        (q, [EmitError err; SetTimeout InnerConnect (reconnectMillis q)],
         None)
      else (q, [], Some err)
  | inr ch =>
      (set_status Connected (set_channel (Some ch) q), [EmitStatus Connected],
       None)
  end.

Definition connect (q : t) (c : AmqpConnection.t) : Result (t * list Action) :=
  if isRecv q && negb (bool_decide (is_Some (msgHandler q))) then
    Throw Errors.NoMsgHandler
  else if negb (bool_decide (status q = Closed))
          && negb (bool_decide (status q = Closing))
  then Ok (q, [])
  else
    let q := set_status Connecting q in
    let '(q, acts) := innerConnect q c in
    Ok (q, EmitStatus Connecting :: acts).

(** [close], with the error it throws, if any: without a channel and
    without a callback the method goes on to call [close] on the [null]
    channel. *)
Definition close (callback : JsVal) (q : t)
  : t * list Action * option string :=
  let callback := orNull callback in
  if bool_decide (status q = Closing) || bool_decide (status q = Closed) then
    (q, tick callback None, None)
  else
    match channel q with
    | None =>
        if truthy callback then
          (set_status Closed q, EmitStatus Closed :: tick callback None, None)
        else
          (set_status Closing q, [EmitStatus Closed; EmitStatus Closing],
           Some "TypeError: Cannot read properties of null")
    | Some _ =>
        (set_status Closing q, [EmitStatus Closing; Raw ChannelClose], None)
    end.

(** The closure given to [#channel.close]. *)
Definition close_done (callback : JsVal) (err : option string) (q : t)
  : t * list Action :=
  let q := match channel q with
           | Some _ => set_channel None q
           | None => q
           end in
  (set_status Closed q, EmitStatus Closed :: tick callback err).

Definition sendMsg (payload : Payload) (callback : JsVal) (q : t)
  : Result (list Action) :=
  match payload, callback with
  | NotBuffer _, _ => Throw "`payload` is not a Buffer"
  | Buffer bytes, JFun cb =>
      if negb (bool_decide (status q = Connected)) then
        Ok [NextTick (Call cb (Some Errors.NotConnected))]
      else if isRecv q then
        Ok [NextTick (Call cb (Some Errors.QueueIsReceiver))]
      else
        let exchange := if broadcast q then name q else "" in
        let routingKey := if broadcast q then "" else name q in
        match channel q with
        | None => Throw "TypeError: Cannot read properties of null"
        | Some _ =>
            if reliable q then
              Ok [Raw (ChannelPublish exchange routingKey bytes
                         MandatoryConfirm)]
            else
              Ok [Raw (ChannelPublish exchange routingKey bytes
                         (Persistent (persistent q)));
                  SetTimeout (Call cb None) 1]
        end
  | Buffer _, _ => Throw "`callback` is not a function"
  end.

(** The closure given to the confirmed [#channel.publish]. *)
Definition sendMsg_done (cb : FunRef) (err : option string) : list Action :=
  [Now (Call cb err)].

(** [#onClose] *)
Definition onClose (q : t) : t * list Action :=
  let q := match channel q with
           | Some _ => set_channel None q
           | None => q
           end in
  if bool_decide (status q = Closing) || bool_decide (status q = Closed)
     || bool_decide (status q = Connecting)
  then (q, [])
  else
    (set_status Connecting q,
     [EmitStatus Connecting; SetTimeout InnerConnect (reconnectMillis q)]).

(** [#onConnStatusChanged] *)
Definition onConnStatusChanged (s : Status) (q : t) (c : AmqpConnection.t)
  : t * list Action :=
  match s with
  | Closed | Closing | Connecting | Disconnected => onClose q
  | Connected => innerConnect q c
  end.

End AmqpQueue.

(** ** [sdk/mq/constants.js] and [sdk/mq/lib.js] *)

Inductive MgrStatus : Type := NotReady | Ready.

#[global] Instance MgrStatus_eq_dec : EqDecision MgrStatus.
Proof. solve_decision. Defined.

(** A queue of either engine. *)
Inductive Queue : Type :=
| AmqpQ (q : AmqpQueue.t)
| MqttQ (q : MqttQueue.t).

Definition queue_name (q : Queue) : string :=
  match q with
  | AmqpQ q => AmqpQueue.name q
  | MqttQ q => MqttQueue.name q
  end.

Definition queue_status (q : Queue) : Status :=
  match q with
  | AmqpQ q => AmqpQueue.status q
  | MqttQ q => MqttQueue.status q
  end.

Definition queue_isRecv (q : Queue) : bool :=
  match q with
  | AmqpQ q => AmqpQueue.isRecv q
  | MqttQ q => MqttQueue.isRecv q
  end.

(** The status a queue stores just before it emits it. *)
Definition queue_set_status (s : Status) (q : Queue) : Queue :=
  match q with
  | AmqpQ q => AmqpQ (AmqpQueue.set_status s q)
  | MqttQ q => MqttQ (MqttQueue.set_status s q)
  end.

(** [queue.sendMsg(payload, callback)] for a queue of either engine.  [mc]
    is the connection of the queue when it is an MQTT queue; an AMQP queue
    does not read its connection when it sends. *)
Definition queue_sendMsg (payload : Payload) (callback : JsVal) (q : Queue)
    (mc : MqttConnection.t) : Result (list Action) :=
  match q with
  | AmqpQ a => AmqpQueue.sendMsg payload callback a
  | MqttQ m => MqttQueue.sendMsg payload callback m mc
  end.

(** [queue.close(callback)] for a queue of either engine, given a
    function; with one the AMQP queue's [close] does not throw. *)
Definition queue_close (callback : FunRef) (q : Queue) (mc : MqttConnection.t)
  : Queue * list Action :=
  match q with
  | AmqpQ a =>
      let '(a, acts, _) := AmqpQueue.close (JFun callback) a in (AmqpQ a, acts)
  | MqttQ m =>
      let '(m, acts) := MqttQueue.close (JFun callback) m mc in (MqttQ m, acts)
  end.

(** The closure [close] gave to the broker client, run with the outcome
    [err] of the call it was given to. *)
Definition queue_close_done (callback : FunRef) (err : option string)
    (q : Queue) (mc : MqttConnection.t)
  : Result (Queue * MqttConnection.t * list Action) :=
  match q with
  | AmqpQ a =>
      let '(a, acts) := AmqpQueue.close_done (JFun callback) err a in
      Ok (AmqpQ a, mc, acts)
  | MqttQ m =>
      let! (m, mc, acts) := MqttQueue.close_done (JFun callback) err m mc in
      Ok (MqttQ m, mc, acts)
  end.

(** The statuses among the effects, in the order they are emitted. *)
Definition statusesOf (acts : list Action) : list Status :=
  omap (fun a => match a with EmitStatus s => Some s | _ => None end) acts.

(** The effects hand a closure to the broker client. *)
Definition startsRawCall (acts : list Action) : bool :=
  existsb (fun a => match a with Raw _ => true | _ => false end) acts.

(** The argument of the first call of [f] that the effects schedule or
    make, if there is one. *)
Fixpoint calledWith (f : FunRef) (acts : list Action)
  : option (option string) :=
  match acts with
  | [] => None
  | (Now (Call g err) | NextTick (Call g err)) :: rest =>
      if bool_decide (g = f) then Some err else calledWith f rest
  | _ :: rest => calledWith f rest
  end.

(** How a task of [async.waterfall] ends, for tasks whose closure
    [(err) => { cb(err || null); }] is all that calls [cb]: the closure is
    called, and the waterfall goes on when [err] is [null]; or nothing
    calls it; or what was to call it threw. *)
Inductive TaskEnd : Type :=
| Passed (err : option string)
| Pending
| Threw (msg : string).

Definition taskEnd (f : FunRef) (acts : list Action) : TaskEnd :=
  match calledWith f acts with
  | Some err => Passed err
  | None => Pending
  end.

(** [async.waterfall] on tasks that hand no value on: the tasks run in
    order until one does not pass [null]. *)
Fixpoint waterfall {St : Type} (tasks : list (St -> St * TaskEnd)) (s : St)
  : St * TaskEnd :=
  match tasks with
  | [] => (s, Passed None)
  | task :: rest =>
      let '(s, e) := task s in
      match e with
      | Passed None => waterfall rest s
      | _ => (s, e)
      end
  end.

(** [queue.close(f)] through to its end: when [close] hands a closure to
    the broker client, [err] is the outcome the client reports to it. *)
Definition queue_closeTask (f : FunRef) (err : option string) (q : Queue)
    (mc : MqttConnection.t)
  : Queue * MqttConnection.t * list Action * TaskEnd :=
  let '(q1, acts1) := queue_close f q mc in
  if startsRawCall acts1 then
    match queue_close_done f err q1 mc with
    | Throw msg => (q1, mc, acts1, Threw msg)
    | Ok (q2, mc2, acts2) =>
        (q2, mc2, (acts1 ++ acts2)%list, taskEnd f (acts1 ++ acts2))
    end
  else (q1, mc, acts1, taskEnd f acts1).

Module Lib.

(** A connection of either engine. *)
Inductive GmqConn : Type :=
| Amqp (c : AmqpConnection.t)
| Mqtt (c : MqttConnection.t).

(** [class Connection]: the connection with its reference count. *)
Record Connection : Type := mkConnection {
  conn : GmqConn;
  count : Z
}.

Definition Connection_new (c : ConnArg) : Result Connection :=
  match c with
  | IsAmqp a => Ok (mkConnection (Amqp a) 0)
  | IsMqtt m => Ok (mkConnection (Mqtt m) 0)
  | NotConn _ => Throw "invalid `conn`"
  end.

Definition DEF_PREFETCH : Z := 100.
Definition DEF_PERSISTENT : bool := false.

(** The parts of a [URL] the pool reads. *)
Record URL : Type := mkURL {
  href : string;
  protocol : string
}.

Definition getConnection (connPool : gmap string Connection) (hostUri : URL)
  : Result (gmap string Connection * Connection) :=
  let uri := href hostUri in
  match connPool !! uri with
  | Some conn => Ok (connPool, conn)
  | None =>
      let! c :=
        (if String.eqb (protocol hostUri) "amqp:"
            || String.eqb (protocol hostUri) "amqps:"
         then Ok (IsAmqp (AmqpConnection.new uri DEF_RECONN))
         else if String.eqb (protocol hostUri) "mqtt:"
                 || String.eqb (protocol hostUri) "mqtts:"
         then Ok (IsMqtt (MqttConnection.new uri DEF_RECONN))
         else Throw ("unsupport scheme " ++ protocol hostUri)) in
      let! conn := Connection_new c in
      Ok (<[uri := conn]> connPool, conn)
  end.

Definition conn_removeAllListeners (g : GmqConn) : GmqConn :=
  match g with
  | Amqp c => Amqp (AmqpConnection.removeAllListeners c)
  | Mqtt c => Mqtt (MqttConnection.removeAllListeners c)
  end.

Definition conn_close (callback : JsVal) (g : GmqConn)
  : GmqConn * list Action :=
  match g with
  | Amqp c => let '(c, acts) := AmqpConnection.close callback c in
              (Amqp c, acts)
  | Mqtt c => let '(c, acts) := MqttConnection.close callback c in
              (Mqtt c, acts)
  end.

Definition conn_listeners (g : GmqConn) : list FunRef :=
  match g with
  | Amqp c => AmqpConnection.listeners c
  | Mqtt c => MqttConnection.listeners c
  end.

Definition conn_status (g : GmqConn) : Status :=
  match g with
  | Amqp c => AmqpConnection.status c
  | Mqtt c => MqttConnection.status c
  end.

Definition conn_raw (g : GmqConn) : option nat :=
  match g with
  | Amqp c => AmqpConnection.getRawConnection c
  | Mqtt c => MqttConnection.getRawConnection c
  end.

(** [removeConnection].  The pool entry and the value the function works on
    are one object: when the entry stays in the pool it shows what was done
    to the connection.  The closure given to [close] passes [err || null] on
    to [callback], which for an optional error is the error itself.  The
    result is the pool, the connection object as the call leaves it, and the
    effects. *)
Definition removeConnection (connPool : gmap string Connection)
    (hostUri : string) (n : Z) (callback : FunRef)
  : gmap string Connection * option Connection * list Action :=
  match connPool !! hostUri with
  | None => (connPool, None, [NextTick (Call callback None)])
  | Some conn0 =>
      let cnt := count conn0 - n in
      let '(g, acts) :=
        conn_close (JFun callback) (conn_removeAllListeners (conn conn0)) in
      let conn1 := mkConnection g cnt in
      (if cnt <=? 0 then delete hostUri connPool
       else <[hostUri := conn1]> connPool,
       Some conn1, acts)
  end.

(** [DataMqStatus] *)
Record DataMqStatus : Type := mkStatus {
  st_uldata : Status;
  st_dldata : Status;
  st_dldataResp : Status;
  st_dldataResult : Status;
  st_ctrl : Status
}.

(** [Options] *)
Record Options : Type := mkOptions {
  unitId : JsVal;
  unitCode : JsVal;
  id : JsVal;
  name : JsVal;
  prefetch : JsVal;
  persistent : JsVal;
  sharedPrefix : JsVal
}.

Definition noOptions : Options :=
  mkOptions JUndefined JUndefined JUndefined JUndefined JUndefined JUndefined
    JUndefined.

Definition set_prefetch (v : JsVal) (o : Options) : Options :=
  mkOptions (unitId o) (unitCode o) (id o) (name o) v (persistent o)
    (sharedPrefix o).

(** A value given where a [Connection] is expected. *)
Inductive ConnectionArg : Type :=
| IsConnection (c : Connection)
| NotConnection (v : JsVal).

(** [DataMqQueues] *)
Record DataMqQueues : Type := mkQueues {
  uldata : Queue;
  dldata : Queue;
  dldataResp : option Queue;
  dldataResult : Queue;
  ctrl : option Queue
}.

(** [new engine.Queue(qOpts, conn.conn)] with
    [engine = conn.conn instanceof MqttConnection ? gmq.mqtt : gmq.amqp]. *)
Definition engine_Queue (qOpts : QueueOpts) (g : GmqConn)
  : Result (Queue * GmqConn) :=
  match g with
  | Mqtt c =>
      let! (q, c) := MqttQueue.constructor (Obj qOpts) (IsMqtt c) in
      Ok (MqttQ q, Mqtt c)
  | Amqp c =>
      let! (q, c) := AmqpQueue.constructor (Obj qOpts) (IsAmqp c) in
      Ok (AmqpQ q, Amqp c)
  end.

(** The string a template literal puts for a value that is a string. *)
Definition str (v : JsVal) : string :=
  match v with JStr s => s | _ => "" end.

(** [newDataQueues].  The queues differ in name suffix and direction only,
    and the prefetch handed to them is never out of range: their
    constructors all return or the first one throws, so that a [Throw]
    leaves no listener behind on the connection. *)
Definition newDataQueues (conn : ConnectionArg) (opts : Arg Options)
    (prefix isNetwork : JsVal) : Result (DataMqQueues * Connection) :=
  match conn with
  | NotConnection _ => Throw "`conn` is not a Connection"
  | IsConnection conn =>
  if notAnObject opts then Throw "`opts` is not an object"
  else
  let o := fields noOptions opts in
  if negb (truthy prefix) || negb (bool_decide (typeof prefix = TString)) then
    Throw "`prefix` is not a string"
  else if negb (bool_decide (typeof isNetwork = TBoolean)) then
    Throw "`isNetwork` is not a boolean"
  else if negb (isUndefined (unitId o))
          && negb (bool_decide (typeof (unitId o) = TString)) then
    Throw "`opts.unitId` is not a string"
  else if negb (isUndefined (unitCode o))
          && negb (bool_decide (typeof (unitCode o) = TString)) then
    Throw "`opts.unitCode` is not a string"
  else if negb (truthy (id o))
          || negb (bool_decide (typeof (id o) = TString)) then
    Throw "`opts.id` is not a non-empty string"
  else if negb (truthy (name o))
          || negb (bool_decide (typeof (name o) = TString)) then
    Throw "`opts.name` is not a non-empty string"
  else if negb (isUndefined (prefetch o))
          && (negb (Number_isInteger (prefetch o))
              || numLt (prefetch o) 0 || numGt (prefetch o) 65535) then
    Throw "`opts.prefetch` is not an integer between 1 and 65535"
  else if negb (isUndefined (persistent o))
          && negb (bool_decide (typeof (persistent o) = TBoolean)) then
    Throw "`opts.persistent` is not a boolean"
  else if negb (isUndefined (sharedPrefix o))
          && negb (bool_decide (typeof (sharedPrefix o) = TString)) then
    Throw "`opts.sharedPrefix` is not a string"
  else if truthy (unitId o) && negb (truthy (unitCode o))
          || negb (truthy (unitId o)) && truthy (unitCode o) then
    Throw "`opts.unitId` and `opts.unitCode` must both empty or non-empty"
  else
    let isNet := asBool isNetwork in
    let qNamePrefix :=
      str prefix ++ "." ++ str (orElse (unitCode o) (JStr "_")) ++ "."
        ++ str (name o) in
    let qOpts (role : string) (isRecv : bool) : QueueOpts :=
      mkQueueOpts (qNamePrefix ++ role) (JBool isRecv) (JBool true)
        (JBool false) JUndefined
        (orElse (prefetch o) (JInt DEF_PREFETCH))
        (orElse (persistent o) (JBool DEF_PERSISTENT))
        (sharedPrefix o) in
    let g := Lib.conn conn in
    let! (uldata, g) := engine_Queue (qOpts ".uldata" (negb isNet)) g in
    let! (dldata, g) := engine_Queue (qOpts ".dldata" isNet) g in
    let! (dldataResp, g) :=
      (if isNet then Ok (None, g)
       else let! (q, g) :=
              engine_Queue (qOpts ".dldata-resp" (negb isNet)) g in
            Ok (Some q, g)) in
    let! (dldataResult, g) :=
      engine_Queue (qOpts ".dldata-result" (negb isNet)) g in
    let! (ctrl, g) :=
      (if isNet then
         let! (q, g) := engine_Queue (qOpts ".ctrl" true) g in
         Ok (Some q, g)
       else Ok (None, g)) in
    Ok (mkQueues uldata dldata dldataResp dldataResult ctrl,
        mkConnection g (count conn))
  end.

End Lib.

(** The closure [close] of a connection gave to the broker client. *)
Definition conn_close_done (callback : FunRef) (err : option string)
    (g : Lib.GmqConn) : Lib.GmqConn * list Action :=
  match g with
  | Lib.Amqp c =>
      let '(c, acts) := AmqpConnection.close_done (JFun callback) err c in
      (Lib.Amqp c, acts)
  | Lib.Mqtt c =>
      let '(c, acts) := MqttConnection.close_done (JFun callback) err c in
      (Lib.Mqtt c, acts)
  end.

(** [removeConnection(connPool, hostUri, 4, f)] through to its end: when
    the connection's [close] hands a closure to the broker client,
    [connErr] is the outcome the client reports to it.  An entry that
    stays in the pool is the connection object that was closed. *)
Definition removeConnectionTask (f : FunRef) (connErr : option string)
    (connPool : gmap string Lib.Connection) (hostUri : string)
  : gmap string Lib.Connection * list Action * TaskEnd :=
  let '(pool, worked, acts) := Lib.removeConnection connPool hostUri 4 f in
  match worked with
  | Some c =>
      if startsRawCall acts then
        let '(g, acts') := conn_close_done f connErr (Lib.conn c) in
        let pool :=
          match pool !! hostUri with
          | Some _ => <[hostUri := Lib.mkConnection g (Lib.count c)]> pool
          | None => pool
          end in
        (pool, (acts ++ acts')%list, taskEnd f (acts ++ acts'))
      else (pool, acts, taskEnd f acts)
  | None => (pool, acts, taskEnd f acts)
  end.

(** ** Values the managers are given *)

(** A value given where a [Date] is expected: a [Date] with its time value
    in milliseconds, [None] for an invalid date, or something else. *)
Inductive DateArg : Type :=
| IsDate (time : option Z)
| NotDate (v : JsVal).

(** [a !== undefined], for an argument that should be an object. *)
Definition given {R : Type} (a : Arg R) : bool :=
  match a with
  | NotObj JUndefined => false
  | _ => true
  end.

(** [buf.toString('hex')]: two lower-case digits for each byte. *)
Definition hexDigit (n : N) : ascii :=
  nth (N.to_nat n) (list_ascii_of_string "0123456789abcdef") "0"%char.

Fixpoint Buffer_toString_hex (bytes : list Byte.byte) : string :=
  match bytes with
  | [] => EmptyString
  | b :: rest =>
      String (hexDigit (N.div (Byte.to_N b) 16))
        (String (hexDigit (N.modulo (Byte.to_N b) 16))
           (Buffer_toString_hex rest))
  end.

(** ** [sdk/mq/network.js] *)

Module NetworkMgr.

(** What [JSON.parse] returns; a number is [m * 10^e]. *)
#[warnings="-register-all"]
Inductive Json : Type :=
| JsonNull
| JsonBool (b : bool)
| JsonNum (m e : Z)
| JsonStr (s : string)
| JsonArr (items : list Json)
| JsonObj (members : list (string * Json)).

(** Values that can hold a property; on the others the assignment
    [data.p = v] of strict code throws a [TypeError]. *)
Definition holdsProperties (data : Json) : bool :=
  match data with
  | JsonArr _ | JsonObj _ => true
  | _ => false
  end.

Fixpoint member (key : string) (members : list (string * Json))
  : option Json :=
  match members with
  | [] => None
  | (k, v) :: rest => if String.eqb k key then Some v else member key rest
  end.

(** [data.key] for a non-numeric key other than [length]; [None] is
    [undefined]. *)
Definition get (key : string) (data : Json) : option Json :=
  match data with
  | JsonObj members => member key members
  | _ => None
  end.

(** Whether the conversion of a parsed value to a primitive throws, as
    [new Date(v)] and the conversion of an array element to a number apply
    it.  A value parsed from JSON has no callable member, so a member
    [toString] of an object hides [Object.prototype.toString]: neither
    [valueOf] nor [toString] then returns a primitive and the conversion
    throws a [TypeError].  An array is joined, which converts its elements
    in turn. *)
Fixpoint toPrimitiveThrows (v : Json) : bool :=
  match v with
  | JsonObj members =>
      match member "toString" members with
      | Some _ => true
      | None => false
      end
  | JsonArr items => existsb toPrimitiveThrows items
  | _ => false
  end.

(** Whether [new Date(v)] returns, [None] being [undefined]. *)
Definition Date_returns (v : option Json) : bool :=
  match v with
  | Some j => negb (toPrimitiveThrows j)
  | None => true
  end.

(** What a user handler does with the completion callback it is given: the
    arguments of its calls of the callback, in order, and the error it
    throws, if any. *)
Record Reaction : Type := mkReaction {
  calls : list JsVal;
  throws : option string
}.

(** [NetMgrMsgHandlers].  A handler is given the parsed object with its
    fields converted; the conversions are functions of the parsed value, so
    the handler is a function of that value. *)
Record NetMgrMsgHandlers : Type := mkHandlers {
  onDlData : Json -> Reaction;
  onCtrl : Json -> Reaction
}.

Record t : Type := mk {
  opts : Lib.Options;
  hostUri : string;
  uldata : Queue;
  dldata : Queue;
  dldataResult : Queue;
  ctrl : Queue;
  status : MgrStatus;
  mgrMsgHandler : NetMgrMsgHandlers
}.

Definition set_status (s : MgrStatus) (m : t) : t :=
  mk (opts m) (hostUri m) (uldata m) (dldata m) (dldataResult m) (ctrl m) s
     (mgrMsgHandler m).

(** What the manager does to its user and to its queues. *)
Inductive Effect : Type :=
| Emit (s : MgrStatus)
| CallOnDlData (data : Json)
| CallOnCtrl (data : Json)
| Ack (queue : string)
| Nack (queue : string).

(** [#gmqStatusHandler] *)
Definition gmqStatusHandler (m : t) : t * list Effect :=
  let status' :=
    if bool_decide (queue_status (uldata m) = Connected)
       && bool_decide (queue_status (dldata m) = Connected)
       && bool_decide (queue_status (dldataResult m) = Connected)
       && bool_decide (queue_status (ctrl m) = Connected)
    then Ready else NotReady in
  if bool_decide (status m = status') then (m, [])
  else (set_status status' m, [Emit status']).

(** The queues of a manager. *)
Inductive Role : Type := Uldata | Dldata | DldataResult | Ctrl.

Definition queueOf (r : Role) (m : t) : Queue :=
  match r with
  | Uldata => uldata m
  | Dldata => dldata m
  | DldataResult => dldataResult m
  | Ctrl => ctrl m
  end.

Definition set_queue (r : Role) (q : Queue) (m : t) : t :=
  match r with
  | Uldata =>
      mk (opts m) (hostUri m) q (dldata m) (dldataResult m) (ctrl m)
         (status m) (mgrMsgHandler m)
  | Dldata =>
      mk (opts m) (hostUri m) (uldata m) q (dldataResult m) (ctrl m)
         (status m) (mgrMsgHandler m)
  | DldataResult =>
      mk (opts m) (hostUri m) (uldata m) (dldata m) q (ctrl m)
         (status m) (mgrMsgHandler m)
  | Ctrl =>
      mk (opts m) (hostUri m) (uldata m) (dldata m) (dldataResult m) q
         (status m) (mgrMsgHandler m)
  end.

(** A queue of the manager stores a new status and emits it: the listener
    the constructor registered runs. *)
Definition queueStatusEvent (ev : Role * Status) (m : t) : t * list Effect :=
  gmqStatusHandler
    (set_queue (fst ev) (queue_set_status (snd ev) (queueOf (fst ev) m)) m).

(** A sequence of such events, with everything the manager emitted. *)
Fixpoint queueStatusEvents (evs : list (Role * Status)) (m : t)
  : t * list Effect :=
  match evs with
  | [] => (m, [])
  | ev :: rest =>
      let '(m, out) := queueStatusEvent ev m in
      let '(m, out') := queueStatusEvents rest m in
      (m, (out ++ out')%list)
  end.

#[global] Instance Role_eq_dec : EqDecision Role.
Proof. solve_decision. Defined.

(** The queues that carry the status listener of the manager.  The
    constructor registers [#gmqStatusHandler] for the status events of each
    of its four queues; [removeAllListeners] on a queue removes it from
    that queue. *)
Definition constructor_listeners : list Role :=
  [Uldata; Dldata; DldataResult; Ctrl].

Definition carries (r : Role) (listeners : list Role) : bool :=
  existsb (fun x => bool_decide (x = r)) listeners.

Definition removeAllListeners (r : Role) (listeners : list Role)
  : list Role :=
  List.filter (fun x => negb (bool_decide (x = r))) listeners.

(** A queue of the manager stores a new status and emits it; the handler
    runs when the queue carries the listener, and nothing hears the event
    otherwise. *)
Definition queueStatusEmitted (listeners : list Role) (ev : Role * Status)
    (m : t) : t * list Effect :=
  let m :=
    set_queue (fst ev) (queue_set_status (snd ev) (queueOf (fst ev) m)) m in
  if carries (fst ev) listeners then gmqStatusHandler m else (m, []).

Fixpoint queueStatusesEmitted (listeners : list Role)
    (evs : list (Role * Status)) (m : t) : t * list Effect :=
  match evs with
  | [] => (m, [])
  | ev :: rest =>
      let '(m, out) := queueStatusEmitted listeners ev m in
      let '(m, out') := queueStatusesEmitted listeners rest m in
      (m, (out ++ out')%list)
  end.

(** A manager with what [close] works on: the listeners on its queues, the
    connection of its queues when they are MQTT queues, the pool, what the
    manager has emitted and what its queues and [removeConnection] have
    done.  The pool's entry is kept as [removeConnection] leaves it, and
    [connection] as the queues leave it. *)
Record Managed : Type := mkManaged {
  manager : t;
  listeners : list Role;
  connection : MqttConnection.t;
  connPool : gmap string Lib.Connection;
  emitted : list Effect;
  effects : list Action
}.

(** A queue task of [close], the [n]-th: [removeAllListeners()] on the
    queue, then its [close] with the closure that passes [err || null] on.
    The statuses the queue emits meanwhile go to the listeners it still
    carries. *)
Definition closeQueue (n : nat) (r : Role) (err : option string)
    (s : Managed) : Managed * TaskEnd :=
  let listeners := removeAllListeners r (listeners s) in
  let '(q, mc, acts, e) :=
    queue_closeTask (CloseTaskDone n) err (queueOf r (manager s))
      (connection s) in
  let '(m, out) :=
    queueStatusesEmitted listeners (map (pair r) (statusesOf acts))
      (manager s) in
  (mkManaged (set_queue r q m) listeners mc (connPool s)
     (emitted s ++ out) (effects s ++ acts),
   e).

(** The last task of [close]. *)
Definition closeConnection (n : nat) (connErr : option string)
    (s : Managed) : Managed * TaskEnd :=
  let '(pool, acts, e) :=
    removeConnectionTask (CloseTaskDone n) connErr (connPool s)
      (hostUri (manager s)) in
  (mkManaged (manager s) (listeners s) (connection s) pool (emitted s)
     (effects s ++ acts),
   e).

(** [close].  [errs] and [connErr] are what the broker client reports for
    the close of each queue and of the connection; [callback] is called
    when a task passes an error on or all have passed [null]. *)
Definition close (errs : Role -> option string) (connErr : option string)
    (callback : FunRef) (s : Managed) : Managed * TaskEnd :=
  let '(s, e) :=
    waterfall
      [closeQueue 0 Uldata (errs Uldata);
       closeQueue 1 Dldata (errs Dldata);
       closeQueue 2 DldataResult (errs DldataResult);
       closeQueue 3 Ctrl (errs Ctrl);
       closeConnection 4 connErr] s in
  match e with
  | Passed err =>
      (mkManaged (manager s) (listeners s) (connection s) (connPool s)
         (emitted s) (effects s ++ [Now (Call callback err)]),
       e)
  | _ => (s, e)
  end.

(** [mqStatus] *)
Definition mqStatus (m : t) : Lib.DataMqStatus :=
  Lib.mkStatus (queue_status (uldata m)) (queue_status (dldata m)) Closed
    (queue_status (dldataResult m)) (queue_status (ctrl m)).

Definition typeError : string := "TypeError".

(** The callback a handler is given: [nack] on the queue when it is called
    with a truthy error, [ack] otherwise. *)
Definition settle (queue : string) (err : JsVal) : Effect :=
  if truthy err then Nack queue else Ack queue.

Section MsgHandler.

(** [Buffer.from(o, 'hex')] for an object [o] that is not an array: whether
    the runtime accepts it (as an array-like object) or throws. *)
Variable Buffer_from_object : list (string * Json) -> bool.

(** Whether [Buffer.from(v, 'hex')] returns; it throws a [TypeError] for
    [undefined], [null], booleans and numbers, and for an array when the
    conversion of one of its elements to a number does. *)
Definition Buffer_from_returns (v : option Json) : bool :=
  match v with
  | Some (JsonStr _) => true
  | Some (JsonArr items) => negb (existsb toPrimitiveThrows items)
  | Some (JsonObj members) => Buffer_from_object members
  | _ => false
  end.

(** [#gmqMsgHandler], given the outcome [parsed] of
    [JSON.parse(msg.payload.toString())], [None] when it throws.  The result
    is what the manager did and the error that escapes the handler, if
    any. *)
Definition gmqMsgHandler (m : t) (queue : Queue) (parsed : option Json)
  : list Effect * option string :=
  match parsed with
  | None => ([Ack (queue_name queue)], None)
  | Some data =>
      if String.eqb (queue_name queue) (queue_name (dldata m)) then
        if negb (holdsProperties data) then ([], Some typeError)
        else if negb (Date_returns (get "pub" data)) then
          ([], Some typeError)
        else if negb (Buffer_from_returns (get "data" data)) then
          ([], Some typeError)
        else
          let r := onDlData (mgrMsgHandler m) data in
          (CallOnDlData data
             :: map (settle (queue_name (dldata m))) (calls r),
           throws r)
      else if String.eqb (queue_name queue) (queue_name (ctrl m)) then
        if negb (holdsProperties data) then ([], Some typeError)
        else if negb (Date_returns (get "time" data)) then
          ([], Some typeError)
        else
          let r := onCtrl (mgrMsgHandler m) data in
          (CallOnCtrl data :: map (settle (queue_name (ctrl m))) (calls r),
           throws r)
      else ([], None)
  end.

End MsgHandler.

Definition isSettlement (e : Effect) : bool :=
  match e with
  | Ack _ | Nack _ => true
  | _ => false
  end.

Definition isHandlerCall (e : Effect) : bool :=
  match e with
  | CallOnDlData _ | CallOnCtrl _ => true
  | _ => false
  end.

(** What [JSON.stringify] makes of the value of a member of the object it
    is given: it leaves the member out (a [toJSON] that returns
    [undefined]), writes a JSON value for it, or throws (a cycle, a BigInt,
    a [toJSON] that throws). *)
Inductive Stringified : Type :=
| Omitted
| Written (j : Json)
| StringifyThrows (e : string).

(** [NetUlData] and [NetDlDataResult], as a caller gives them.  An
    [extension] that is an object is given by what [JSON.stringify] makes
    of it. *)
Module NetUlData.
Record t : Type := mk {
  time : DateArg;
  networkAddr : JsVal;
  data : Payload;
  extension : Arg Stringified
}.
Definition none : t :=
  mk (NotDate JUndefined) JUndefined (NotBuffer JUndefined)
     (NotObj JUndefined).
End NetUlData.

Module NetDlDataResult.
Record t : Type := mk {
  dataId : JsVal;
  status : JsVal;
  message : JsVal
}.
Definition none : t := mk JUndefined JUndefined JUndefined.
End NetDlDataResult.

(** The member [key: v || undefined] of the object that is stringified,
    for a [v] that is a string or [undefined]; [JSON.stringify] leaves out
    the members that are [undefined]. *)
Definition optionalMember (key : string) (v : JsVal)
  : list (string * Json) :=
  match orElse v JUndefined with
  | JStr s => [(key, JsonStr s)]
  | _ => []
  end.

(** The member [extension: e || undefined] as [JSON.stringify] writes it,
    or the error it throws on it. *)
Definition extensionMember (e : Arg Stringified)
  : Result (list (string * Json)) :=
  if given e then
    match fields (Written (JsonObj [])) e with
    | Omitted => Ok []
    | Written j => Ok [("extension", j)]
    | StringifyThrows err => Throw err
    end
  else Ok [].

Section Send.

(** [Date.prototype.toISOString], for a valid time value, and the bytes of
    [Buffer.from(JSON.stringify(v))] for a value that [JSON.stringify]
    writes. *)
Variable toISOString : Z -> string.
Variable JSON_bytes : Json -> list Byte.byte.

(** The first part of [sendUlData]: the checks, and the value whose JSON
    text is the payload, unless a check or [JSON.stringify] throws. *)
Definition uldataOf (data : Arg NetUlData.t) : Result Json :=
  if notAnObject data then Throw "`data` is not an object"
  else
    let d := fields NetUlData.none data in
    match NetUlData.time d with
    | IsDate (Some ms) =>
        if negb (truthy (NetUlData.networkAddr d))
           || negb (bool_decide (typeof (NetUlData.networkAddr d) = TString))
        then Throw "`data.networkAddr` is not a string"
        else
          match NetUlData.data d with
          | NotBuffer _ => Throw "`data.data` is not a Buffer"
          | Buffer bytes =>
              if given (NetUlData.extension d)
                 && notAnObject (NetUlData.extension d)
              then Throw "`data.extension` is not an object"
              else
                let! ext := extensionMember (NetUlData.extension d) in
                Ok (JsonObj
                      ([("time", JsonStr (toISOString ms));
                        ("networkAddr",
                         JsonStr (Lib.str (NetUlData.networkAddr d)));
                        ("data", JsonStr (Buffer_toString_hex bytes))]
                       ++ ext))
          end
    | _ => Throw "`data.time` is not a Date"
    end.

(** [sendUlData]: the payload goes to [sendMsg] of the [uldata] queue,
    with a closure that passes [err || null] on to [callback], which for an
    optional error is the error itself. *)
Definition sendUlData (data : Arg NetUlData.t) (callback : FunRef) (m : t)
    (mc : MqttConnection.t) : Result (list Action) :=
  let! uldata := uldataOf data in
  queue_sendMsg (Buffer (JSON_bytes uldata)) (JFun callback)
    (NetworkMgr.uldata m) mc.

(** The first part of [sendDlDataResult]: the checks, and the value whose
    JSON text is the payload. *)
Definition dldataResultOf (data : Arg NetDlDataResult.t) : Result Json :=
  if notAnObject data then Throw "`data` is not an object"
  else
    let d := fields NetDlDataResult.none data in
    if negb (truthy (NetDlDataResult.dataId d))
       || negb (bool_decide (typeof (NetDlDataResult.dataId d) = TString))
    then Throw "`data.dataId` is not a string"
    else if negb (Number_isInteger (NetDlDataResult.status d)) then
      Throw "`data.status` is not an integer"
    else if negb (isUndefined (NetDlDataResult.message d))
            && negb (bool_decide
                       (typeof (NetDlDataResult.message d) = TString))
    then Throw "`data.message` is not a string"
    else
      Ok (JsonObj
            ([("dataId", JsonStr (Lib.str (NetDlDataResult.dataId d)));
              ("status", JsonNum (asInt (NetDlDataResult.status d)) 0)]
             ++ optionalMember "message" (NetDlDataResult.message d))).

Definition sendDlDataResult (data : Arg NetDlDataResult.t)
    (callback : FunRef) (m : t) (mc : MqttConnection.t)
  : Result (list Action) :=
  let! dldataResult := dldataResultOf data in
  queue_sendMsg (Buffer (JSON_bytes dldataResult)) (JFun callback)
    (NetworkMgr.dldataResult m) mc.

End Send.

End NetworkMgr.

(** ** [sdk/mq/application.js] *)

Module ApplicationMgr.

(** [AppMgrMsgHandlers]; a handler is a function of the parsed value, as
    in the network manager. *)
Record AppMgrMsgHandlers : Type := mkHandlers {
  onUlData : NetworkMgr.Json -> NetworkMgr.Reaction;
  onDlDataResp : NetworkMgr.Json -> NetworkMgr.Reaction;
  onDlDataResult : NetworkMgr.Json -> NetworkMgr.Reaction
}.

Record t : Type := mk {
  opts : Lib.Options;
  hostUri : string;
  uldata : Queue;
  dldata : Queue;
  dldataResp : Queue;
  dldataResult : Queue;
  status : MgrStatus;
  mgrMsgHandler : AppMgrMsgHandlers
}.

(** What the manager does to its user and to its queues. *)
Inductive Effect : Type :=
| Emit (s : MgrStatus)
| CallOnUlData (data : NetworkMgr.Json)
| CallOnDlDataResp (data : NetworkMgr.Json)
| CallOnDlDataResult (data : NetworkMgr.Json)
| Ack (queue : string)
| Nack (queue : string).

Definition settle (queue : string) (err : JsVal) : Effect :=
  if truthy err then Nack queue else Ack queue.

Section MsgHandler.

Variable Buffer_from_object : list (string * NetworkMgr.Json) -> bool.

(** [#gmqMsgHandler], given the outcome [parsed] of
    [JSON.parse(msg.payload.toString())], [None] when it throws. *)
Definition gmqMsgHandler (m : t) (queue : Queue)
    (parsed : option NetworkMgr.Json) : list Effect * option string :=
  match parsed with
  | None => ([Ack (queue_name queue)], None)
  | Some data =>
      if String.eqb (queue_name queue) (queue_name (uldata m)) then
        if negb (NetworkMgr.holdsProperties data) then
          ([], Some NetworkMgr.typeError)
        else if negb (NetworkMgr.Date_returns (NetworkMgr.get "time" data))
        then ([], Some NetworkMgr.typeError)
        else if negb (NetworkMgr.Date_returns (NetworkMgr.get "pub" data))
        then ([], Some NetworkMgr.typeError)
        else if negb (NetworkMgr.Buffer_from_returns Buffer_from_object
                        (NetworkMgr.get "data" data)) then
          ([], Some NetworkMgr.typeError)
        else
          let r := onUlData (mgrMsgHandler m) data in
          (CallOnUlData data
             :: map (settle (queue_name (uldata m))) (NetworkMgr.calls r),
           NetworkMgr.throws r)
      else if String.eqb (queue_name queue) (queue_name (dldataResp m)) then
        let r := onDlDataResp (mgrMsgHandler m) data in
        (CallOnDlDataResp data
           :: map (settle (queue_name (dldataResp m))) (NetworkMgr.calls r),
         NetworkMgr.throws r)
      else if String.eqb (queue_name queue) (queue_name (dldataResult m))
      then
        let r := onDlDataResult (mgrMsgHandler m) data in
        (CallOnDlDataResult data
           :: map (settle (queue_name (dldataResult m))) (NetworkMgr.calls r),
         NetworkMgr.throws r)
      else ([], None)
  end.

End MsgHandler.

Definition isSettlement (e : Effect) : bool :=
  match e with
  | Ack _ | Nack _ => true
  | _ => false
  end.

Definition isHandlerCall (e : Effect) : bool :=
  match e with
  | CallOnUlData _ | CallOnDlDataResp _ | CallOnDlDataResult _ => true
  | _ => false
  end.

(** The queues of an application manager. *)
Inductive Role : Type := Uldata | Dldata | DldataResp | DldataResult.

#[global] Instance Role_eq_dec : EqDecision Role.
Proof. solve_decision. Defined.

Definition set_status (s : MgrStatus) (m : t) : t :=
  mk (opts m) (hostUri m) (uldata m) (dldata m) (dldataResp m)
     (dldataResult m) s (mgrMsgHandler m).

(** [#gmqStatusHandler] *)
Definition gmqStatusHandler (m : t) : t * list Effect :=
  let status' :=
    if bool_decide (queue_status (uldata m) = Connected)
       && bool_decide (queue_status (dldata m) = Connected)
       && bool_decide (queue_status (dldataResp m) = Connected)
       && bool_decide (queue_status (dldataResult m) = Connected)
    then Ready else NotReady in
  if bool_decide (status m = status') then (m, [])
  else (set_status status' m, [Emit status']).

Definition queueOf (r : Role) (m : t) : Queue :=
  match r with
  | Uldata => uldata m
  | Dldata => dldata m
  | DldataResp => dldataResp m
  | DldataResult => dldataResult m
  end.

Definition set_queue (r : Role) (q : Queue) (m : t) : t :=
  match r with
  | Uldata =>
      mk (opts m) (hostUri m) q (dldata m) (dldataResp m) (dldataResult m)
         (status m) (mgrMsgHandler m)
  | Dldata =>
      mk (opts m) (hostUri m) (uldata m) q (dldataResp m) (dldataResult m)
         (status m) (mgrMsgHandler m)
  | DldataResp =>
      mk (opts m) (hostUri m) (uldata m) (dldata m) q (dldataResult m)
         (status m) (mgrMsgHandler m)
  | DldataResult =>
      mk (opts m) (hostUri m) (uldata m) (dldata m) (dldataResp m) q
         (status m) (mgrMsgHandler m)
  end.

(** A queue of the manager stores a new status and emits it: the listener
    the constructor registered runs. *)
Definition queueStatusEvent (ev : Role * Status) (m : t) : t * list Effect :=
  gmqStatusHandler
    (set_queue (fst ev) (queue_set_status (snd ev) (queueOf (fst ev) m)) m).

Fixpoint queueStatusEvents (evs : list (Role * Status)) (m : t)
  : t * list Effect :=
  match evs with
  | [] => (m, [])
  | ev :: rest =>
      let '(m, out) := queueStatusEvent ev m in
      let '(m, out') := queueStatusEvents rest m in
      (m, (out ++ out')%list)
  end.

(** The queues that carry the status listener of the manager, as in the
    network manager. *)
Definition constructor_listeners : list Role :=
  [Uldata; Dldata; DldataResp; DldataResult].

Definition carries (r : Role) (listeners : list Role) : bool :=
  existsb (fun x => bool_decide (x = r)) listeners.

Definition removeAllListeners (r : Role) (listeners : list Role)
  : list Role :=
  List.filter (fun x => negb (bool_decide (x = r))) listeners.

(** A queue of the manager stores a new status and emits it. *)
Definition queueStatusEmitted (listeners : list Role) (ev : Role * Status)
    (m : t) : t * list Effect :=
  let m :=
    set_queue (fst ev) (queue_set_status (snd ev) (queueOf (fst ev) m)) m in
  if carries (fst ev) listeners then gmqStatusHandler m else (m, []).

Fixpoint queueStatusesEmitted (listeners : list Role)
    (evs : list (Role * Status)) (m : t) : t * list Effect :=
  match evs with
  | [] => (m, [])
  | ev :: rest =>
      let '(m, out) := queueStatusEmitted listeners ev m in
      let '(m, out') := queueStatusesEmitted listeners rest m in
      (m, (out ++ out')%list)
  end.

(** [mqStatus] *)
Definition mqStatus (m : t) : Lib.DataMqStatus :=
  Lib.mkStatus (queue_status (uldata m)) (queue_status (dldata m))
    (queue_status (dldataResp m)) (queue_status (dldataResult m)) Closed.

Record Managed : Type := mkManaged {
  manager : t;
  listeners : list Role;
  connection : MqttConnection.t;
  connPool : gmap string Lib.Connection;
  emitted : list Effect;
  effects : list Action
}.

Definition closeQueue (n : nat) (r : Role) (err : option string)
    (s : Managed) : Managed * TaskEnd :=
  let listeners := removeAllListeners r (listeners s) in
  let '(q, mc, acts, e) :=
    queue_closeTask (CloseTaskDone n) err (queueOf r (manager s))
      (connection s) in
  let '(m, out) :=
    queueStatusesEmitted listeners (map (pair r) (statusesOf acts))
      (manager s) in
  (mkManaged (set_queue r q m) listeners mc (connPool s)
     (emitted s ++ out) (effects s ++ acts),
   e).

Definition closeConnection (n : nat) (connErr : option string)
    (s : Managed) : Managed * TaskEnd :=
  let '(pool, acts, e) :=
    removeConnectionTask (CloseTaskDone n) connErr (connPool s)
      (hostUri (manager s)) in
  (mkManaged (manager s) (listeners s) (connection s) pool (emitted s)
     (effects s ++ acts),
   e).

(** [close] *)
Definition close (errs : Role -> option string) (connErr : option string)
    (callback : FunRef) (s : Managed) : Managed * TaskEnd :=
  let '(s, e) :=
    waterfall
      [closeQueue 0 Uldata (errs Uldata);
       closeQueue 1 Dldata (errs Dldata);
       closeQueue 2 DldataResp (errs DldataResp);
       closeQueue 3 DldataResult (errs DldataResult);
       closeConnection 4 connErr] s in
  match e with
  | Passed err =>
      (mkManaged (manager s) (listeners s) (connection s) (connPool s)
         (emitted s) (effects s ++ [Now (Call callback err)]),
       e)
  | _ => (s, e)
  end.

(** [AppDlData], as a caller gives it. *)
Module AppDlData.
Record t : Type := mk {
  correlationId : JsVal;
  deviceId : JsVal;
  networkCode : JsVal;
  networkAddr : JsVal;
  data : Payload;
  extension : Arg NetworkMgr.Stringified
}.
Definition none : t :=
  mk JUndefined JUndefined JUndefined JUndefined (NotBuffer JUndefined)
     (NotObj JUndefined).
End AppDlData.

(** [Errors.ErrParamDev] of [sdk/mq/constants.js]. *)
Definition ErrParamDev : string :=
  "one of `device_id` or [`network_code`, `network_addr`] pair must be provided with non-empty string".

(** The error of reading a name that no declaration of the module
    binds. *)
Definition referenceError (name : string) : string :=
  "ReferenceError: " ++ name ++ " is not defined".

(** The first part of [sendDlData]: the checks, and the value whose JSON
    text is the payload, unless a check or [JSON.stringify] throws.  The
    module imports [Errors] but no [ErrParamCorrId]: the argument of
    [Error(ErrParamCorrId)] is a free name, and evaluating it throws a
    [ReferenceError]. *)
Definition dldataOf (data : Arg AppDlData.t) : Result NetworkMgr.Json :=
  if notAnObject data then Throw "`data` is not an object"
  else
    let d := fields AppDlData.none data in
    if negb (truthy (AppDlData.correlationId d))
       || negb (bool_decide (typeof (AppDlData.correlationId d) = TString))
    then Throw (referenceError "ErrParamCorrId")
    else if negb (isUndefined (AppDlData.deviceId d))
            && negb (bool_decide (typeof (AppDlData.deviceId d) = TString))
    then Throw "`data.deviceId` is not a string"
    else if negb (isUndefined (AppDlData.networkCode d))
            && negb (bool_decide (typeof (AppDlData.networkCode d) = TString))
    then Throw "`data.networkCode` is not a string"
    else if negb (isUndefined (AppDlData.networkAddr d))
            && negb (bool_decide (typeof (AppDlData.networkAddr d) = TString))
    then Throw "`data.networkAddr` is not a string"
    else
      match AppDlData.data d with
      | NotBuffer _ => Throw "`data.data` is not a Buffer"
      | Buffer bytes =>
          if given (AppDlData.extension d)
             && notAnObject (AppDlData.extension d)
          then Throw "`data.extension` is not an object"
          else if negb (truthy (AppDlData.deviceId d))
                  && (truthy (AppDlData.networkCode d)
                      && negb (truthy (AppDlData.networkAddr d))
                      || negb (truthy (AppDlData.networkCode d))
                         && truthy (AppDlData.networkAddr d))
          then Throw ErrParamDev
          else
            let! ext :=
              NetworkMgr.extensionMember (AppDlData.extension d) in
            Ok (NetworkMgr.JsonObj
                  ([("correlationId",
                     NetworkMgr.JsonStr
                       (Lib.str (AppDlData.correlationId d)))]
                   ++ NetworkMgr.optionalMember "deviceId"
                        (AppDlData.deviceId d)
                   ++ NetworkMgr.optionalMember "networkCode"
                        (AppDlData.networkCode d)
                   ++ NetworkMgr.optionalMember "networkAddr"
                        (AppDlData.networkAddr d)
                   ++ [("data",
                        NetworkMgr.JsonStr (Buffer_toString_hex bytes))]
                   ++ ext))
      end.

(** [sendDlData]: the payload goes to [sendMsg] of the [dldata] queue,
    with a closure that passes [err || null] on to [callback]. *)
Definition sendDlData (JSON_bytes : NetworkMgr.Json -> list Byte.byte)
    (data : Arg AppDlData.t) (callback : FunRef) (m : t)
    (mc : MqttConnection.t) : Result (list Action) :=
  let! dldata := dldataOf data in
  queue_sendMsg (Buffer (JSON_bytes dldata)) (JFun callback)
    (ApplicationMgr.dldata m) mc.

End ApplicationMgr.

(** * Vocabulary of the properties, and sample values *)

(** How often the effects schedule or make a call of the callback [f]. *)
Definition callsOf (f : FunRef) (a : Action) : nat :=
  match a with
  | Now (Call g _) | NextTick (Call g _) | SetTimeout (Call g _) _ =>
      if bool_decide (g = f) then 1%nat else 0%nat
  | _ => 0%nat
  end.

Fixpoint countCalls (f : FunRef) (acts : list Action) : nat :=
  match acts with
  | [] => 0%nat
  | a :: rest => (callsOf f a + countCalls f rest)%nat
  end.

(** [close] followed by the completion of the broker client's own close,
    when [close] started one. *)
Definition amqpCloseRun (f : FunRef) (err : option string)
    (c : AmqpConnection.t) : AmqpConnection.t * list Action :=
  let '(c1, acts) := AmqpConnection.close (JFun f) c in
  match AmqpConnection.conn c with
  | None => (c1, acts)
  | Some _ =>
      let '(c2, acts') := AmqpConnection.close_done (JFun f) err c1 in
      (c2, (acts ++ acts')%list)
  end.

Definition mqttCloseRun (f : FunRef) (err : option string)
    (c : MqttConnection.t) : MqttConnection.t * list Action :=
  let '(c1, acts) := MqttConnection.close (JFun f) c in
  match MqttConnection.conn c with
  | None => (c1, acts)
  | Some _ =>
      let '(c2, acts') := MqttConnection.close_done (JFun f) err c1 in
      (c2, (acts ++ acts')%list)
  end.

(** Two network managers share the connection of [amqp://localhost]: eight
    queues listen to it and its count is 8. *)
Definition sharedAmqp : AmqpConnection.t :=
  AmqpConnection.mk "amqp://localhost" 1000 Connected (Some 1%nat)
    (map QueueOnConnStatusChanged
       ["broker.network.u.a.uldata"; "broker.network.u.a.dldata";
        "broker.network.u.a.dldata-result"; "broker.network.u.a.ctrl";
        "broker.network.u.b.uldata"; "broker.network.u.b.dldata";
        "broker.network.u.b.dldata-result"; "broker.network.u.b.ctrl"]).

Definition sharedPool : gmap string Lib.Connection :=
  {[ "amqp://localhost" := Lib.mkConnection (Lib.Amqp sharedAmqp) 8 ]}.

(** The prefetch an AMQP queue stores. *)
Definition storesPrefetch (v : JsVal) (q : Queue) : Prop :=
  match q with
  | AmqpQ a => AmqpQueue.prefetch a = v
  | MqttQ _ => True
  end.

(** The queues the factory created, in the order of creation. *)
Definition createdQueues (qs : Lib.DataMqQueues) : list Queue :=
  [Lib.uldata qs; Lib.dldata qs] ++ option_list (Lib.dldataResp qs)
    ++ [Lib.dldataResult qs] ++ option_list (Lib.ctrl qs).

(** The options of the test [newManual], with the given [prefetch]. *)
Definition manualOptions (prefetch : JsVal) : Lib.Options :=
  Lib.mkOptions (JStr "unit_id") (JStr "unit_code") (JStr "id_network")
    (JStr "code_network") prefetch (JBool false)
    (JStr "$share/general-mq/").

(** Pool connections that no queue uses yet. *)
Definition freshAmqp : Lib.ConnectionArg :=
  Lib.IsConnection
    (Lib.mkConnection
       (Lib.Amqp (AmqpConnection.new "amqp://localhost" DEF_RECONN)) 0).

Definition freshMqtt : Lib.ConnectionArg :=
  Lib.IsConnection
    (Lib.mkConnection
       (Lib.Mqtt (MqttConnection.new "mqtt://localhost" DEF_RECONN)) 0).

(** The call returned. *)
Definition isOk {A : Type} (r : Result A) : bool :=
  match r with Ok _ => true | Throw _ => false end.

(** Every queue of the manager is [Connected]. *)
Definition allConnected (m : NetworkMgr.t) : Prop :=
  forall r : NetworkMgr.Role,
    queue_status (NetworkMgr.queueOf r m) = Connected.

(** No emitted status equals the one before it, [prev] being the status
    before the first. *)
Fixpoint noRepeat (prev : MgrStatus) (out : list NetworkMgr.Effect) : Prop :=
  match out with
  | [] => True
  | NetworkMgr.Emit s :: rest => s <> prev /\ noRepeat s rest
  | _ :: _ => False
  end.

(** The status after the last emitted one. *)
Fixpoint lastStatus (prev : MgrStatus) (out : list NetworkMgr.Effect)
  : MgrStatus :=
  match out with
  | [] => prev
  | NetworkMgr.Emit s :: rest => lastStatus s rest
  | _ :: rest => lastStatus prev rest
  end.

(** How many acks and nacks, and how many calls of a user handler, the
    manager made. *)
Definition settlements (out : list NetworkMgr.Effect) : nat :=
  List.length (List.filter NetworkMgr.isSettlement out).

Definition handlerCalls (out : list NetworkMgr.Effect) : nat :=
  List.length (List.filter NetworkMgr.isHandlerCall out).

(** A unicast receiver as the tests construct it, without a shared prefix
    and without a message handler yet. *)
Definition receiverOpts : QueueOpts :=
  mkQueueOpts "name" (JBool true) (JBool false) (JBool false) JUndefined
    (JInt 1) JUndefined JUndefined.

(** Connections and queues as [new] leaves them. *)
Definition newMqtt : MqttConnection.t :=
  MqttConnection.new "mqtt://localhost" DEF_RECONN.

Definition newAmqp : AmqpConnection.t :=
  AmqpConnection.new "amqp://localhost" DEF_RECONN.

Definition mqttReceiver : MqttQueue.t :=
  MqttQueue.mk "name" true false false DEF_RECONN None Closed false None.

Definition amqpReceiver : AmqpQueue.t :=
  AmqpQueue.mk "name" true false false DEF_RECONN (JInt 1) false Closed false
    None None.

(** The effects contain a publish on the broker client. *)
Definition publishes (acts : list Action) : Prop :=
  exists a, In a acts
            /\ match a with
               | Raw (MqttPublish _ _ _) | Raw (ChannelPublish _ _ _ _) => True
               | _ => False
               end.

(** Connected queues on a connected MQTT connection. *)
Definition connectedMqttReceiver : MqttQueue.t :=
  MqttQueue.set_status Connected
    (MqttQueue.set_msgHandler (Some (UserFn 1)) mqttReceiver).

Definition connectedMqttSender : MqttQueue.t :=
  MqttQueue.mk "name" false false false DEF_RECONN None Connected false None.

Definition connectedMqtt : MqttConnection.t :=
  MqttConnection.mk "mqtt://localhost" DEF_RECONN Connected (Some 1%nat) ∅ [].

(** Receivers with the shared prefix of the tests, unicast and
    broadcast. *)
Definition sharedReceiver : MqttQueue.t :=
  MqttQueue.mk "name" true false false DEF_RECONN (Some "$share/general-mq/")
    Closed false None.

Definition broadcastReceiver : MqttQueue.t :=
  MqttQueue.mk "name" true false true DEF_RECONN (Some "$share/general-mq/")
    Closed false None.

(** The field of [mqStatus] that belongs to a queue of the manager. *)
Definition statusOf (r : NetworkMgr.Role) (s : Lib.DataMqStatus) : Status :=
  match r with
  | NetworkMgr.Uldata => Lib.st_uldata s
  | NetworkMgr.Dldata => Lib.st_dldata s
  | NetworkMgr.DldataResult => Lib.st_dldataResult s
  | NetworkMgr.Ctrl => Lib.st_ctrl s
  end.

(** A network manager on MQTT queues named as the factory names them,
    all closed; its handlers report success for a message without an
    [error] member and an error otherwise. *)
Definition sampleQueue (role : string) (isRecv : bool) : Queue :=
  MqttQ (MqttQueue.mk ("broker.network.unit_code.code_network." ++ role) isRecv
           true false DEF_RECONN (Some "$share/general-mq/") Closed false
           (Some (UserFn 0))).

Definition sampleReaction (data : NetworkMgr.Json) : NetworkMgr.Reaction :=
  match NetworkMgr.get "error" data with
  | None => NetworkMgr.mkReaction [JNull] None
  | Some _ => NetworkMgr.mkReaction [JStr "failed"] None
  end.

Definition sampleMgr : NetworkMgr.t :=
  NetworkMgr.mk (manualOptions (JInt 1)) "mqtt://localhost"
    (sampleQueue "uldata" false) (sampleQueue "dldata" true)
    (sampleQueue "dldata-result" false) (sampleQueue "ctrl" true)
    NotReady (NetworkMgr.mkHandlers sampleReaction sampleReaction).

(** More of a queue of either engine. *)
Definition queue_reliable (q : Queue) : bool :=
  match q with
  | AmqpQ q => AmqpQueue.reliable q
  | MqttQ q => MqttQueue.reliable q
  end.

Definition queue_broadcast (q : Queue) : bool :=
  match q with
  | AmqpQ q => AmqpQueue.broadcast q
  | MqttQ q => MqttQueue.broadcast q
  end.

Definition queue_msgHandler (q : Queue) : option FunRef :=
  match q with
  | AmqpQ q => AmqpQueue.msgHandler q
  | MqttQ q => MqttQueue.msgHandler q
  end.

(** The queue is of the engine of the connection. *)
Definition sameEngine (g : Lib.GmqConn) (q : Queue) : Prop :=
  match g, q with
  | Lib.Amqp _, AmqpQ _ | Lib.Mqtt _, MqttQ _ => True
  | _, _ => False
  end.

(** The options a caller gives when every field has its documented type:
    the unit as id and code or absent, the shared prefix and the prefetch
    optional. *)
Definition typedOptions (unit : option (string * string)) (id name : string)
    (prefetch : option Z) (persistent : option bool)
    (sharedPrefix : option string) : Lib.Options :=
  Lib.mkOptions
    (match unit with Some (uid, _) => JStr uid | None => JUndefined end)
    (match unit with Some (_, ucode) => JStr ucode | None => JUndefined end)
    (JStr id) (JStr name)
    (match prefetch with Some z => JInt z | None => JUndefined end)
    (match persistent with Some b => JBool b | None => JUndefined end)
    (match sharedPrefix with Some p => JStr p | None => JUndefined end).

(** The common part of the names the factory gives:
    [prefix.unitCode.name], with [_] for a missing or empty unit code. *)
Definition queueBase (o : Lib.Options) (prefix : JsVal) : string :=
  Lib.str prefix ++ "." ++ Lib.str (orElse (Lib.unitCode o) (JStr "_")) ++ "."
    ++ Lib.str (Lib.name o).

(** The options object the factory hands to a queue constructor. *)
Definition factoryOpts (o : Lib.Options) (prefix : JsVal) (role : string)
    (isRecv : bool) : QueueOpts :=
  mkQueueOpts (queueBase o prefix ++ role) (JBool isRecv) (JBool true)
    (JBool false) JUndefined
    (orElse (Lib.prefetch o) (JInt Lib.DEF_PREFETCH))
    (orElse (Lib.persistent o) (JBool Lib.DEF_PERSISTENT))
    (Lib.sharedPrefix o).

(** The connection is an AMQP one. *)
Definition isAmqp (g : Lib.GmqConn) : bool :=
  match g with Lib.Amqp _ => true | Lib.Mqtt _ => false end.

(** Two states of one MQTT queue: the options and the message handler are
    the same. *)
Definition sameMqttQueue (q q' : MqttQueue.t) : Prop :=
  MqttQueue.name q' = MqttQueue.name q
  /\ MqttQueue.isRecv q' = MqttQueue.isRecv q
  /\ MqttQueue.reliable q' = MqttQueue.reliable q
  /\ MqttQueue.broadcast q' = MqttQueue.broadcast q
  /\ MqttQueue.reconnectMillis q' = MqttQueue.reconnectMillis q
  /\ MqttQueue.sharedPrefix q' = MqttQueue.sharedPrefix q
  /\ MqttQueue.msgHandler q' = MqttQueue.msgHandler q.

(** Two states of one AMQP queue. *)
Definition sameAmqpQueue (q q' : AmqpQueue.t) : Prop :=
  AmqpQueue.name q' = AmqpQueue.name q
  /\ AmqpQueue.isRecv q' = AmqpQueue.isRecv q
  /\ AmqpQueue.reliable q' = AmqpQueue.reliable q
  /\ AmqpQueue.broadcast q' = AmqpQueue.broadcast q
  /\ AmqpQueue.reconnectMillis q' = AmqpQueue.reconnectMillis q
  /\ AmqpQueue.prefetch q' = AmqpQueue.prefetch q
  /\ AmqpQueue.persistent q' = AmqpQueue.persistent q
  /\ AmqpQueue.msgHandler q' = AmqpQueue.msgHandler q.



(** The publishes among the effects. *)
Definition publishesOf (acts : list Action) : list RawCall :=
  omap (fun a => match a with
                 | Raw (MqttPublish t b k) => Some (MqttPublish t b k)
                 | Raw (ChannelPublish e r b o) => Some (ChannelPublish e r b o)
                 | _ => None
                 end) acts.

(** A connected AMQP sender that holds a channel. *)
Definition connectedAmqpSender : AmqpQueue.t :=
  AmqpQueue.mk "name" false false false DEF_RECONN JUndefined false Connected
    false (Some 1%nat) None.

(** An optional string member is absent or a string; a required one is a
    string that is not empty; an optional object is absent or an object. *)
Definition optionalString (v : JsVal) : Prop :=
  v = JUndefined \/ exists s : string, v = JStr s.

Definition nonEmptyString (v : JsVal) : Prop :=
  exists s : string, v = JStr s /\ s <> "".

Definition optionalObject {R : Type} (a : Arg R) : Prop :=
  given a = false \/ notAnObject a = false.

(** The member of a stringified object that [v || undefined] gives. *)
Definition memberOf (v : JsVal) : option NetworkMgr.Json :=
  if truthy v then Some (NetworkMgr.JsonStr (Lib.str v)) else None.

(** How many calls of a user handler an application manager made. *)
Definition appHandlerCalls (out : list ApplicationMgr.Effect) : nat :=
  List.length (List.filter ApplicationMgr.isHandlerCall out).

(** An application manager on MQTT queues named as the factory names
    them; its handlers report success. *)
Definition appQueue (role : string) (isRecv : bool) : Queue :=
  MqttQ (MqttQueue.mk ("broker.application.unit_code.code_app." ++ role)
           isRecv true false DEF_RECONN (Some "$share/general-mq/") Closed
           false (Some (UserFn 0))).

Definition sampleAppMgr : ApplicationMgr.t :=
  ApplicationMgr.mk (manualOptions (JInt 1)) "mqtt://localhost"
    (appQueue "uldata" true) (appQueue "dldata" false)
    (appQueue "dldata-resp" true) (appQueue "dldata-result" true) NotReady
    (ApplicationMgr.mkHandlers
       (fun _ => NetworkMgr.mkReaction [JNull] None)
       (fun _ => NetworkMgr.mkReaction [JNull] None)
       (fun _ => NetworkMgr.mkReaction [JNull] None)).

(** [sendMsg] of a buffer with a function as callback returns on this
    queue: it throws only on a [Connected] sender that holds no channel
    (AMQP) or whose connection holds no client (MQTT). *)
Definition sendable (q : Queue) (mc : MqttConnection.t) : bool :=
  negb (bool_decide (queue_status q = Connected)) || queue_isRecv q
  || match q with
     | AmqpQ a => bool_decide (is_Some (AmqpQueue.channel a))
     | MqttQ _ => bool_decide (is_Some (MqttConnection.conn mc))
     end.

(** The payloads of the publishes among the effects. *)
Definition payloadsOf (acts : list Action) : list (list Byte.byte) :=
  omap (fun a => match a with
                 | Raw (MqttPublish _ b _) | Raw (ChannelPublish _ _ b _) =>
                     Some b
                 | _ => None
                 end) acts.

(** What [JSON.stringify] makes of an [extension] that was given. *)
Definition stringified (e : Arg NetworkMgr.Stringified)
  : NetworkMgr.Stringified :=
  fields (NetworkMgr.Written (NetworkMgr.JsonObj [])) e.

(** [JSON.stringify] throws on the [extension]. *)
Definition extensionThrows (e : Arg NetworkMgr.Stringified) : bool :=
  given e && match stringified e with
             | NetworkMgr.StringifyThrows _ => true
             | _ => false
             end.

(** The [extension] member of the payload. *)
Definition extensionOf (e : Arg NetworkMgr.Stringified)
  : option NetworkMgr.Json :=
  if given e then
    match stringified e with
    | NetworkMgr.Written j => Some j
    | _ => None
    end
  else None.

(** The same vocabulary for an application manager. *)
Definition appAllConnected (m : ApplicationMgr.t) : Prop :=
  forall r : ApplicationMgr.Role,
    queue_status (ApplicationMgr.queueOf r m) = Connected.

Fixpoint appNoRepeat (prev : MgrStatus) (out : list ApplicationMgr.Effect)
  : Prop :=
  match out with
  | [] => True
  | ApplicationMgr.Emit s :: rest => s <> prev /\ appNoRepeat s rest
  | _ :: _ => False
  end.

Fixpoint appLastStatus (prev : MgrStatus) (out : list ApplicationMgr.Effect)
  : MgrStatus :=
  match out with
  | [] => prev
  | ApplicationMgr.Emit s :: rest => appLastStatus s rest
  | _ :: rest => appLastStatus prev rest
  end.

(** A network manager that has heard all of its queues connect, with the
    pool its connection is in, and the same manager after [close] when
    the broker client reports no error. *)
Definition readyMgr : NetworkMgr.t :=
  (NetworkMgr.queueStatusEvents
     [(NetworkMgr.Uldata, Connected); (NetworkMgr.Dldata, Connected);
      (NetworkMgr.DldataResult, Connected); (NetworkMgr.Ctrl, Connected)]
     sampleMgr).1.

Definition readyManaged : NetworkMgr.Managed :=
  NetworkMgr.mkManaged readyMgr NetworkMgr.constructor_listeners connectedMqtt
    {[ "mqtt://localhost" := Lib.mkConnection (Lib.Mqtt connectedMqtt) 4 ]}
    [] [].

Definition closedWhileReady : NetworkMgr.Managed * TaskEnd :=
  NetworkMgr.close (fun _ => None) None (UserFn 1) readyManaged.

(** * Properties *)

(** ** The model on the inputs of the tests *)

Example QueuePattern_accepts :
  QueuePattern_test "name" = true
  /\ QueuePattern_test "broker.network.unit_code.code_network.dldata-result"
     = true
  /\ QueuePattern_test "broker.network._.code.ctrl" = true.
Proof. repeat split. Qed.

Example QueuePattern_rejects :
  QueuePattern_test "" = false
  /\ QueuePattern_test "a..b" = false
  /\ QueuePattern_test ".a" = false
  /\ QueuePattern_test "a." = false
  /\ QueuePattern_test "Name" = false
  /\ QueuePattern_test "$share/general-mq/name" = false.
Proof. repeat split. Qed.

(** The two managers of the test [newManual] close one after the other: the
    second [removeConnection] drops the entry of the pool. *)
Example removeConnection_last_manager :
  (Lib.removeConnection
     (Lib.removeConnection sharedPool "amqp://localhost" 4 (UserFn 0)).1.1
     "amqp://localhost" 4 (UserFn 1)).1.1 = ∅.
Proof. vm_compute. reflexivity. Qed.

(** A key that is not in the pool: the callback is scheduled, nothing
    else happens. *)
Example removeConnection_unknown_host :
  Lib.removeConnection sharedPool "tcp://localhost" 0 (UserFn 0)
  = (sharedPool, None, [NextTick (Call (UserFn 0) None)]).
Proof. reflexivity. Qed.

(** The network queues of the test [newManual] on an MQTT connection: the
    two receivers subscribe under the shared prefix. *)
Example newDataQueues_network_topics :
  match Lib.newDataQueues freshMqtt (Obj (manualOptions (JInt 1)))
          (JStr "broker.network") (JBool true) with
  | Ok (qs, c) =>
      map (fun q => match q with
                    | MqttQ q => MqttQueue.topic q
                    | AmqpQ q => AmqpQueue.name q
                    end) (createdQueues qs)
      = ["broker.network.unit_code.code_network.uldata";
         "$share/general-mq/broker.network.unit_code.code_network.dldata";
         "broker.network.unit_code.code_network.dldata-result";
         "$share/general-mq/broker.network.unit_code.code_network.ctrl"]
      /\ List.length (Lib.conn_listeners (Lib.conn c)) = 4%nat
  | Throw _ => False
  end.
Proof. vm_compute. split; reflexivity. Qed.

(** One option that is wrong at a time, as in the test [newWrongOpts]. *)
Example newDataQueues_wrong_options :
  Lib.newDataQueues freshAmqp
    (Obj (Lib.mkOptions (JInt 1) JUndefined JUndefined JUndefined JUndefined
            JUndefined JUndefined))
    (JStr "broker.network") (JBool true)
  = Throw "`opts.unitId` is not a string"
  /\ Lib.newDataQueues freshAmqp
       (Obj (Lib.mkOptions (JStr "unit_id") (JStr "") (JStr "id")
               (JStr "code") JUndefined JUndefined JUndefined))
       (JStr "broker.network") (JBool true)
     = Throw "`opts.unitId` and `opts.unitCode` must both empty or non-empty"
  /\ Lib.newDataQueues freshAmqp
       (Obj (Lib.mkOptions (JStr "unit_id") (JStr "unit_code") (JStr "id")
               (JStr "code") JUndefined JUndefined JNull))
       (JStr "broker.network") (JBool true)
     = Throw "`opts.sharedPrefix` is not a string"
  /\ Lib.newDataQueues (Lib.NotConnection JObject) (NotObj JUndefined)
       JUndefined JUndefined
     = Throw "`conn` is not a Connection".
Proof. repeat split. Qed.

(** The four queues of a manager connect, then one of them loses its
    connection and finds it again: [Ready], [NotReady], [Ready]. *)
Example manager_status_run :
  (NetworkMgr.queueStatusEvents
     [(NetworkMgr.Uldata, Connecting); (NetworkMgr.Uldata, Connected);
      (NetworkMgr.Dldata, Connected); (NetworkMgr.DldataResult, Connected);
      (NetworkMgr.Ctrl, Connecting); (NetworkMgr.Ctrl, Connected);
      (NetworkMgr.Dldata, Connecting); (NetworkMgr.Uldata, Connecting);
      (NetworkMgr.Uldata, Connected); (NetworkMgr.Dldata, Connected)]
     sampleMgr).2
  = [NetworkMgr.Emit Ready; NetworkMgr.Emit NotReady; NetworkMgr.Emit Ready].
Proof. vm_compute. reflexivity. Qed.

(** Messages on the [dldata] queue: one that the handler accepts, one that
    it refuses, one that is not JSON. *)
Example manager_messages :
  let dldata := "broker.network.unit_code.code_network.dldata" in
  let good := NetworkMgr.JsonObj [("dataId", NetworkMgr.JsonStr "1");
                                  ("data", NetworkMgr.JsonStr "01")] in
  let bad := NetworkMgr.JsonObj [("data", NetworkMgr.JsonStr "02");
                                 ("error", NetworkMgr.JsonBool true)] in
  NetworkMgr.gmqMsgHandler (fun _ => false) sampleMgr
    (NetworkMgr.dldata sampleMgr) (Some good)
  = ([NetworkMgr.CallOnDlData good; NetworkMgr.Ack dldata], None)
  /\ NetworkMgr.gmqMsgHandler (fun _ => false) sampleMgr
       (NetworkMgr.dldata sampleMgr) (Some bad)
     = ([NetworkMgr.CallOnDlData bad; NetworkMgr.Nack dldata], None)
  /\ NetworkMgr.gmqMsgHandler (fun _ => false) sampleMgr
       (NetworkMgr.dldata sampleMgr) None
     = ([NetworkMgr.Ack dldata], None).
Proof. repeat split. Qed.

(** ** Closing a connection *)

Lemma callsOf_self (f : FunRef) (err : option string) :
  callsOf f (NextTick (Call f err)) = 1%nat.
Proof. unfold callsOf. case_bool_decide; [reflexivity | congruence]. Qed.

(** On a connection that holds a broker connection, [close] and the
    completion of the client's close end in [Closed], and the callback is
    scheduled once. *)
Lemma amqp_close_with_raw_connection (f : FunRef) (err : option string)
    (c : AmqpConnection.t) (raw : nat) :
  AmqpConnection.conn c = Some raw ->
  AmqpConnection.status (fst (amqpCloseRun f err c)) = Closed
  /\ countCalls f (snd (amqpCloseRun f err c)) = 1%nat.
Proof.
  intros Hraw. unfold amqpCloseRun, AmqpConnection.close.
  rewrite Hraw. simpl. split; [reflexivity |].
  case_bool_decide; [reflexivity | congruence].
Qed.

Lemma mqtt_close_with_raw_connection (f : FunRef) (err : option string)
    (c : MqttConnection.t) (raw : nat) :
  MqttConnection.conn c = Some raw ->
  MqttConnection.status (fst (mqttCloseRun f err c)) = Closed
  /\ countCalls f (snd (mqttCloseRun f err c)) = 1%nat.
Proof.
  intros Hraw. unfold mqttCloseRun, MqttConnection.close.
  rewrite Hraw. simpl. split; [reflexivity |].
  case_bool_decide; [reflexivity | congruence].
Qed.

(** Without a broker connection, [close] only schedules the callback: the
    connection is left as it was, whatever its status. *)
Lemma amqp_close_without_raw_connection (callback : JsVal)
    (c : AmqpConnection.t) :
  AmqpConnection.conn c = None ->
  AmqpConnection.close callback c = (c, tick (orNull callback) None).
Proof. intros Hraw. unfold AmqpConnection.close. rewrite Hraw. reflexivity. Qed.

Lemma mqtt_close_without_raw_connection (callback : JsVal)
    (c : MqttConnection.t) :
  MqttConnection.conn c = None ->
  MqttConnection.close callback c = (c, tick (orNull callback) None).
Proof. intros Hraw. unfold MqttConnection.close. rewrite Hraw. reflexivity. Qed.

(** An MQTT connection that [connect] has just started holds its client
    already. *)
Lemma mqtt_connect_holds_client (uri : string) (ms : Z) (raw : nat) :
  MqttConnection.conn
    (fst (MqttConnection.connect raw (MqttConnection.new uri ms))) = Some raw.
Proof. reflexivity. Qed.

(** C3, at an AMQP connection whose dial is still pending: after [connect]
    the status is [Connecting] and no broker connection is held yet;
    [close] with a callback then schedules that callback exactly once but
    leaves the connection in [Connecting], not [Closed], and when the
    pending dial succeeds the connection becomes [Connected]. *)
Theorem amqp_close_while_dialing (uri : string) (ms : Z) (f : FunRef)
    (raw : nat) :
  let c0 := fst (AmqpConnection.connect (AmqpConnection.new uri ms)) in
  let c1 := fst (AmqpConnection.close (JFun f) c0) in
  let acts := snd (AmqpConnection.close (JFun f) c0) in
  AmqpConnection.status c0 = Connecting
  /\ AmqpConnection.conn c0 = None
  /\ c1 = c0
  /\ AmqpConnection.status c1 <> Closed
  /\ acts = [NextTick (Call f None)]
  /\ countCalls f acts = 1%nat
  /\ AmqpConnection.status
       (fst (AmqpConnection.innerConnect_done (inr raw) c1)) = Connected.
Proof.
  cbn. repeat split; try reflexivity; try discriminate.
  change (countCalls f [NextTick (Call f None)] = 1%nat).
  cbn [countCalls]. rewrite callsOf_self. reflexivity.
Qed.

(** ** The connection pool *)

(** Both [removeAllListeners] and [close] reach the connection of an entry,
    whatever the count. *)
Lemma conn_close_with_raw (callback : FunRef) (g : Lib.GmqConn) (raw : nat) :
  Lib.conn_raw g = Some raw ->
  Lib.conn_status
    (Lib.conn_close (JFun callback) (Lib.conn_removeAllListeners g)).1
  = Closing
  /\ Lib.conn_listeners
       (Lib.conn_close (JFun callback) (Lib.conn_removeAllListeners g)).1
     = []
  /\ ((Lib.conn_close (JFun callback) (Lib.conn_removeAllListeners g)).2
      = [EmitStatus Closing; Raw AmqplibClose]
      \/ (Lib.conn_close (JFun callback) (Lib.conn_removeAllListeners g)).2
         = [EmitStatus Closing; Raw MqttEnd]).
Proof.
  destruct g as [c | c]; cbn; intros Hraw.
  - unfold AmqpConnection.close. cbn. unfold AmqpConnection.getRawConnection in Hraw.
    rewrite Hraw. cbn. auto.
  - unfold MqttConnection.close. cbn. unfold MqttConnection.getRawConnection in Hraw.
    rewrite Hraw. cbn. auto.
Qed.

(** The entry is dropped exactly when the decremented count is not
    positive. *)
Lemma removeConnection_entry (connPool : gmap string Lib.Connection)
    (hostUri : string) (n : Z) (callback : FunRef) (e : Lib.Connection) :
  connPool !! hostUri = Some e ->
  (Lib.count e - n <= 0 ->
   (Lib.removeConnection connPool hostUri n callback).1.1 !! hostUri = None)
  /\ (0 < Lib.count e - n ->
      exists e',
        (Lib.removeConnection connPool hostUri n callback).1.1 !! hostUri
        = Some e'
        /\ Lib.count e' = Lib.count e - n).
Proof.
  intros He. unfold Lib.removeConnection. rewrite He.
  destruct (Lib.conn_close _ _) as [g acts]. cbn.
  split; intros Hn.
  - rewrite (proj2 (Z.leb_le _ _) Hn). apply lookup_delete_eq.
  - rewrite (proj2 (Z.leb_gt _ _) Hn). eexists. rewrite lookup_insert_eq.
    split; reflexivity.
Qed.

(** Other entries of the pool are not touched. *)
Lemma removeConnection_other (connPool : gmap string Lib.Connection)
    (hostUri other : string) (n : Z) (callback : FunRef) :
  hostUri <> other ->
  (Lib.removeConnection connPool hostUri n callback).1.1 !! other
  = connPool !! other.
Proof.
  intros Hne. unfold Lib.removeConnection.
  destruct (connPool !! hostUri) as [e |] eqn:He; [| reflexivity].
  destruct (Lib.conn_close _ _) as [g acts]. cbn.
  destruct (Lib.count e - n <=? 0).
  - by apply lookup_delete_ne.
  - by apply lookup_insert_ne.
Qed.

(** C1, where the code departs from it: when the decremented count is still
    positive the entry stays in the pool with the count decremented by [n],
    yet its connection has lost all its listeners and has been told to
    close: it is in [Closing] and the broker client's close has been
    called. *)
Theorem removeConnection_closes_connection_in_use
    (connPool : gmap string Lib.Connection) (hostUri : string) (n : Z)
    (callback : FunRef) (e : Lib.Connection) (raw : nat) :
  connPool !! hostUri = Some e ->
  Lib.conn_raw (Lib.conn e) = Some raw ->
  0 < Lib.count e - n ->
  exists e',
    (Lib.removeConnection connPool hostUri n callback).1.1 !! hostUri = Some e'
    /\ Lib.count e' = Lib.count e - n
    /\ Lib.conn_listeners (Lib.conn e') = []
    /\ Lib.conn_status (Lib.conn e') = Closing
    /\ ((Lib.removeConnection connPool hostUri n callback).2
        = [EmitStatus Closing; Raw AmqplibClose]
        \/ (Lib.removeConnection connPool hostUri n callback).2
           = [EmitStatus Closing; Raw MqttEnd]).
Proof.
  intros He Hraw Hn.
  destruct (conn_close_with_raw callback (Lib.conn e) raw Hraw)
    as (Hst & Hls & Hacts).
  unfold Lib.removeConnection. rewrite He.
  destruct (Lib.conn_close _ _) as [g acts]. cbn in *.
  rewrite (proj2 (Z.leb_gt _ _) Hn).
  eexists. rewrite lookup_insert_eq. split; [reflexivity |]. cbn. auto.
Qed.

Lemma removeConnection_closes_connection_in_use_witness :
  exists e',
    (Lib.removeConnection sharedPool "amqp://localhost" 4 (UserFn 0)).1.1
      !! "amqp://localhost" = Some e'
    /\ Lib.count e' = 8 - 4
    /\ Lib.conn_listeners (Lib.conn e') = []
    /\ Lib.conn_status (Lib.conn e') = Closing
    /\ ((Lib.removeConnection sharedPool "amqp://localhost" 4 (UserFn 0)).2
        = [EmitStatus Closing; Raw AmqplibClose]
        \/ (Lib.removeConnection sharedPool "amqp://localhost" 4 (UserFn 0)).2
           = [EmitStatus Closing; Raw MqttEnd]).
Proof.
  apply (removeConnection_closes_connection_in_use sharedPool
           "amqp://localhost" 4 (UserFn 0)
           (Lib.mkConnection (Lib.Amqp sharedAmqp) 8) 1%nat).
  - reflexivity.
  - reflexivity.
  - reflexivity.
Defined.

(** ** The data-queue factory *)

Lemma bind_Ok {A B : Type} (r : Result A) (k : A -> Result B) (b : B) :
  bind r k = Ok b -> exists a, r = Ok a /\ k a = Ok b.
Proof. destruct r as [a | m]; cbn; [eauto | discriminate]. Qed.

Lemma engine_Queue_prefetch (qOpts : QueueOpts) (g g' : Lib.GmqConn)
    (q : Queue) :
  Lib.engine_Queue qOpts g = Ok (q, g') -> storesPrefetch (o_prefetch qOpts) q.
Proof.
  unfold Lib.engine_Queue. destruct g as [c | c]; intros H.
  - apply bind_Ok in H as ([a c'] & Hc & H). injection H as <- <-.
    unfold AmqpQueue.constructor in Hc. cbn in Hc.
    repeat match type of Hc with
           | (if ?b then _ else _) = _ => destruct b; try discriminate
           end.
    injection Hc as <- <-. reflexivity.
  - apply bind_Ok in H as ([a c'] & Hc & H). injection H as <- <-.
    exact I.
Qed.

Lemma newDataQueues_manual_prefetch_zero :
  isOk (Lib.newDataQueues freshAmqp (Obj (manualOptions (JInt 0)))
          (JStr "broker.network") (JBool true)) = true
  /\ isOk (Lib.newDataQueues freshMqtt (Obj (manualOptions (JInt 0)))
             (JStr "broker.network") (JBool true)) = true.
Proof. split; vm_compute; reflexivity. Qed.

Lemma newDataQueues_manual_prefetch_65536 :
  Lib.newDataQueues freshAmqp (Obj (manualOptions (JInt 65536)))
    (JStr "broker.network") (JBool true)
  = Throw "`opts.prefetch` is not an integer between 1 and 65535".
Proof. vm_compute. reflexivity. Qed.

(** C2 as stated fails: with [prefetch: 0] the factory does not throw. *)
Lemma newDataQueues_accepts_prefetch_zero :
  ~ (forall (conn : Lib.ConnectionArg) (o : Lib.Options)
            (prefix isNetwork : JsVal),
        Lib.prefetch o = JInt 0 ->
        exists message,
          Lib.newDataQueues conn (Obj o) prefix isNetwork = Throw message).
Proof.
  intros H.
  destruct (H freshAmqp (manualOptions (JInt 0)) (JStr "broker.network")
              (JBool true) eq_refl) as [message Hm].
  pose proof (proj1 newDataQueues_manual_prefetch_zero) as Hok.
  rewrite Hm in Hok. discriminate.
Qed.

(** With [prefetch: 0] the factory does what it does without [prefetch]. *)
Lemma newDataQueues_prefetch_zero_as_absent (conn : Lib.ConnectionArg)
    (o : Lib.Options) (prefix isNetwork : JsVal) :
  Lib.newDataQueues conn (Obj (Lib.set_prefetch (JInt 0) o)) prefix isNetwork
  = Lib.newDataQueues conn (Obj (Lib.set_prefetch JUndefined o)) prefix
      isNetwork.
Proof. destruct conn; reflexivity. Qed.

Ltac pass_checks H :=
  repeat match type of H with
         | (if ?b then _ else _) = Ok _ =>
             let E := fresh "Hcheck" in
             destruct b eqn:E; [discriminate H |]
         end.

Ltac next_queue H q g Hq :=
  apply bind_Ok in H as ([q g] & Hq & H).

(** C2, amended: the factory accepts [prefetch: 0] and treats it as an
    absent [prefetch] -- whenever the call without [prefetch] returns
    queues, the call with [prefetch: 0] returns the same queues, each AMQP
    queue with the default prefetch 100 --, and it rejects every integer
    below 0 or above 65535, such as 65536. *)
Theorem newDataQueues_prefetch_zero_is_default (conn : Lib.ConnectionArg)
    (o : Lib.Options) (prefix isNetwork : JsVal) (qs : Lib.DataMqQueues)
    (c : Lib.Connection) :
  Lib.newDataQueues conn (Obj (Lib.set_prefetch JUndefined o)) prefix
    isNetwork = Ok (qs, c) ->
  Lib.newDataQueues conn (Obj (Lib.set_prefetch (JInt 0) o)) prefix isNetwork
  = Ok (qs, c)
  /\ Forall (storesPrefetch (JInt Lib.DEF_PREFETCH)) (createdQueues qs)
  /\ forall z : Z,
       z < 0 \/ 65535 < z ->
       Lib.newDataQueues conn (Obj (Lib.set_prefetch (JInt z) o)) prefix
         isNetwork
       = Throw "`opts.prefetch` is not an integer between 1 and 65535".
Proof.
  intros H. split; [| split].
  - rewrite newDataQueues_prefetch_zero_as_absent. exact H.
  - unfold Lib.newDataQueues in H. destruct conn as [conn |]; [| discriminate].
    cbn [notAnObject fields Lib.set_prefetch Lib.unitId Lib.unitCode Lib.id
         Lib.name Lib.prefetch Lib.persistent Lib.sharedPrefix isUndefined
         negb andb] in H.
    pass_checks H.
    unfold createdQueues.
    destruct (asBool isNetwork).
    + next_queue H q1 g1 H1. next_queue H q2 g2 H2.
      cbn [bind] in H.
      next_queue H q4 g4 H4. next_queue H q5 g5 H5.
      cbn [bind] in H. injection H as <- <-. cbn.
      apply engine_Queue_prefetch in H1, H2, H4.
      apply bind_Ok in H5 as ([q g] & H5 & Hq). injection Hq as <- <-.
      apply engine_Queue_prefetch in H5.
      repeat constructor; assumption.
    + next_queue H q1 g1 H1. next_queue H q2 g2 H2.
      next_queue H q3 g3 H3. next_queue H q4 g4 H4.
      cbn [bind] in H. injection H as <- <-. cbn.
      apply engine_Queue_prefetch in H1, H2, H4.
      apply bind_Ok in H3 as ([q g] & H3 & Hq). injection Hq as <- <-.
      apply engine_Queue_prefetch in H3.
      repeat constructor; assumption.
  - intros z Hz. unfold Lib.newDataQueues in *.
    destruct conn as [conn |]; [| discriminate].
    cbn [notAnObject fields Lib.set_prefetch Lib.unitId Lib.unitCode Lib.id
         Lib.name Lib.prefetch Lib.persistent Lib.sharedPrefix isUndefined
         Number_isInteger numLt numGt negb andb orb] in *.
    repeat match type of H with
           | (if ?b then _ else _) = Ok _ =>
               destruct b; [discriminate H |]
           end.
    replace ((z <? 0) || (z >? 65535)) with true; [reflexivity |].
    symmetry. apply orb_true_iff.
    destruct Hz; [left; apply Z.ltb_lt | right; apply Z.gtb_lt]; lia.
Qed.

Lemma newDataQueues_prefetch_zero_is_default_witness :
  exists (qs : Lib.DataMqQueues) (c : Lib.Connection),
    Lib.newDataQueues freshAmqp
      (Obj (Lib.set_prefetch (JInt 0) (manualOptions (JInt 0))))
      (JStr "broker.network") (JBool true) = Ok (qs, c)
    /\ Forall (storesPrefetch (JInt Lib.DEF_PREFETCH)) (createdQueues qs)
    /\ forall z : Z,
         z < 0 \/ 65535 < z ->
         Lib.newDataQueues freshAmqp
           (Obj (Lib.set_prefetch (JInt z) (manualOptions (JInt 0))))
           (JStr "broker.network") (JBool true)
         = Throw "`opts.prefetch` is not an integer between 1 and 65535".
Proof.
  eexists _, _.
  apply (newDataQueues_prefetch_zero_is_default freshAmqp
           (manualOptions (JInt 0)) (JStr "broker.network") (JBool true)).
  vm_compute. reflexivity.
Defined.

(** ** The status of a network manager *)

Lemma allConnected_iff (m : NetworkMgr.t) :
  allConnected m <->
  bool_decide (queue_status (NetworkMgr.uldata m) = Connected)
  && bool_decide (queue_status (NetworkMgr.dldata m) = Connected)
  && bool_decide (queue_status (NetworkMgr.dldataResult m) = Connected)
  && bool_decide (queue_status (NetworkMgr.ctrl m) = Connected) = true.
Proof.
  rewrite !andb_true_iff, !bool_decide_eq_true. split.
  - intros H. repeat split.
    + exact (H NetworkMgr.Uldata).
    + exact (H NetworkMgr.Dldata).
    + exact (H NetworkMgr.DldataResult).
    + exact (H NetworkMgr.Ctrl).
  - intros [[[H1 H2] H3] H4] []; assumption.
Qed.

Lemma gmqStatusHandler_queues (m : NetworkMgr.t) (r : NetworkMgr.Role) :
  NetworkMgr.queueOf r (NetworkMgr.gmqStatusHandler m).1
  = NetworkMgr.queueOf r m.
Proof.
  unfold NetworkMgr.gmqStatusHandler.
  destruct (bool_decide (NetworkMgr.status m = _)); destruct r; reflexivity.
Qed.

(** After the handler has run the status is [Ready] exactly when all four
    queues are connected. *)
Lemma gmqStatusHandler_status (m : NetworkMgr.t) :
  NetworkMgr.status (NetworkMgr.gmqStatusHandler m).1 = Ready
  <-> allConnected m.
Proof.
  rewrite allConnected_iff. unfold NetworkMgr.gmqStatusHandler.
  destruct (_ && _ && _ && _); case_bool_decide as Hs; cbn;
    rewrite ?Hs; split; congruence.
Qed.

(** The handler emits the new status when it differs from the stored one,
    and nothing otherwise. *)
Lemma gmqStatusHandler_emits (m : NetworkMgr.t) :
  let m' := (NetworkMgr.gmqStatusHandler m).1 in
  let out := (NetworkMgr.gmqStatusHandler m).2 in
  (NetworkMgr.status m' = NetworkMgr.status m /\ out = [])
  \/ (NetworkMgr.status m' <> NetworkMgr.status m
      /\ out = [NetworkMgr.Emit (NetworkMgr.status m')]).
Proof.
  unfold NetworkMgr.gmqStatusHandler.
  case_bool_decide as Hs; cbn; [left | right]; split; congruence.
Qed.

Lemma queueStatusEvent_invariant (ev : NetworkMgr.Role * Status)
    (m : NetworkMgr.t) :
  NetworkMgr.status (NetworkMgr.queueStatusEvent ev m).1 = Ready
  <-> allConnected (NetworkMgr.queueStatusEvent ev m).1.
Proof.
  unfold NetworkMgr.queueStatusEvent. rewrite gmqStatusHandler_status.
  unfold allConnected. split; intros H r.
  - rewrite gmqStatusHandler_queues. apply H.
  - rewrite <- gmqStatusHandler_queues. apply H.
Qed.

Lemma queueStatusEvents_invariant (evs : list (NetworkMgr.Role * Status))
    (m : NetworkMgr.t) :
  (NetworkMgr.status m = Ready <-> allConnected m) ->
  NetworkMgr.status (NetworkMgr.queueStatusEvents evs m).1 = Ready
  <-> allConnected (NetworkMgr.queueStatusEvents evs m).1.
Proof.
  revert m. induction evs as [| ev evs IH]; intros m Hm; [exact Hm |].
  cbn [NetworkMgr.queueStatusEvents].
  pose proof (queueStatusEvent_invariant ev m) as H1.
  destruct (NetworkMgr.queueStatusEvent ev m) as [m1 out1].
  specialize (IH m1 H1).
  destruct (NetworkMgr.queueStatusEvents evs m1) as [m2 out2]. exact IH.
Qed.

Lemma queueStatusEvents_noRepeat (evs : list (NetworkMgr.Role * Status))
    (m : NetworkMgr.t) :
  noRepeat (NetworkMgr.status m) (NetworkMgr.queueStatusEvents evs m).2
  /\ lastStatus (NetworkMgr.status m) (NetworkMgr.queueStatusEvents evs m).2
     = NetworkMgr.status (NetworkMgr.queueStatusEvents evs m).1.
Proof.
  revert m. induction evs as [| ev evs IH]; intros m; [split; constructor |].
  cbn [NetworkMgr.queueStatusEvents].
  unfold NetworkMgr.queueStatusEvent.
  set (m0 := NetworkMgr.set_queue _ _ m).
  assert (NetworkMgr.status m0 = NetworkMgr.status m) as <-
    by (subst m0; destruct ev as [[] s]; reflexivity).
  pose proof (gmqStatusHandler_emits m0) as He. cbn zeta in He.
  destruct (NetworkMgr.gmqStatusHandler m0) as [m1 out1].
  specialize (IH m1).
  destruct (NetworkMgr.queueStatusEvents evs m1) as [m2 out2].
  cbn [fst snd] in *.
  destruct He as [[Hs ->] | [Hs ->]]; cbn [app noRepeat lastStatus].
  - rewrite <- Hs. exact IH.
  - destruct IH as [IH1 IH2]. auto.
Qed.

(** The tasks of a waterfall. *)
Lemma waterfall_invariant {St : Type} (P : St -> Prop)
    (tasks : list (St -> St * TaskEnd)) :
  Forall (fun task => forall s, P s -> P (task s).1) tasks ->
  forall s, P s -> P (waterfall tasks s).1.
Proof.
  induction 1 as [| task rest Htask _ IH]; intros s Hs; [exact Hs |].
  cbn [waterfall]. specialize (Htask s Hs).
  destruct (task s) as [s1 e]. destruct e as [[err |] | |]; auto.
Qed.

Lemma waterfall_established {St : Type} (P : St -> Prop)
    (task : St -> St * TaskEnd) (rest : list (St -> St * TaskEnd)) :
  (forall s, P (task s).1) ->
  Forall (fun task => forall s, P s -> P (task s).1) rest ->
  forall s, P (waterfall (task :: rest) s).1.
Proof.
  intros Htask Hrest s. cbn [waterfall]. specialize (Htask s).
  destruct (task s) as [s1 e]. destruct e as [[err |] | |]; auto.
  now apply waterfall_invariant.
Qed.

Lemma waterfall_passed {St : Type} (tasks : list (St -> St * TaskEnd))
    (s : St) :
  (waterfall tasks s).2 = Passed None ->
  (waterfall tasks s).1 = fold_left (fun s task => (task s).1) tasks s.
Proof.
  revert s. induction tasks as [| task rest IH]; intros s; [reflexivity |].
  cbn [waterfall fold_left].
  destruct (task s) as [s1 e]. destruct e as [[err |] | |]; try discriminate.
  apply IH.
Qed.

Lemma ready_or_not (s : MgrStatus) (P : Prop) :
  (s = Ready <-> P) -> (s = NotReady <-> ~ P).
Proof. intros H. rewrite <- H. destruct s; split; congruence. Qed.

(** The listeners of a network manager and its [close]. *)
Section NetworkStatus.

Import NetworkMgr.

Lemma carries_removeAllListeners (r x : Role) (l : list Role) :
  carries x (removeAllListeners r l)
  = carries x l && negb (bool_decide (x = r)).
Proof.
  unfold carries, removeAllListeners.
  induction l as [| y l IH]; [reflexivity |].
  cbn [List.filter existsb].
  destruct (bool_decide (y = r)) eqn:Hy; cbn [negb existsb]; rewrite IH.
  - apply bool_decide_eq_true_1 in Hy. subst y.
    destruct (bool_decide (r = x)) eqn:Hx; [| reflexivity].
    apply bool_decide_eq_true_1 in Hx. subst x.
    rewrite bool_decide_eq_true_2 by reflexivity.
    cbn. now rewrite andb_false_r.
  - destruct (bool_decide (y = x)) eqn:Hx; [| reflexivity].
    apply bool_decide_eq_true_1 in Hx. subst x. rewrite Hy. reflexivity.
Qed.

Lemma removeAllListeners_all (l : list Role) :
  removeAllListeners Ctrl
    (removeAllListeners DldataResult
       (removeAllListeners Dldata (removeAllListeners Uldata l))) = [].
Proof.
  induction l as [| [] l IH]; [reflexivity | exact IH ..].
Qed.

Lemma set_queue_status (r : Role) (q : Queue) (m : t) :
  status (set_queue r q m) = status m.
Proof. destruct r; reflexivity. Qed.

Lemma queueStatusEmitted_heard (l : list Role) (ev : Role * Status) (m : t) :
  carries ev.1 l = true -> queueStatusEmitted l ev m = queueStatusEvent ev m.
Proof.
  intros H. unfold queueStatusEmitted, queueStatusEvent. now rewrite H.
Qed.

Lemma queueStatusEmitted_unheard (l : list Role) (ev : Role * Status)
    (m : t) :
  carries ev.1 l = false ->
  status (queueStatusEmitted l ev m).1 = status m
  /\ (queueStatusEmitted l ev m).2 = [].
Proof.
  intros H. unfold queueStatusEmitted. rewrite H.
  split; [apply set_queue_status | reflexivity].
Qed.

Lemma queueStatusesEmitted_unheard (l : list Role) (r : Role)
    (statuses : list Status) (m : t) :
  carries r l = false ->
  status (queueStatusesEmitted l (map (pair r) statuses) m).1 = status m
  /\ (queueStatusesEmitted l (map (pair r) statuses) m).2 = [].
Proof.
  intros H. revert m.
  induction statuses as [| s rest IH]; intros m; [split; reflexivity |].
  cbn [map queueStatusesEmitted].
  destruct (queueStatusEmitted_unheard l (r, s) m H) as [H1 H2].
  destruct (queueStatusEmitted l (r, s) m) as [m1 out1].
  destruct (IH m1) as [H3 H4].
  destruct (queueStatusesEmitted l (map (pair r) rest) m1) as [m2 out2].
  cbn [fst snd] in *. subst. split; [congruence | reflexivity].
Qed.

Lemma closeQueue_keeps (n : nat) (r : Role) (err : option string)
    (s : Managed) :
  let s' := (closeQueue n r err s).1 in
  status (manager s') = status (manager s)
  /\ emitted s' = emitted s
  /\ listeners s' = removeAllListeners r (listeners s).
Proof.
  unfold closeQueue.
  destruct (queue_closeTask _ _ _ _) as [[[q mc] acts] e].
  assert (carries r (removeAllListeners r (listeners s)) = false) as Hr.
  { rewrite carries_removeAllListeners.
    rewrite bool_decide_eq_true_2 by reflexivity. apply andb_false_r. }
  destruct (queueStatusesEmitted_unheard _ r (statusesOf acts) (manager s) Hr)
    as [H1 H2].
  destruct (queueStatusesEmitted _ _ _) as [m out].
  cbn [fst snd manager emitted listeners] in *. subst out.
  rewrite set_queue_status, app_nil_r. auto.
Qed.

Lemma closeConnection_keeps (n : nat) (connErr : option string)
    (s : Managed) :
  let s' := (closeConnection n connErr s).1 in
  manager s' = manager s /\ emitted s' = emitted s
  /\ listeners s' = listeners s.
Proof.
  unfold closeConnection.
  destruct (removeConnectionTask _ _ _ _) as [[pool acts] e].
  repeat split.
Qed.

Lemma close_keeps (errs : Role -> option string) (connErr : option string)
    (callback : FunRef) (s : Managed) :
  let s' := (close errs connErr callback s).1 in
  status (manager s') = status (manager s)
  /\ emitted s' = emitted s
  /\ carries Uldata (listeners s') = false
  /\ (forall r : Role,
        carries r (listeners s') = true -> carries r (listeners s) = true)
  /\ ((close errs connErr callback s).2 = Passed None -> listeners s' = []).
Proof.
  cbn zeta. unfold close.
  set (tasks := [closeQueue 0 Uldata (errs Uldata); _; _; _; _]).
  assert (status (manager (waterfall tasks s).1) = status (manager s)
          /\ emitted (waterfall tasks s).1 = emitted s
          /\ carries Uldata (listeners (waterfall tasks s).1) = false
          /\ (forall r : Role,
                carries r (listeners (waterfall tasks s).1) = true ->
                carries r (listeners s) = true)
          /\ ((waterfall tasks s).2 = Passed None ->
              listeners (waterfall tasks s).1 = [])) as H.
  { split; [| split; [| split; [| split]]].
    - apply (waterfall_invariant
               (fun x => status (manager x) = status (manager s)));
        [| reflexivity].
      subst tasks. repeat constructor; intros x Hx.
      1-4: rewrite (proj1 (closeQueue_keeps _ _ _ x)); exact Hx.
      rewrite (proj1 (closeConnection_keeps _ _ x)); exact Hx.
    - apply (waterfall_invariant (fun x => emitted x = emitted s));
        [| reflexivity].
      subst tasks. repeat constructor; intros x Hx.
      1-4: rewrite (proj1 (proj2 (closeQueue_keeps _ _ _ x))); exact Hx.
      rewrite (proj1 (proj2 (closeConnection_keeps _ _ x))); exact Hx.
    - subst tasks.
      apply (waterfall_established
               (fun x => carries Uldata (listeners x) = false)).
      + intros x. rewrite (proj2 (proj2 (closeQueue_keeps _ _ _ x))),
          carries_removeAllListeners.
        rewrite bool_decide_eq_true_2 by reflexivity. apply andb_false_r.
      + repeat constructor; intros y Hy.
        1-3: rewrite (proj2 (proj2 (closeQueue_keeps _ _ _ y))),
               carries_removeAllListeners, Hy; reflexivity.
        rewrite (proj2 (proj2 (closeConnection_keeps _ _ y))); exact Hy.
    - intros r.
      apply (waterfall_invariant
               (fun x => carries r (listeners x) = true ->
                         carries r (listeners s) = true)); [| auto].
      subst tasks. repeat constructor; intros x Hx.
      1-4: rewrite (proj2 (proj2 (closeQueue_keeps _ _ _ x))),
             carries_removeAllListeners; intros H;
           apply andb_true_iff in H; apply Hx, H.
      rewrite (proj2 (proj2 (closeConnection_keeps _ _ x))); exact Hx.
    - intros He. rewrite (waterfall_passed _ _ He). subst tasks.
      cbn [fold_left].
      rewrite (proj2 (proj2 (closeConnection_keeps _ _ _))).
      rewrite !(proj2 (proj2 (closeQueue_keeps _ _ _ _))).
      apply removeAllListeners_all. }
  destruct (waterfall tasks s) as [s1 e]. cbn [fst snd] in H.
  destruct e as [err | |]; cbn [fst snd manager emitted listeners]; exact H.
Qed.

Lemma carries_constructor_listeners (r : Role) :
  carries r constructor_listeners = true.
Proof. destruct r; reflexivity. Qed.

Lemma queueStatusesEmitted_listening (evs : list (Role * Status)) (m : t) :
  queueStatusesEmitted constructor_listeners evs m = queueStatusEvents evs m.
Proof.
  revert m. induction evs as [| ev evs IH]; intros m; [reflexivity |].
  cbn [queueStatusesEmitted queueStatusEvents].
  rewrite queueStatusEmitted_heard by apply carries_constructor_listeners.
  destruct (queueStatusEvent ev m) as [m1 out1]. now rewrite IH.
Qed.

Lemma queueStatusesEmitted_noRepeat (l : list Role)
    (evs : list (Role * Status)) (m : t) :
  noRepeat (status m) (queueStatusesEmitted l evs m).2
  /\ lastStatus (status m) (queueStatusesEmitted l evs m).2
     = status (queueStatusesEmitted l evs m).1.
Proof.
  revert m. induction evs as [| ev evs IH]; intros m; [split; constructor |].
  cbn [queueStatusesEmitted].
  unfold queueStatusEmitted.
  set (m0 := set_queue _ _ m).
  assert (status m0 = status m) as <- by apply set_queue_status.
  pose proof (gmqStatusHandler_emits m0) as He. cbn zeta in He.
  destruct (carries ev.1 l).
  - destruct (gmqStatusHandler m0) as [m1 out1].
    specialize (IH m1).
    destruct (queueStatusesEmitted l evs m1) as [m2 out2].
    cbn [fst snd] in *.
    destruct He as [[Hs ->] | [Hs ->]]; cbn [app noRepeat lastStatus].
    + rewrite <- Hs. exact IH.
    + destruct IH as [IH1 IH2]. auto.
  - specialize (IH m0).
    destruct (queueStatusesEmitted l evs m0) as [m2 out2].
    exact IH.
Qed.

End NetworkStatus.

(** ** The status of an application manager *)

Lemma app_allConnected_iff (m : ApplicationMgr.t) :
  appAllConnected m <->
  bool_decide (queue_status (ApplicationMgr.uldata m) = Connected)
  && bool_decide (queue_status (ApplicationMgr.dldata m) = Connected)
  && bool_decide (queue_status (ApplicationMgr.dldataResp m) = Connected)
  && bool_decide (queue_status (ApplicationMgr.dldataResult m) = Connected) = true.
Proof.
  rewrite !andb_true_iff, !bool_decide_eq_true. split.
  - intros H. repeat split.
    + exact (H ApplicationMgr.Uldata).
    + exact (H ApplicationMgr.Dldata).
    + exact (H ApplicationMgr.DldataResp).
    + exact (H ApplicationMgr.DldataResult).
  - intros [[[H1 H2] H3] H4] []; assumption.
Qed.

Lemma app_gmqStatusHandler_queues
    (m : ApplicationMgr.t) (r : ApplicationMgr.Role) :
  ApplicationMgr.queueOf r (ApplicationMgr.gmqStatusHandler m).1
  = ApplicationMgr.queueOf r m.
Proof.
  unfold ApplicationMgr.gmqStatusHandler.
  destruct (bool_decide (ApplicationMgr.status m = _)); destruct r; reflexivity.
Qed.

(** After the handler has run the status is [Ready] exactly when all four
    queues are connected. *)
Lemma app_gmqStatusHandler_status (m : ApplicationMgr.t) :
  ApplicationMgr.status (ApplicationMgr.gmqStatusHandler m).1 = Ready
  <-> appAllConnected m.
Proof.
  rewrite app_allConnected_iff. unfold ApplicationMgr.gmqStatusHandler.
  destruct (_ && _ && _ && _); case_bool_decide as Hs; cbn;
    rewrite ?Hs; split; congruence.
Qed.

(** The handler emits the new status when it differs from the stored one,
    and nothing otherwise. *)
Lemma app_gmqStatusHandler_emits (m : ApplicationMgr.t) :
  let m' := (ApplicationMgr.gmqStatusHandler m).1 in
  let out := (ApplicationMgr.gmqStatusHandler m).2 in
  (ApplicationMgr.status m' = ApplicationMgr.status m /\ out = [])
  \/ (ApplicationMgr.status m' <> ApplicationMgr.status m
      /\ out = [ApplicationMgr.Emit (ApplicationMgr.status m')]).
Proof.
  unfold ApplicationMgr.gmqStatusHandler.
  case_bool_decide as Hs; cbn; [left | right]; split; congruence.
Qed.

Lemma app_queueStatusEvent_invariant (ev : ApplicationMgr.Role * Status)
    (m : ApplicationMgr.t) :
  ApplicationMgr.status (ApplicationMgr.queueStatusEvent ev m).1 = Ready
  <-> appAllConnected (ApplicationMgr.queueStatusEvent ev m).1.
Proof.
  unfold ApplicationMgr.queueStatusEvent. rewrite app_gmqStatusHandler_status.
  unfold appAllConnected. split; intros H r.
  - rewrite app_gmqStatusHandler_queues. apply H.
  - rewrite <- app_gmqStatusHandler_queues. apply H.
Qed.

Lemma app_queueStatusEvents_invariant
    (evs : list (ApplicationMgr.Role * Status))
    (m : ApplicationMgr.t) :
  (ApplicationMgr.status m = Ready <-> appAllConnected m) ->
  ApplicationMgr.status (ApplicationMgr.queueStatusEvents evs m).1 = Ready
  <-> appAllConnected (ApplicationMgr.queueStatusEvents evs m).1.
Proof.
  revert m. induction evs as [| ev evs IH]; intros m Hm; [exact Hm |].
  cbn [ApplicationMgr.queueStatusEvents].
  pose proof (app_queueStatusEvent_invariant ev m) as H1.
  destruct (ApplicationMgr.queueStatusEvent ev m) as [m1 out1].
  specialize (IH m1 H1).
  destruct (ApplicationMgr.queueStatusEvents evs m1) as [m2 out2]. exact IH.
Qed.

Lemma app_queueStatusEvents_noRepeat (evs : list (ApplicationMgr.Role * Status))
    (m : ApplicationMgr.t) :
  appNoRepeat (ApplicationMgr.status m) (ApplicationMgr.queueStatusEvents evs m).2
  /\ appLastStatus (ApplicationMgr.status m) (ApplicationMgr.queueStatusEvents evs m).2
     = ApplicationMgr.status (ApplicationMgr.queueStatusEvents evs m).1.
Proof.
  revert m. induction evs as [| ev evs IH]; intros m; [split; constructor |].
  cbn [ApplicationMgr.queueStatusEvents].
  unfold ApplicationMgr.queueStatusEvent.
  set (m0 := ApplicationMgr.set_queue _ _ m).
  assert (ApplicationMgr.status m0 = ApplicationMgr.status m) as <-
    by (subst m0; destruct ev as [[] s]; reflexivity).
  pose proof (app_gmqStatusHandler_emits m0) as He. cbn zeta in He.
  destruct (ApplicationMgr.gmqStatusHandler m0) as [m1 out1].
  specialize (IH m1).
  destruct (ApplicationMgr.queueStatusEvents evs m1) as [m2 out2].
  cbn [fst snd] in *.
  destruct He as [[Hs ->] | [Hs ->]]; cbn [app appNoRepeat appLastStatus].
  - rewrite <- Hs. exact IH.
  - destruct IH as [IH1 IH2]. auto.
Qed.

(** The listeners of an application manager and its [close]. *)
Section ApplicationStatus.

Import ApplicationMgr.

Lemma app_carries_removeAllListeners (r x : Role) (l : list Role) :
  carries x (removeAllListeners r l)
  = carries x l && negb (bool_decide (x = r)).
Proof.
  unfold carries, removeAllListeners.
  induction l as [| y l IH]; [reflexivity |].
  cbn [List.filter existsb].
  destruct (bool_decide (y = r)) eqn:Hy; cbn [negb existsb]; rewrite IH.
  - apply bool_decide_eq_true_1 in Hy. subst y.
    destruct (bool_decide (r = x)) eqn:Hx; [| reflexivity].
    apply bool_decide_eq_true_1 in Hx. subst x.
    rewrite bool_decide_eq_true_2 by reflexivity.
    cbn. now rewrite andb_false_r.
  - destruct (bool_decide (y = x)) eqn:Hx; [| reflexivity].
    apply bool_decide_eq_true_1 in Hx. subst x. rewrite Hy. reflexivity.
Qed.

Lemma app_removeAllListeners_all (l : list Role) :
  removeAllListeners DldataResult
    (removeAllListeners DldataResp
       (removeAllListeners Dldata (removeAllListeners Uldata l))) = [].
Proof.
  induction l as [| [] l IH]; [reflexivity | exact IH ..].
Qed.

Lemma app_set_queue_status (r : Role) (q : Queue) (m : t) :
  status (set_queue r q m) = status m.
Proof. destruct r; reflexivity. Qed.

Lemma app_queueStatusEmitted_heard
    (l : list Role) (ev : Role * Status) (m : t) :
  carries ev.1 l = true -> queueStatusEmitted l ev m = queueStatusEvent ev m.
Proof.
  intros H. unfold queueStatusEmitted, queueStatusEvent. now rewrite H.
Qed.

Lemma app_queueStatusEmitted_unheard (l : list Role) (ev : Role * Status)
    (m : t) :
  carries ev.1 l = false ->
  status (queueStatusEmitted l ev m).1 = status m
  /\ (queueStatusEmitted l ev m).2 = [].
Proof.
  intros H. unfold queueStatusEmitted. rewrite H.
  split; [apply app_set_queue_status | reflexivity].
Qed.

Lemma app_queueStatusesEmitted_unheard (l : list Role) (r : Role)
    (statuses : list Status) (m : t) :
  carries r l = false ->
  status (queueStatusesEmitted l (map (pair r) statuses) m).1 = status m
  /\ (queueStatusesEmitted l (map (pair r) statuses) m).2 = [].
Proof.
  intros H. revert m.
  induction statuses as [| s rest IH]; intros m; [split; reflexivity |].
  cbn [map queueStatusesEmitted].
  destruct (app_queueStatusEmitted_unheard l (r, s) m H) as [H1 H2].
  destruct (queueStatusEmitted l (r, s) m) as [m1 out1].
  destruct (IH m1) as [H3 H4].
  destruct (queueStatusesEmitted l (map (pair r) rest) m1) as [m2 out2].
  cbn [fst snd] in *. subst. split; [congruence | reflexivity].
Qed.

Lemma app_closeQueue_keeps (n : nat) (r : Role) (err : option string)
    (s : Managed) :
  let s' := (closeQueue n r err s).1 in
  status (manager s') = status (manager s)
  /\ emitted s' = emitted s
  /\ listeners s' = removeAllListeners r (listeners s).
Proof.
  unfold closeQueue.
  destruct (queue_closeTask _ _ _ _) as [[[q mc] acts] e].
  assert (carries r (removeAllListeners r (listeners s)) = false) as Hr.
  { rewrite app_carries_removeAllListeners.
    rewrite bool_decide_eq_true_2 by reflexivity. apply andb_false_r. }
  destruct (app_queueStatusesEmitted_unheard _ r (statusesOf acts) (manager s) Hr)
    as [H1 H2].
  destruct (queueStatusesEmitted _ _ _) as [m out].
  cbn [fst snd manager emitted listeners] in *. subst out.
  rewrite app_set_queue_status, app_nil_r. auto.
Qed.

Lemma app_closeConnection_keeps (n : nat) (connErr : option string)
    (s : Managed) :
  let s' := (closeConnection n connErr s).1 in
  manager s' = manager s /\ emitted s' = emitted s
  /\ listeners s' = listeners s.
Proof.
  unfold closeConnection.
  destruct (removeConnectionTask _ _ _ _) as [[pool acts] e].
  repeat split.
Qed.

Lemma app_close_keeps (errs : Role -> option string) (connErr : option string)
    (callback : FunRef) (s : Managed) :
  let s' := (close errs connErr callback s).1 in
  status (manager s') = status (manager s)
  /\ emitted s' = emitted s
  /\ carries Uldata (listeners s') = false
  /\ (forall r : Role,
        carries r (listeners s') = true -> carries r (listeners s) = true)
  /\ ((close errs connErr callback s).2 = Passed None -> listeners s' = []).
Proof.
  cbn zeta. unfold close.
  set (tasks := [closeQueue 0 Uldata (errs Uldata); _; _; _; _]).
  assert (status (manager (waterfall tasks s).1) = status (manager s)
          /\ emitted (waterfall tasks s).1 = emitted s
          /\ carries Uldata (listeners (waterfall tasks s).1) = false
          /\ (forall r : Role,
                carries r (listeners (waterfall tasks s).1) = true ->
                carries r (listeners s) = true)
          /\ ((waterfall tasks s).2 = Passed None ->
              listeners (waterfall tasks s).1 = [])) as H.
  { split; [| split; [| split; [| split]]].
    - apply (waterfall_invariant
               (fun x => status (manager x) = status (manager s)));
        [| reflexivity].
      subst tasks. repeat constructor; intros x Hx.
      1-4: rewrite (proj1 (app_closeQueue_keeps _ _ _ x)); exact Hx.
      rewrite (proj1 (app_closeConnection_keeps _ _ x)); exact Hx.
    - apply (waterfall_invariant (fun x => emitted x = emitted s));
        [| reflexivity].
      subst tasks. repeat constructor; intros x Hx.
      1-4: rewrite (proj1 (proj2 (app_closeQueue_keeps _ _ _ x))); exact Hx.
      rewrite (proj1 (proj2 (app_closeConnection_keeps _ _ x))); exact Hx.
    - subst tasks.
      apply (waterfall_established
               (fun x => carries Uldata (listeners x) = false)).
      + intros x. rewrite (proj2 (proj2 (app_closeQueue_keeps _ _ _ x))),
          app_carries_removeAllListeners.
        rewrite bool_decide_eq_true_2 by reflexivity. apply andb_false_r.
      + repeat constructor; intros y Hy.
        1-3: rewrite (proj2 (proj2 (app_closeQueue_keeps _ _ _ y))),
               app_carries_removeAllListeners, Hy; reflexivity.
        rewrite (proj2 (proj2 (app_closeConnection_keeps _ _ y))); exact Hy.
    - intros r.
      apply (waterfall_invariant
               (fun x => carries r (listeners x) = true ->
                         carries r (listeners s) = true)); [| auto].
      subst tasks. repeat constructor; intros x Hx.
      1-4: rewrite (proj2 (proj2 (app_closeQueue_keeps _ _ _ x))),
             app_carries_removeAllListeners; intros H;
           apply andb_true_iff in H; apply Hx, H.
      rewrite (proj2 (proj2 (app_closeConnection_keeps _ _ x))); exact Hx.
    - intros He. rewrite (waterfall_passed _ _ He). subst tasks.
      cbn [fold_left].
      rewrite (proj2 (proj2 (app_closeConnection_keeps _ _ _))).
      rewrite !(proj2 (proj2 (app_closeQueue_keeps _ _ _ _))).
      apply app_removeAllListeners_all. }
  destruct (waterfall tasks s) as [s1 e]. cbn [fst snd] in H.
  destruct e as [err | |]; cbn [fst snd manager emitted listeners]; exact H.
Qed.

Lemma app_carries_constructor_listeners (r : Role) :
  carries r constructor_listeners = true.
Proof. destruct r; reflexivity. Qed.

Lemma app_queueStatusesEmitted_listening (evs : list (Role * Status)) (m : t) :
  queueStatusesEmitted constructor_listeners evs m = queueStatusEvents evs m.
Proof.
  revert m. induction evs as [| ev evs IH]; intros m; [reflexivity |].
  cbn [queueStatusesEmitted queueStatusEvents].
  rewrite app_queueStatusEmitted_heard by apply app_carries_constructor_listeners.
  destruct (queueStatusEvent ev m) as [m1 out1]. now rewrite IH.
Qed.

Lemma app_queueStatusesEmitted_noRepeat (l : list Role)
    (evs : list (Role * Status)) (m : t) :
  appNoRepeat (status m) (queueStatusesEmitted l evs m).2
  /\ appLastStatus (status m) (queueStatusesEmitted l evs m).2
     = status (queueStatusesEmitted l evs m).1.
Proof.
  revert m. induction evs as [| ev evs IH]; intros m; [split; constructor |].
  cbn [queueStatusesEmitted].
  unfold queueStatusEmitted.
  set (m0 := set_queue _ _ m).
  assert (status m0 = status m) as <- by apply app_set_queue_status.
  pose proof (app_gmqStatusHandler_emits m0) as He. cbn zeta in He.
  destruct (carries ev.1 l).
  - destruct (gmqStatusHandler m0) as [m1 out1].
    specialize (IH m1).
    destruct (queueStatusesEmitted l evs m1) as [m2 out2].
    cbn [fst snd] in *.
    destruct He as [[Hs ->] | [Hs ->]]; cbn [app appNoRepeat appLastStatus].
    + rewrite <- Hs. exact IH.
    + destruct IH as [IH1 IH2]. auto.
  - specialize (IH m0).
    destruct (queueStatusesEmitted l evs m0) as [m2 out2].
    exact IH.
Qed.

End ApplicationStatus.

(** ** The status of a manager, and [close] *)

(** C4: a manager recomputes its status when a queue that carries its
    listener emits a status -- the constructor puts the listener on each of
    the four queues, [close] takes it off each queue before it closes the
    queue.  After an event that is heard the status is [Ready] if and only
    if all four queues are [Connected], and [NotReady] otherwise, and the
    handler emits the recomputed status exactly when it differs from the
    stored one; an event that is not heard changes neither the status nor
    what is emitted.  So over any sequence of events, heard or not, no
    emitted status equals the one before it and the last one emitted is the
    status of the manager; and while all four queues carry the listener,
    the status after any event is [Ready] exactly when all four queues are
    [Connected].  [close], whatever the broker client reports, leaves the
    status as it was and emits nothing, takes the listener off [uldata],
    adds no listener, and when all of its tasks have passed has taken the
    listener off every queue.  The queues are [uldata], [dldata],
    [dldata-result] and [ctrl] for a network manager and [uldata],
    [dldata], [dldata-resp] and [dldata-result] for an application
    manager. *)
Theorem manager_status_follows_queues_until_close :
  (forall (l : list NetworkMgr.Role) (ev : NetworkMgr.Role * Status)
          (m : NetworkMgr.t),
     let m' := (NetworkMgr.queueStatusEmitted l ev m).1 in
     let out := (NetworkMgr.queueStatusEmitted l ev m).2 in
     (NetworkMgr.carries ev.1 l = true ->
      (NetworkMgr.status m' = Ready <-> allConnected m')
      /\ (NetworkMgr.status m' = NotReady <-> ~ allConnected m')
      /\ ((NetworkMgr.status m' = NetworkMgr.status m /\ out = [])
          \/ (NetworkMgr.status m' <> NetworkMgr.status m
              /\ out = [NetworkMgr.Emit (NetworkMgr.status m')])))
     /\ (NetworkMgr.carries ev.1 l = false ->
         NetworkMgr.status m' = NetworkMgr.status m /\ out = []))
  /\ (forall (l : list NetworkMgr.Role)
             (evs : list (NetworkMgr.Role * Status)) (m : NetworkMgr.t),
        noRepeat (NetworkMgr.status m)
          (NetworkMgr.queueStatusesEmitted l evs m).2
        /\ lastStatus (NetworkMgr.status m)
             (NetworkMgr.queueStatusesEmitted l evs m).2
           = NetworkMgr.status (NetworkMgr.queueStatusesEmitted l evs m).1)
  /\ (forall (ev : NetworkMgr.Role * Status)
             (evs : list (NetworkMgr.Role * Status)) (m : NetworkMgr.t),
        let m' :=
          (NetworkMgr.queueStatusesEmitted NetworkMgr.constructor_listeners
             (ev :: evs) m).1 in
        (NetworkMgr.status m' = Ready <-> allConnected m')
        /\ (NetworkMgr.status m' = NotReady <-> ~ allConnected m'))
  /\ (forall (errs : NetworkMgr.Role -> option string)
             (connErr : option string) (callback : FunRef)
             (s : NetworkMgr.Managed),
        let s' := (NetworkMgr.close errs connErr callback s).1 in
        NetworkMgr.status (NetworkMgr.manager s')
        = NetworkMgr.status (NetworkMgr.manager s)
        /\ NetworkMgr.emitted s' = NetworkMgr.emitted s
        /\ NetworkMgr.carries NetworkMgr.Uldata (NetworkMgr.listeners s')
           = false
        /\ (forall r : NetworkMgr.Role,
              NetworkMgr.carries r (NetworkMgr.listeners s') = true ->
              NetworkMgr.carries r (NetworkMgr.listeners s) = true)
        /\ ((NetworkMgr.close errs connErr callback s).2 = Passed None ->
            NetworkMgr.listeners s' = []))
  /\ (forall (l : list ApplicationMgr.Role)
             (ev : ApplicationMgr.Role * Status) (m : ApplicationMgr.t),
        let m' := (ApplicationMgr.queueStatusEmitted l ev m).1 in
        let out := (ApplicationMgr.queueStatusEmitted l ev m).2 in
        (ApplicationMgr.carries ev.1 l = true ->
         (ApplicationMgr.status m' = Ready <-> appAllConnected m')
         /\ (ApplicationMgr.status m' = NotReady <-> ~ appAllConnected m')
         /\ ((ApplicationMgr.status m' = ApplicationMgr.status m /\ out = [])
             \/ (ApplicationMgr.status m' <> ApplicationMgr.status m
                 /\ out = [ApplicationMgr.Emit (ApplicationMgr.status m')])))
        /\ (ApplicationMgr.carries ev.1 l = false ->
            ApplicationMgr.status m' = ApplicationMgr.status m /\ out = []))
  /\ (forall (l : list ApplicationMgr.Role)
             (evs : list (ApplicationMgr.Role * Status))
             (m : ApplicationMgr.t),
        appNoRepeat (ApplicationMgr.status m)
          (ApplicationMgr.queueStatusesEmitted l evs m).2
        /\ appLastStatus (ApplicationMgr.status m)
             (ApplicationMgr.queueStatusesEmitted l evs m).2
           = ApplicationMgr.status
               (ApplicationMgr.queueStatusesEmitted l evs m).1)
  /\ (forall (ev : ApplicationMgr.Role * Status)
             (evs : list (ApplicationMgr.Role * Status))
             (m : ApplicationMgr.t),
        let m' :=
          (ApplicationMgr.queueStatusesEmitted
             ApplicationMgr.constructor_listeners (ev :: evs) m).1 in
        (ApplicationMgr.status m' = Ready <-> appAllConnected m')
        /\ (ApplicationMgr.status m' = NotReady <-> ~ appAllConnected m'))
  /\ (forall (errs : ApplicationMgr.Role -> option string)
             (connErr : option string) (callback : FunRef)
             (s : ApplicationMgr.Managed),
        let s' := (ApplicationMgr.close errs connErr callback s).1 in
        ApplicationMgr.status (ApplicationMgr.manager s')
        = ApplicationMgr.status (ApplicationMgr.manager s)
        /\ ApplicationMgr.emitted s' = ApplicationMgr.emitted s
        /\ ApplicationMgr.carries ApplicationMgr.Uldata
             (ApplicationMgr.listeners s') = false
        /\ (forall r : ApplicationMgr.Role,
              ApplicationMgr.carries r (ApplicationMgr.listeners s') = true ->
              ApplicationMgr.carries r (ApplicationMgr.listeners s) = true)
        /\ ((ApplicationMgr.close errs connErr callback s).2 = Passed None ->
            ApplicationMgr.listeners s' = [])).
Proof.
  split; [| split; [| split; [| split; [| split; [| split; [| split]]]]]].
  - intros l ev m m' out. subst m' out. split.
    + intros H. rewrite (queueStatusEmitted_heard l ev m H).
      pose proof (queueStatusEvent_invariant ev m) as Hinv.
      split; [exact Hinv |]. split; [exact (ready_or_not _ _ Hinv) |].
      unfold NetworkMgr.queueStatusEvent.
      pose proof (gmqStatusHandler_emits
                    (NetworkMgr.set_queue ev.1
                       (queue_set_status ev.2 (NetworkMgr.queueOf ev.1 m)) m))
        as He.
      cbn zeta in He. rewrite set_queue_status in He. exact He.
    + apply queueStatusEmitted_unheard.
  - apply queueStatusesEmitted_noRepeat.
  - intros ev evs m m'. subst m'.
    rewrite queueStatusesEmitted_listening.
    assert (NetworkMgr.status (NetworkMgr.queueStatusEvents (ev :: evs) m).1
            = Ready
            <-> allConnected (NetworkMgr.queueStatusEvents (ev :: evs) m).1)
      as Hinv.
    { cbn [NetworkMgr.queueStatusEvents].
      pose proof (queueStatusEvent_invariant ev m) as H1.
      destruct (NetworkMgr.queueStatusEvent ev m) as [m1 out1].
      pose proof (queueStatusEvents_invariant evs m1 H1) as H2.
      destruct (NetworkMgr.queueStatusEvents evs m1) as [m2 out2].
      exact H2. }
    split; [exact Hinv | exact (ready_or_not _ _ Hinv)].
  - apply close_keeps.
  - intros l ev m m' out. subst m' out. split.
    + intros H. rewrite (app_queueStatusEmitted_heard l ev m H).
      pose proof (app_queueStatusEvent_invariant ev m) as Hinv.
      split; [exact Hinv |]. split; [exact (ready_or_not _ _ Hinv) |].
      unfold ApplicationMgr.queueStatusEvent.
      pose proof (app_gmqStatusHandler_emits
                    (ApplicationMgr.set_queue ev.1
                       (queue_set_status ev.2
                          (ApplicationMgr.queueOf ev.1 m)) m))
        as He.
      cbn zeta in He. rewrite app_set_queue_status in He. exact He.
    + apply app_queueStatusEmitted_unheard.
  - apply app_queueStatusesEmitted_noRepeat.
  - intros ev evs m m'. subst m'.
    rewrite app_queueStatusesEmitted_listening.
    assert (ApplicationMgr.status
              (ApplicationMgr.queueStatusEvents (ev :: evs) m).1 = Ready
            <-> appAllConnected
                  (ApplicationMgr.queueStatusEvents (ev :: evs) m).1)
      as Hinv.
    { cbn [ApplicationMgr.queueStatusEvents].
      pose proof (app_queueStatusEvent_invariant ev m) as H1.
      destruct (ApplicationMgr.queueStatusEvent ev m) as [m1 out1].
      pose proof (app_queueStatusEvents_invariant evs m1 H1) as H2.
      destruct (ApplicationMgr.queueStatusEvents evs m1) as [m2 out2].
      exact H2. }
    split; [exact Hinv | exact (ready_or_not _ _ Hinv)].
  - apply app_close_keeps.
Qed.

Lemma manager_status_follows_queues_until_close_witness :
  NetworkMgr.status
    (NetworkMgr.queueStatusEmitted NetworkMgr.constructor_listeners
       (NetworkMgr.Ctrl, Closed) readyMgr).1 = NotReady
  /\ (NetworkMgr.queueStatusEmitted NetworkMgr.constructor_listeners
        (NetworkMgr.Ctrl, Closed) readyMgr).2 = [NetworkMgr.Emit NotReady]
  /\ NetworkMgr.status
       (NetworkMgr.queueStatusEmitted [] (NetworkMgr.Ctrl, Closed) readyMgr).1
     = Ready.
Proof.
  pose proof manager_status_follows_queues_until_close as [H _].
  split; [| split].
  - destruct (H NetworkMgr.constructor_listeners (NetworkMgr.Ctrl, Closed)
                readyMgr) as [Hheard _].
    destruct (Hheard eq_refl) as (_ & Hnot & _).
    apply (proj2 Hnot). intros Hall.
    specialize (Hall NetworkMgr.Ctrl). discriminate Hall.
  - reflexivity.
  - destruct (H [] (NetworkMgr.Ctrl, Closed) readyMgr) as [_ Hunheard].
    destruct (Hunheard eq_refl) as [Hs _].
    rewrite Hs. reflexivity.
Defined.

(** A network manager that is [Ready] is closed, and the broker client
    reports no error: [close] calls its callback without an error, the four
    queues are [Closed], the manager has emitted nothing and its status is
    still [Ready]. *)
Lemma manager_ready_after_close :
  (NetworkMgr.status readyMgr = Ready /\ allConnected readyMgr)
  /\ closedWhileReady.2 = Passed None
  /\ NetworkMgr.emitted closedWhileReady.1 = []
  /\ NetworkMgr.mqStatus (NetworkMgr.manager closedWhileReady.1)
     = Lib.mkStatus Closed Closed Closed Closed Closed
  /\ NetworkMgr.status (NetworkMgr.manager closedWhileReady.1) = Ready
  /\ ~ allConnected (NetworkMgr.manager closedWhileReady.1).
Proof.
  split; [split; [reflexivity | intros []; reflexivity] |].
  split; [reflexivity |]. split; [reflexivity |]. split; [reflexivity |].
  split; [reflexivity |].
  intros Hall. specialize (Hall NetworkMgr.Uldata). discriminate Hall.
Qed.

(** ** The message handler of a network manager *)

Section MsgHandlerFacts.

Variable Buffer_from_object : list (string * NetworkMgr.Json) -> bool.

Local Abbreviation gmqMsgHandler :=
  (NetworkMgr.gmqMsgHandler Buffer_from_object).

(** A payload that is not JSON is acked on its queue; no handler runs. *)
Lemma gmqMsgHandler_parse_failure (m : NetworkMgr.t) (queue : Queue) :
  gmqMsgHandler m queue None = ([NetworkMgr.Ack (queue_name queue)], None).
Proof. reflexivity. Qed.

Lemma settlements_settle (queue : string) (errs : list JsVal) :
  settlements (map (NetworkMgr.settle queue) errs) = List.length errs.
Proof.
  unfold settlements. induction errs as [| e errs IH]; [reflexivity |].
  cbn. unfold NetworkMgr.settle at 1. destruct (truthy e); cbn; now rewrite IH.
Qed.

Lemma handlerCalls_settle (queue : string) (errs : list JsVal) :
  handlerCalls (map (NetworkMgr.settle queue) errs) = 0%nat.
Proof.
  unfold handlerCalls. induction errs as [| e errs IH]; [reflexivity |].
  cbn. unfold NetworkMgr.settle at 1. destruct (truthy e); cbn; exact IH.
Qed.

(** A control message that parses to an object or an array, with a [time]
    that [new Date] accepts, goes to [onCtrl], once, and each call of the
    completion callback settles the message on the [ctrl] queue: [nack] for
    a truthy error, [ack] otherwise. *)
Lemma gmqMsgHandler_ctrl (m : NetworkMgr.t) (data : NetworkMgr.Json) :
  queue_name (NetworkMgr.ctrl m) <> queue_name (NetworkMgr.dldata m) ->
  NetworkMgr.holdsProperties data = true ->
  NetworkMgr.Date_returns (NetworkMgr.get "time" data) = true ->
  let r := NetworkMgr.onCtrl (NetworkMgr.mgrMsgHandler m) data in
  let out := (gmqMsgHandler m (NetworkMgr.ctrl m) (Some data)).1 in
  out = NetworkMgr.CallOnCtrl data
          :: map (NetworkMgr.settle (queue_name (NetworkMgr.ctrl m)))
               (NetworkMgr.calls r)
  /\ handlerCalls out = 1%nat
  /\ settlements out = List.length (NetworkMgr.calls r).
Proof.
  intros Hne Hobj Hdate r out. subst out. unfold NetworkMgr.gmqMsgHandler.
  rewrite (proj2 (String.eqb_neq _ _) Hne), String.eqb_refl, Hobj, Hdate.
  cbn.
  fold r. split; [reflexivity |]. split.
  - unfold handlerCalls. cbn. f_equal. apply handlerCalls_settle.
  - unfold settlements. cbn. apply settlements_settle.
Qed.

(** A downlink message that parses to an object with a [pub] that
    [new Date] accepts and a [data] that the runtime turns into a buffer
    goes to [onDlData], once, and each call of the completion callback
    settles the message on the [dldata] queue. *)
Lemma gmqMsgHandler_dldata (m : NetworkMgr.t) (data : NetworkMgr.Json) :
  NetworkMgr.holdsProperties data = true ->
  NetworkMgr.Date_returns (NetworkMgr.get "pub" data) = true ->
  NetworkMgr.Buffer_from_returns Buffer_from_object
    (NetworkMgr.get "data" data) = true ->
  let r := NetworkMgr.onDlData (NetworkMgr.mgrMsgHandler m) data in
  let out := (gmqMsgHandler m (NetworkMgr.dldata m) (Some data)).1 in
  out = NetworkMgr.CallOnDlData data
          :: map (NetworkMgr.settle (queue_name (NetworkMgr.dldata m)))
               (NetworkMgr.calls r)
  /\ handlerCalls out = 1%nat
  /\ settlements out = List.length (NetworkMgr.calls r).
Proof.
  intros Hobj Hdate Hbuf r out. subst out. unfold NetworkMgr.gmqMsgHandler.
  rewrite String.eqb_refl, Hobj, Hdate, Hbuf. cbn.
  fold r. split; [reflexivity |]. split.
  - unfold handlerCalls. cbn. f_equal. apply handlerCalls_settle.
  - unfold settlements. cbn. apply settlements_settle.
Qed.

(** C5, where the code departs from it: a payload that is the JSON text
    [null] parses, so it is not acked as a parse failure; on the [dldata]
    queue and on the [ctrl] queue the assignment to a property of [null]
    then throws a [TypeError] out of the handler: no user handler is
    invoked and the message is neither acked nor nacked. *)
Theorem gmqMsgHandler_json_null_not_settled (m : NetworkMgr.t) :
  gmqMsgHandler m (NetworkMgr.dldata m) (Some NetworkMgr.JsonNull)
  = ([], Some NetworkMgr.typeError)
  /\ gmqMsgHandler m (NetworkMgr.ctrl m) (Some NetworkMgr.JsonNull)
     = ([], Some NetworkMgr.typeError)
  /\ handlerCalls
       (gmqMsgHandler m (NetworkMgr.dldata m) (Some NetworkMgr.JsonNull)).1
     = 0%nat
  /\ settlements
       (gmqMsgHandler m (NetworkMgr.dldata m) (Some NetworkMgr.JsonNull)).1
     = 0%nat.
Proof.
  unfold NetworkMgr.gmqMsgHandler. rewrite !String.eqb_refl. cbn.
  repeat split; try reflexivity.
  destruct (String.eqb _ _); reflexivity.
Qed.

End MsgHandlerFacts.

(** ** Queues *)

(** What the constructors leave: no message handler, status [Closed], and
    the direction that was asked for. *)
Lemma MqttQueue_constructor_state (opts : Arg QueueOpts) (conn : ConnArg)
    (q : MqttQueue.t) (c : MqttConnection.t) :
  MqttQueue.constructor opts conn = Ok (q, c) ->
  MqttQueue.msgHandler q = None
  /\ MqttQueue.status q = Closed
  /\ o_isRecv (fields noQueueOpts opts) = JBool (MqttQueue.isRecv q)
  /\ o_broadcast (fields noQueueOpts opts) = JBool (MqttQueue.broadcast q)
  /\ MqttQueue.name q = o_name (fields noQueueOpts opts)
  /\ QueuePattern_test (MqttQueue.name q) = true.
Proof.
  unfold MqttQueue.constructor. intros H.
  destruct (notAnObject opts); [discriminate |].
  destruct conn as [| c0 |]; try discriminate.
  destruct (QueuePattern_test _) eqn:Hname; [| discriminate]. cbn [negb] in H.
  destruct (o_isRecv _) eqn:HisRecv; try discriminate.
  destruct (o_broadcast _) eqn:Hbroadcast;
    try (destruct (o_reliable _); discriminate).
  pass_checks H. injection H as <- <-. cbn [MqttQueue.msgHandler
    MqttQueue.status MqttQueue.isRecv MqttQueue.broadcast MqttQueue.name
    asBool]. auto 7.
Qed.

Lemma AmqpQueue_constructor_state (opts : Arg QueueOpts) (conn : ConnArg)
    (q : AmqpQueue.t) (c : AmqpConnection.t) :
  AmqpQueue.constructor opts conn = Ok (q, c) ->
  AmqpQueue.msgHandler q = None
  /\ AmqpQueue.status q = Closed
  /\ o_isRecv (fields noQueueOpts opts) = JBool (AmqpQueue.isRecv q).
Proof.
  unfold AmqpQueue.constructor. intros H.
  destruct (notAnObject opts); [discriminate |].
  destruct conn as [c0 | |]; try discriminate.
  destruct (o_isRecv _) eqn:HisRecv;
    try (destruct (QueuePattern_test _); discriminate).
  pass_checks H. injection H as <- <-. cbn. auto.
Qed.

(** C6: a receiver queue without a message handler -- as the constructor
    leaves every queue, until [setMsgHandler] is called -- does not connect:
    [connect] throws the NoMsgHandler error before it changes the status,
    registers a packet handler or starts the inner connect loop.  This holds
    for the MQTT queue and for the AMQP queue, whatever their status and
    the state of their connection. *)
Theorem connect_without_handler_throws (mq : MqttQueue.t)
    (mc : MqttConnection.t) (aq : AmqpQueue.t) (ac : AmqpConnection.t) :
  MqttQueue.isRecv mq = true ->
  MqttQueue.msgHandler mq = None ->
  AmqpQueue.isRecv aq = true ->
  AmqpQueue.msgHandler aq = None ->
  MqttQueue.connect mq mc = Throw Errors.NoMsgHandler
  /\ AmqpQueue.connect aq ac = Throw Errors.NoMsgHandler.
Proof.
  intros Hm1 Hm2 Ha1 Ha2. unfold MqttQueue.connect, AmqpQueue.connect.
  rewrite Hm1, Hm2, Ha1, Ha2. split; reflexivity.
Qed.

Lemma receivers_constructed :
  MqttQueue.constructor (Obj receiverOpts) (IsMqtt newMqtt)
  = Ok (mqttReceiver,
        MqttConnection.on (QueueOnConnStatusChanged "name") newMqtt)
  /\ AmqpQueue.constructor (Obj receiverOpts) (IsAmqp newAmqp)
     = Ok (amqpReceiver,
           AmqpConnection.on (QueueOnConnStatusChanged "name") newAmqp).
Proof. split; reflexivity. Qed.

Lemma connect_without_handler_throws_witness :
  MqttQueue.connect mqttReceiver newMqtt = Throw Errors.NoMsgHandler
  /\ AmqpQueue.connect amqpReceiver newAmqp = Throw Errors.NoMsgHandler.
Proof.
  apply (connect_without_handler_throws mqttReceiver newMqtt amqpReceiver
           newAmqp); reflexivity.
Defined.

(** C7 as stated fails: a receiver that is not connected is told
    NotConnected, not QueueIsReceiver. *)
Lemma sendMsg_receiver_not_connected :
  ~ (forall (bytes : list Byte.byte) (cb : FunRef) (q : MqttQueue.t)
            (c : MqttConnection.t),
        (MqttQueue.status q <> Connected ->
         MqttQueue.sendMsg (Buffer bytes) (JFun cb) q c
         = Ok [NextTick (Call cb (Some Errors.NotConnected))])
        /\ (MqttQueue.isRecv q = true ->
            MqttQueue.sendMsg (Buffer bytes) (JFun cb) q c
            = Ok [NextTick (Call cb (Some Errors.QueueIsReceiver))])).
Proof.
  intros H.
  destruct (H [] (UserFn 0) mqttReceiver newMqtt) as [_ Hrecv].
  specialize (Hrecv eq_refl). discriminate Hrecv.
Qed.

(** C7, amended: for a buffer payload and a function callback, [sendMsg]
    reports NotConnected whenever the status is not [Connected] -- also on
    a receiver --, reports QueueIsReceiver on a receiver that is
    [Connected], and publishes only on a [Connected] sender.  This holds for
    the MQTT queue and for the AMQP queue. *)
Theorem sendMsg_errors (bytes : list Byte.byte) (cb : FunRef)
    (mq : MqttQueue.t) (mc : MqttConnection.t) (aq : AmqpQueue.t) :
  ((MqttQueue.status mq <> Connected ->
    MqttQueue.sendMsg (Buffer bytes) (JFun cb) mq mc
    = Ok [NextTick (Call cb (Some Errors.NotConnected))])
   /\ (MqttQueue.status mq = Connected -> MqttQueue.isRecv mq = true ->
       MqttQueue.sendMsg (Buffer bytes) (JFun cb) mq mc
       = Ok [NextTick (Call cb (Some Errors.QueueIsReceiver))])
   /\ (forall acts,
         MqttQueue.sendMsg (Buffer bytes) (JFun cb) mq mc = Ok acts ->
         publishes acts ->
         MqttQueue.status mq = Connected /\ MqttQueue.isRecv mq = false))
  /\ ((AmqpQueue.status aq <> Connected ->
       AmqpQueue.sendMsg (Buffer bytes) (JFun cb) aq
       = Ok [NextTick (Call cb (Some Errors.NotConnected))])
      /\ (AmqpQueue.status aq = Connected -> AmqpQueue.isRecv aq = true ->
          AmqpQueue.sendMsg (Buffer bytes) (JFun cb) aq
          = Ok [NextTick (Call cb (Some Errors.QueueIsReceiver))])
      /\ (forall acts,
            AmqpQueue.sendMsg (Buffer bytes) (JFun cb) aq = Ok acts ->
            publishes acts ->
            AmqpQueue.status aq = Connected /\ AmqpQueue.isRecv aq = false)).
Proof.
  unfold MqttQueue.sendMsg, AmqpQueue.sendMsg, publishes. split.
  - split; [| split].
    + intros Hs. rewrite bool_decide_eq_false_2 by exact Hs. reflexivity.
    + intros Hs Hr. rewrite bool_decide_eq_true_2 by exact Hs.
      rewrite Hr. reflexivity.
    + intros acts H (a & Ha & Hp). case_bool_decide as Hs; cbn in H.
      * destruct (MqttQueue.isRecv mq); [| auto].
        injection H as <-. destruct Ha as [<- | []]. destruct Hp.
      * injection H as <-. destruct Ha as [<- | []]. destruct Hp.
  - split; [| split].
    + intros Hs. rewrite bool_decide_eq_false_2 by exact Hs. reflexivity.
    + intros Hs Hr. rewrite bool_decide_eq_true_2 by exact Hs.
      rewrite Hr. reflexivity.
    + intros acts H (a & Ha & Hp). case_bool_decide as Hs; cbn in H.
      * destruct (AmqpQueue.isRecv aq); [| auto].
        injection H as <-. destruct Ha as [<- | []]. destruct Hp.
      * injection H as <-. destruct Ha as [<- | []]. destruct Hp.
Qed.

Lemma sendMsg_errors_witness :
  MqttQueue.sendMsg (Buffer []) (JFun (UserFn 0)) mqttReceiver newMqtt
  = Ok [NextTick (Call (UserFn 0) (Some Errors.NotConnected))]
  /\ MqttQueue.sendMsg (Buffer []) (JFun (UserFn 0)) connectedMqttReceiver
       connectedMqtt
     = Ok [NextTick (Call (UserFn 0) (Some Errors.QueueIsReceiver))]
  /\ (MqttQueue.status connectedMqttSender = Connected
      /\ MqttQueue.isRecv connectedMqttSender = false).
Proof.
  split; [| split].
  - apply (proj1 (proj1 (sendMsg_errors [] (UserFn 0) mqttReceiver newMqtt
                           amqpReceiver))).
    discriminate.
  - apply (proj1 (proj2 (proj1 (sendMsg_errors [] (UserFn 0)
                                  connectedMqttReceiver connectedMqtt
                                  amqpReceiver)))); reflexivity.
  - apply (proj2 (proj2 (proj1 (sendMsg_errors [] (UserFn 0)
                                  connectedMqttSender connectedMqtt
                                  amqpReceiver)))
             [Raw (MqttPublish "name" [] 0)]).
    + reflexivity.
    + exists (Raw (MqttPublish "name" [] 0)). split; [left; reflexivity | exact I].
Defined.

(** ** The MQTT topic *)

(** C8: the topic of an MQTT queue is the shared prefix followed by the
    name when the queue is a unicast receiver ([isRecv] and not
    [broadcast]) -- the prefix being put as a template literal puts it, so
    it is the prefix itself when one was given --, and the bare name for
    every sender and every broadcast receiver. *)
Theorem topic_of_queue (q : MqttQueue.t) :
  (MqttQueue.isRecv q = true -> MqttQueue.broadcast q = false ->
   MqttQueue.topic q = template (MqttQueue.sharedPrefix q) ++ MqttQueue.name q)
  /\ (forall p : string,
        MqttQueue.isRecv q = true -> MqttQueue.broadcast q = false ->
        MqttQueue.sharedPrefix q = Some p ->
        MqttQueue.topic q = p ++ MqttQueue.name q)
  /\ (MqttQueue.isRecv q = false \/ MqttQueue.broadcast q = true ->
      MqttQueue.topic q = MqttQueue.name q).
Proof.
  unfold MqttQueue.topic. split; [| split].
  - intros -> ->. reflexivity.
  - intros p -> -> ->. reflexivity.
  - intros [-> | ->]; [reflexivity |].
    destruct (MqttQueue.isRecv q); reflexivity.
Qed.

Lemma topic_of_queue_witness :
  MqttQueue.topic sharedReceiver = "$share/general-mq/name"
  /\ MqttQueue.topic broadcastReceiver = "name"
  /\ MqttQueue.topic connectedMqttSender = "name".
Proof.
  split; [| split].
  - apply (proj1 (proj2 (topic_of_queue sharedReceiver))
             "$share/general-mq/"); reflexivity.
  - apply (proj2 (proj2 (topic_of_queue broadcastReceiver))).
    right. reflexivity.
  - apply (proj2 (proj2 (topic_of_queue connectedMqttSender))).
    left. reflexivity.
Defined.

Lemma endsWith_refl (s : string) : endsWith s s = true.
Proof. destruct s; cbn; [reflexivity |]. now rewrite Ascii.eqb_refl, String.eqb_refl. Qed.

Lemma endsWith_app (prefix s : string) : endsWith (prefix ++ s) s = true.
Proof.
  induction prefix as [| a prefix IH].
  - apply endsWith_refl.
  - change (endsWith (String a (prefix ++ s)) s = true). cbn [endsWith].
    destruct (String.eqb (String a (prefix ++ s)) s); [reflexivity | exact IH].
Qed.

(** C9: a unicast receiver may be constructed without [sharedPrefix]; its
    topic is then the text "undefined" followed by the queue name, and once
    a message handler is set [connect] registers the packet handler under
    that topic and, on a connected connection, subscribes to that topic. *)
Theorem receiver_without_sharedPrefix (name : string) (reliable : bool)
    (c : MqttConnection.t) (h : FunRef) :
  QueuePattern_test name = true ->
  let opts := mkQueueOpts name (JBool true) (JBool reliable) (JBool false)
                JUndefined JUndefined JUndefined JUndefined in
  exists (q : MqttQueue.t) (c1 : MqttConnection.t),
    MqttQueue.constructor (Obj opts) (IsMqtt c) = Ok (q, c1)
    /\ MqttQueue.topic q = "undefined" ++ name
    /\ exists q1 : MqttQueue.t,
         MqttQueue.setMsgHandler (JFun h) q = Ok q1
         /\ forall c2 : MqttConnection.t,
              exists (q2 : MqttQueue.t) (c3 : MqttConnection.t)
                     (acts : list Action),
                MqttQueue.connect q1 c2 = Ok (q2, c3, acts)
                /\ MqttConnection.packetHandlers c3 !! name
                   = Some (MqttConnection.mkHandler ("undefined" ++ name)
                             (if reliable then 1 else 0)
                             (QueueInnerOnMessage name))
                /\ (MqttConnection.status c2 = Connected ->
                    is_Some (MqttConnection.conn c2) ->
                    acts = [EmitStatus Connecting;
                            Raw (MqttSubscribe ("undefined" ++ name)
                                   (if reliable then 1 else 0))]
                    /\ MqttQueue.status q2 = Connecting).
Proof.
  intros Hname opts.
  pose proof Hname as Hname'. unfold QueuePattern_test in Hname'.
  eexists _, _. split.
  { unfold MqttQueue.constructor. cbn. rewrite Hname'. cbn. reflexivity. }
  split; [reflexivity |].
  eexists. split; [reflexivity |].
  intros c2.
  assert (MqttConnection.addPacketHandler name (JStr ("undefined" ++ name))
            (JBool reliable) (JFun (QueueInnerOnMessage name)) c2
          = Ok (MqttConnection.set_packetHandlers
                  (<[name := MqttConnection.mkHandler ("undefined" ++ name)
                               (if reliable then 1 else 0)
                               (QueueInnerOnMessage name)]>
                     (MqttConnection.packetHandlers c2)) c2)) as Hadd.
  { unfold MqttConnection.addPacketHandler. rewrite Hname.
    rewrite (endsWith_app "undefined" name). reflexivity. }
  unfold MqttQueue.connect.
  cbn [MqttQueue.isRecv MqttQueue.msgHandler MqttQueue.set_msgHandler
       MqttQueue.status MqttQueue.name MqttQueue.reliable MqttQueue.topic
       MqttQueue.broadcast MqttQueue.sharedPrefix template andb negb].
  simpl bool_decide. cbn [andb negb]. rewrite Hadd. cbn [bind].
  destruct (MqttQueue.innerConnect _ _) as [q2 acts] eqn:Hinner.
  eexists _, _, _. split; [reflexivity |]. split.
  - cbn. apply lookup_insert_eq.
  - intros Hst [raw Hraw]. unfold MqttQueue.innerConnect in Hinner.
    cbn [MqttQueue.status MqttQueue.set_status MqttQueue.connProcessing
         MqttQueue.set_connProcessing MqttConnection.status
         MqttConnection.set_packetHandlers MqttConnection.getRawConnection
         MqttConnection.conn MqttQueue.isRecv MqttQueue.reliable
         MqttQueue.topic MqttQueue.qos MqttQueue.name MqttQueue.broadcast
         MqttQueue.sharedPrefix template] in Hinner.
    rewrite Hst, Hraw in Hinner. simpl bool_decide in Hinner.
    cbn [andb orb negb] in Hinner. injection Hinner as <- <-.
    split; reflexivity.
Qed.

Lemma receiver_without_sharedPrefix_witness :
  exists (q : MqttQueue.t) (c1 : MqttConnection.t),
    MqttQueue.constructor
      (Obj (mkQueueOpts "name" (JBool true) (JBool true) (JBool false)
              JUndefined JUndefined JUndefined JUndefined))
      (IsMqtt connectedMqtt) = Ok (q, c1)
    /\ MqttQueue.topic q = "undefinedname".
Proof.
  destruct (receiver_without_sharedPrefix "name" true connectedMqtt (UserFn 1)
              eq_refl) as (q & c1 & Hq & Ht & _).
  exists q, c1. split; [exact Hq | exact Ht].
Defined.

(** ** The queue statuses of a network manager *)

Lemma queueOf_set_queue (r : NetworkMgr.Role) (q : Queue) (m : NetworkMgr.t) :
  NetworkMgr.queueOf r (NetworkMgr.set_queue r q m) = q.
Proof. destruct r; reflexivity. Qed.

Lemma queue_status_set (s : Status) (q : Queue) :
  queue_status (queue_set_status s q) = s.
Proof. destruct q; reflexivity. Qed.

(** The factory creates no [dldata-resp] queue for a network. *)
Lemma newDataQueues_network_no_dldataResp (conn : Lib.ConnectionArg)
    (opts : Arg Lib.Options) (prefix : JsVal) (qs : Lib.DataMqQueues)
    (c : Lib.Connection) :
  Lib.newDataQueues conn opts prefix (JBool true) = Ok (qs, c) ->
  Lib.dldataResp qs = None /\ is_Some (Lib.ctrl qs).
Proof.
  unfold Lib.newDataQueues. intros H.
  destruct conn as [conn |]; [| discriminate].
  pass_checks H. cbn [asBool] in H.
  next_queue H q1 g1 H1. next_queue H q2 g2 H2. cbn [bind] in H.
  next_queue H q4 g4 H4. next_queue H q5 g5 H5. cbn [bind] in H.
  injection H as <- <-. cbn.
  apply bind_Ok in H5 as ([q g] & H5 & Hq). injection Hq as <- <-.
  split; [reflexivity | eauto].
Qed.

(** C10: in every state of a network manager -- the one a sequence of
    queue status events leads to, in particular -- [mqStatus] reports
    [Closed] for [dldataResp], and for [uldata], [dldata], [dldataResult]
    and [ctrl] the status the queue has at that moment: the status a queue
    has just stored is the one reported for it. *)
Theorem mqStatus_reports_queue_statuses (m : NetworkMgr.t)
    (evs : list (NetworkMgr.Role * Status)) (r : NetworkMgr.Role)
    (s : Status) :
  let m' := (NetworkMgr.queueStatusEvents evs m).1 in
  Lib.st_dldataResp (NetworkMgr.mqStatus m') = Closed
  /\ Lib.st_uldata (NetworkMgr.mqStatus m')
     = queue_status (NetworkMgr.uldata m')
  /\ Lib.st_dldata (NetworkMgr.mqStatus m')
     = queue_status (NetworkMgr.dldata m')
  /\ Lib.st_dldataResult (NetworkMgr.mqStatus m')
     = queue_status (NetworkMgr.dldataResult m')
  /\ Lib.st_ctrl (NetworkMgr.mqStatus m')
     = queue_status (NetworkMgr.ctrl m')
  /\ statusOf r
       (NetworkMgr.mqStatus (NetworkMgr.queueStatusEvent (r, s) m').1) = s.
Proof.
  intros m'. repeat split.
  unfold NetworkMgr.queueStatusEvent. cbn [fst snd].
  transitivity
    (queue_status
       (NetworkMgr.queueOf r
          (NetworkMgr.gmqStatusHandler
             (NetworkMgr.set_queue r
                (queue_set_status s (NetworkMgr.queueOf r m')) m')).1)).
  - destruct r; reflexivity.
  - rewrite gmqStatusHandler_queues, queueOf_set_queue.
    apply queue_status_set.
Qed.

(** * Further properties of the code *)

(** ** The queue-name pattern *)

Lemma matchSegments_join (a b : string) (inSegment : bool) :
  matchSegments (a ++ String "."%char b) inSegment
  = matchSegments a inSegment && matchSegments b false.
Proof.
  revert inSegment. induction a as [| c a IH]; intros inSegment.
  - cbn. destruct inSegment; reflexivity.
  - change (matchSegments (String c (a ++ String "."%char b)) inSegment
            = matchSegments (String c a) inSegment && matchSegments b false).
    cbn [matchSegments]. destruct (isNameChar c); [apply IH |].
    destruct (Ascii.eqb c "."%char); [| reflexivity].
    rewrite IH. apply andb_assoc.
Qed.

Lemma matchSegments_chars (s : string) (inSegment : bool) :
  matchSegments s inSegment = true ->
  Forall (fun c => isNameChar c = true \/ c = "."%char) (list_ascii_of_string s).
Proof.
  revert inSegment. induction s as [| c s IH]; intros inSegment H; cbn.
  - constructor.
  - cbn [matchSegments] in H. destruct (isNameChar c) eqn:Hc.
    + constructor; [auto | eauto].
    + destruct (Ascii.eqb_spec c "."%char) as [-> | Hne]; [| discriminate].
      apply andb_true_iff in H as [_ H]. constructor; [auto | eauto].
Qed.

Lemma QueuePattern_test_dot (a b : string) :
  QueuePattern_test (a ++ "." ++ b)
  = QueuePattern_test a && QueuePattern_test b.
Proof. apply matchSegments_join. Qed.

(** X1: A name made of two parts joined by a dot matches the queue-name
    pattern exactly when both parts match it; a name that matches is not
    empty and contains only lower-case letters, digits, [_], [-] and
    dots. *)
Theorem QueuePattern_test_join (a b : string) :
  QueuePattern_test (a ++ "." ++ b)
  = QueuePattern_test a && QueuePattern_test b
  /\ (QueuePattern_test a = true ->
      a <> ""
      /\ Forall (fun c => isNameChar c = true \/ c = "."%char)
           (list_ascii_of_string a)).
Proof.
  split.
  - apply QueuePattern_test_dot.
  - intros H. split.
    + intros ->. discriminate H.
    + exact (matchSegments_chars a false H).
Qed.

Lemma QueuePattern_test_join_witness :
  "broker.network" <> ""
  /\ Forall (fun c => isNameChar c = true \/ c = "."%char)
       (list_ascii_of_string "broker.network").
Proof. apply (proj2 (QueuePattern_test_join "broker.network" "")). reflexivity. Defined.

(** ** More on the data-queue factory *)

Lemma engine_Queue_created (qOpts : QueueOpts) (g g' : Lib.GmqConn)
    (q : Queue) :
  Lib.engine_Queue qOpts g = Ok (q, g') ->
  queue_name q = o_name qOpts
  /\ o_isRecv qOpts = JBool (queue_isRecv q)
  /\ o_reliable qOpts = JBool (queue_reliable q)
  /\ o_broadcast qOpts = JBool (queue_broadcast q)
  /\ queue_status q = Closed
  /\ queue_msgHandler q = None
  /\ sameEngine g q
  /\ sameEngine g' q
  /\ Lib.conn_listeners g'
     = (Lib.conn_listeners g ++ [QueueOnConnStatusChanged (o_name qOpts)])%list
  /\ Lib.conn_status g' = Lib.conn_status g
  /\ Lib.conn_raw g' = Lib.conn_raw g.
Proof.
  unfold Lib.engine_Queue. destruct g as [c | c]; intros H.
  - apply bind_Ok in H as ([a c'] & Hc & H). injection H as <- <-.
    unfold AmqpQueue.constructor in Hc. cbn [notAnObject fields] in Hc.
    destruct (o_isRecv qOpts) eqn:HisRecv;
      try (destruct (QueuePattern_test _); discriminate).
    destruct (o_reliable qOpts) eqn:Hreliable;
      try (destruct (QueuePattern_test _); discriminate).
    destruct (o_broadcast qOpts) eqn:Hbroadcast;
      try (destruct (QueuePattern_test _); discriminate).
    pass_checks Hc. injection Hc as <- <-. cbn. repeat split.
  - apply bind_Ok in H as ([a c'] & Hc & H). injection H as <- <-.
    unfold MqttQueue.constructor in Hc. cbn [notAnObject fields] in Hc.
    destruct (o_isRecv qOpts) eqn:HisRecv;
      try (destruct (QueuePattern_test _); discriminate).
    destruct (o_reliable qOpts) eqn:Hreliable;
      try (destruct (QueuePattern_test _); discriminate).
    destruct (o_broadcast qOpts) eqn:Hbroadcast;
      try (destruct (QueuePattern_test _); discriminate).
    pass_checks Hc. injection Hc as <- <-. cbn. repeat split.
Qed.

Lemma newDataQueues_network_inv (conn : Lib.ConnectionArg)
    (opts : Arg Lib.Options) (prefix : JsVal) (qs : Lib.DataMqQueues)
    (c : Lib.Connection) :
  Lib.newDataQueues conn opts prefix (JBool true) = Ok (qs, c) ->
  let o := fields Lib.noOptions opts in
  exists (conn0 : Lib.Connection) (q1 q2 q4 q5 : Queue)
         (g1 g2 g4 g5 : Lib.GmqConn),
    conn = Lib.IsConnection conn0
    /\ Lib.engine_Queue (factoryOpts o prefix ".uldata" false) (Lib.conn conn0)
       = Ok (q1, g1)
    /\ Lib.engine_Queue (factoryOpts o prefix ".dldata" true) g1 = Ok (q2, g2)
    /\ Lib.engine_Queue (factoryOpts o prefix ".dldata-result" false) g2
       = Ok (q4, g4)
    /\ Lib.engine_Queue (factoryOpts o prefix ".ctrl" true) g4 = Ok (q5, g5)
    /\ qs = Lib.mkQueues q1 q2 None q4 (Some q5)
    /\ c = Lib.mkConnection g5 (Lib.count conn0).
Proof.
  intros H o. unfold Lib.newDataQueues in H.
  destruct conn as [conn |]; [| discriminate].
  pass_checks H. cbn [asBool negb] in H.
  next_queue H q1 g1 H1. next_queue H q2 g2 H2. cbn [bind] in H.
  next_queue H q4 g4 H4. next_queue H q5' g5' H5. cbn [bind] in H.
  injection H as <- <-.
  apply bind_Ok in H5 as ([q5 g5] & H5 & Hq). injection Hq as <- <-.
  exists conn, q1, q2, q4, q5, g1, g2, g4, g5. repeat split; assumption.
Qed.

Lemma newDataQueues_application_inv (conn : Lib.ConnectionArg)
    (opts : Arg Lib.Options) (prefix : JsVal) (qs : Lib.DataMqQueues)
    (c : Lib.Connection) :
  Lib.newDataQueues conn opts prefix (JBool false) = Ok (qs, c) ->
  let o := fields Lib.noOptions opts in
  exists (conn0 : Lib.Connection) (q1 q2 q3 q4 : Queue)
         (g1 g2 g3 g4 : Lib.GmqConn),
    conn = Lib.IsConnection conn0
    /\ Lib.engine_Queue (factoryOpts o prefix ".uldata" true) (Lib.conn conn0)
       = Ok (q1, g1)
    /\ Lib.engine_Queue (factoryOpts o prefix ".dldata" false) g1 = Ok (q2, g2)
    /\ Lib.engine_Queue (factoryOpts o prefix ".dldata-resp" true) g2
       = Ok (q3, g3)
    /\ Lib.engine_Queue (factoryOpts o prefix ".dldata-result" true) g3
       = Ok (q4, g4)
    /\ qs = Lib.mkQueues q1 q2 (Some q3) q4 None
    /\ c = Lib.mkConnection g4 (Lib.count conn0).
Proof.
  intros H o. unfold Lib.newDataQueues in H.
  destruct conn as [conn |]; [| discriminate].
  pass_checks H. cbn [asBool negb] in H.
  next_queue H q1 g1 H1. next_queue H q2 g2 H2.
  next_queue H q3' g3' H3. next_queue H q4 g4 H4. cbn [bind] in H.
  injection H as <- <-.
  apply bind_Ok in H3 as ([q3 g3] & H3 & Hq). injection Hq as <- <-.
  exists conn, q1, q2, q3, q4, g1, g2, g3, g4. repeat split; assumption.
Qed.

Lemma newDataQueues_isNetwork (conn : Lib.ConnectionArg)
    (opts : Arg Lib.Options) (prefix isNetwork : JsVal)
    (r : Lib.DataMqQueues * Lib.Connection) :
  Lib.newDataQueues conn opts prefix isNetwork = Ok r ->
  isNetwork = JBool (asBool isNetwork).
Proof.
  unfold Lib.newDataQueues. intros H.
  destruct conn as [conn |]; [| discriminate].
  destruct (notAnObject opts); [discriminate |].
  destruct (negb (truthy prefix) || _); [discriminate |].
  destruct isNetwork; try discriminate. reflexivity.
Qed.

Lemma sameEngine_step (g g' : Lib.GmqConn) (q q' : Queue) :
  sameEngine g q -> sameEngine g' q -> sameEngine g q' -> sameEngine g' q'.
Proof. destruct g, g', q, q'; cbn; tauto. Qed.

(** X5: The factory follows its table: whenever it returns, the queues are
    named [prefix.unitCode.name.role] -- with [_] for a missing unit code --
    and are, in the order of creation, for a network the sender [uldata],
    the receiver [dldata], the sender [dldata-result] and the receiver
    [ctrl], and for an application the receiver [uldata], the sender
    [dldata] and the receivers [dldata-resp] and [dldata-result]; every
    queue is reliable, unicast, closed and without a message handler. *)
Theorem newDataQueues_names_and_directions (conn : Lib.ConnectionArg)
    (opts : Arg Lib.Options) (prefix isNetwork : JsVal)
    (qs : Lib.DataMqQueues) (c : Lib.Connection) :
  Lib.newDataQueues conn opts prefix isNetwork = Ok (qs, c) ->
  let base := queueBase (fields Lib.noOptions opts) prefix in
  map (fun q => (queue_name q, queue_isRecv q)) (createdQueues qs)
  = (if asBool isNetwork then
       [(base ++ ".uldata", false); (base ++ ".dldata", true);
        (base ++ ".dldata-result", false); (base ++ ".ctrl", true)]
     else
       [(base ++ ".uldata", true); (base ++ ".dldata", false);
        (base ++ ".dldata-resp", true); (base ++ ".dldata-result", true)])
  /\ Forall (fun q => queue_reliable q = true /\ queue_broadcast q = false
                      /\ queue_status q = Closed
                      /\ queue_msgHandler q = None) (createdQueues qs).
Proof.
  intros H base. pose proof (newDataQueues_isNetwork _ _ _ _ _ H) as Hnet.
  rewrite Hnet in H. destruct (asBool isNetwork).
  - apply newDataQueues_network_inv in H
      as (conn0 & q1 & q2 & q4 & q5 & g1 & g2 & g4 & g5 & -> & H1 & H2 & H4
          & H5 & -> & ->).
    apply engine_Queue_created in H1
      as (N1 & R1 & L1 & B1 & S1 & M1 & _).
    apply engine_Queue_created in H2
      as (N2 & R2 & L2 & B2 & S2 & M2 & _).
    apply engine_Queue_created in H4
      as (N4 & R4 & L4 & B4 & S4 & M4 & _).
    apply engine_Queue_created in H5
      as (N5 & R5 & L5 & B5 & S5 & M5 & _).
    cbn in R1, R2, R4, R5, L1, L2, L4, L5, B1, B2, B4, B5, N1, N2, N4, N5.
    injection R1 as R1. injection R2 as R2. injection R4 as R4.
    injection R5 as R5. injection L1 as L1. injection L2 as L2.
    injection L4 as L4. injection L5 as L5. injection B1 as B1.
    injection B2 as B2. injection B4 as B4. injection B5 as B5.
    unfold createdQueues. cbn.
    rewrite N1, N2, N4, N5, <- R1, <- R2, <- R4, <- R5.
    split; [reflexivity |]. repeat constructor; auto.
  - apply newDataQueues_application_inv in H
      as (conn0 & q1 & q2 & q3 & q4 & g1 & g2 & g3 & g4 & -> & H1 & H2 & H3
          & H4 & -> & ->).
    apply engine_Queue_created in H1
      as (N1 & R1 & L1 & B1 & S1 & M1 & _).
    apply engine_Queue_created in H2
      as (N2 & R2 & L2 & B2 & S2 & M2 & _).
    apply engine_Queue_created in H3
      as (N3 & R3 & L3 & B3 & S3 & M3 & _).
    apply engine_Queue_created in H4
      as (N4 & R4 & L4 & B4 & S4 & M4 & _).
    cbn in R1, R2, R3, R4, L1, L2, L3, L4, B1, B2, B3, B4, N1, N2, N3, N4.
    injection R1 as R1. injection R2 as R2. injection R3 as R3.
    injection R4 as R4. injection L1 as L1. injection L2 as L2.
    injection L3 as L3. injection L4 as L4. injection B1 as B1.
    injection B2 as B2. injection B3 as B3. injection B4 as B4.
    unfold createdQueues. cbn.
    rewrite N1, N2, N3, N4, <- R1, <- R2, <- R3, <- R4.
    split; [reflexivity |]. repeat constructor; auto.
Qed.

(** X6: The factory builds every queue on the connection it is given: whenever
    it returns, the queues are of the engine of that connection, each of
    them has registered one status listener on it, after the listeners that
    were there, and nothing else of the connection -- its status, its
    broker connection, its reference count -- has changed. *)
Theorem newDataQueues_shares_connection (conn0 : Lib.Connection)
    (opts : Arg Lib.Options) (prefix isNetwork : JsVal)
    (qs : Lib.DataMqQueues) (c : Lib.Connection) :
  Lib.newDataQueues (Lib.IsConnection conn0) opts prefix isNetwork
  = Ok (qs, c) ->
  Lib.count c = Lib.count conn0
  /\ Lib.conn_status (Lib.conn c) = Lib.conn_status (Lib.conn conn0)
  /\ Lib.conn_raw (Lib.conn c) = Lib.conn_raw (Lib.conn conn0)
  /\ Lib.conn_listeners (Lib.conn c)
     = (Lib.conn_listeners (Lib.conn conn0)
        ++ map (fun q => QueueOnConnStatusChanged (queue_name q))
             (createdQueues qs))%list
  /\ Forall (sameEngine (Lib.conn c)) (createdQueues qs)
  /\ Forall (sameEngine (Lib.conn conn0)) (createdQueues qs).
Proof.
  intros H. pose proof (newDataQueues_isNetwork _ _ _ _ _ H) as Hnet.
  rewrite Hnet in H. destruct (asBool isNetwork).
  - apply newDataQueues_network_inv in H
      as (conn' & q1 & q2 & q4 & q5 & g1 & g2 & g4 & g5 & Hc & H1 & H2 & H4
          & H5 & -> & ->).
    injection Hc as <-.
    apply engine_Queue_created in H1
      as (N1 & _ & _ & _ & _ & _ & E1 & E1' & Ls1 & St1 & Rw1).
    apply engine_Queue_created in H2
      as (N2 & _ & _ & _ & _ & _ & E2 & E2' & Ls2 & St2 & Rw2).
    apply engine_Queue_created in H4
      as (N4 & _ & _ & _ & _ & _ & E4 & E4' & Ls4 & St4 & Rw4).
    apply engine_Queue_created in H5
      as (N5 & _ & _ & _ & _ & _ & E5 & E5' & Ls5 & St5 & Rw5).
    unfold createdQueues. cbn.
    rewrite Ls5, Ls4, Ls2, Ls1, St5, St4, St2, St1, Rw5, Rw4, Rw2, Rw1,
      N1, N2, N4, N5, <- !app_assoc.
    repeat split.
    + destruct (Lib.conn conn0), g1, g2, g4, g5, q1, q2, q4, q5; cbn in *;
        try tauto; repeat constructor.
    + destruct (Lib.conn conn0), g1, g2, g4, g5, q1, q2, q4, q5; cbn in *;
        try tauto; repeat constructor.
  - apply newDataQueues_application_inv in H
      as (conn' & q1 & q2 & q3 & q4 & g1 & g2 & g3 & g4 & Hc & H1 & H2 & H3
          & H4 & -> & ->).
    injection Hc as <-.
    apply engine_Queue_created in H1
      as (N1 & _ & _ & _ & _ & _ & E1 & E1' & Ls1 & St1 & Rw1).
    apply engine_Queue_created in H2
      as (N2 & _ & _ & _ & _ & _ & E2 & E2' & Ls2 & St2 & Rw2).
    apply engine_Queue_created in H3
      as (N3 & _ & _ & _ & _ & _ & E3 & E3' & Ls3 & St3 & Rw3).
    apply engine_Queue_created in H4
      as (N4 & _ & _ & _ & _ & _ & E4 & E4' & Ls4 & St4 & Rw4).
    unfold createdQueues. cbn.
    rewrite Ls4, Ls3, Ls2, Ls1, St4, St3, St2, St1, Rw4, Rw3, Rw2, Rw1,
      N1, N2, N3, N4, <- !app_assoc.
    repeat split.
    + destruct (Lib.conn conn0), g1, g2, g3, g4, q1, q2, q3, q4; cbn in *;
        try tauto; repeat constructor.
    + destruct (Lib.conn conn0), g1, g2, g3, g4, q1, q2, q3, q4; cbn in *;
        try tauto; repeat constructor.
Qed.

Lemma newDataQueues_names_and_directions_witness :
  match Lib.newDataQueues freshAmqp (Obj (manualOptions JUndefined))
          (JStr "broker.application") (JBool false) with
  | Ok (qs, c) =>
      map (fun q => (queue_name q, queue_isRecv q)) (createdQueues qs)
      = [("broker.application.unit_code.code_network.uldata", true);
         ("broker.application.unit_code.code_network.dldata", false);
         ("broker.application.unit_code.code_network.dldata-resp", true);
         ("broker.application.unit_code.code_network.dldata-result", true)]
  | Throw _ => False
  end.
Proof.
  destruct (Lib.newDataQueues freshAmqp (Obj (manualOptions JUndefined))
              (JStr "broker.application") (JBool false))
    as [[qs c] | message] eqn:H.
  - exact (proj1 (newDataQueues_names_and_directions _ _ _ _ _ _ H)).
  - vm_compute in H. discriminate H.
Defined.

Lemma newDataQueues_shares_connection_witness :
  match Lib.newDataQueues
          (Lib.IsConnection (Lib.mkConnection (Lib.Amqp sharedAmqp) 8))
          (Obj (manualOptions JUndefined)) (JStr "broker.network")
          (JBool true) with
  | Ok (qs, c) =>
      Lib.count c = 8
      /\ Lib.conn_status (Lib.conn c) = Connected
      /\ List.length (Lib.conn_listeners (Lib.conn c)) = 12%nat
  | Throw _ => False
  end.
Proof.
  destruct (Lib.newDataQueues
              (Lib.IsConnection (Lib.mkConnection (Lib.Amqp sharedAmqp) 8))
              (Obj (manualOptions JUndefined)) (JStr "broker.network")
              (JBool true)) as [[qs c] | message] eqn:H.
  - destruct (newDataQueues_shares_connection _ _ _ _ _ _ H)
      as (Hcount & Hstatus & _ & Hlisteners & _).
    split; [exact Hcount |]. split; [exact Hstatus |].
    rewrite Hlisteners, length_app, length_map.
    pose proof (newDataQueues_network_no_dldataResp _ _ _ _ _ H)
      as [Hresp [q Hctrl]].
    unfold createdQueues. rewrite Hresp, Hctrl. reflexivity.
  - vm_compute in H. discriminate H.
Defined.

(** X7: The factory refuses a unit given by half: when exactly one of [unitId]
    and [unitCode] is a non-empty value it throws, whatever the other
    arguments are. *)
Theorem newDataQueues_rejects_half_unit (conn : Lib.ConnectionArg)
    (o : Lib.Options) (prefix isNetwork : JsVal) :
  xorb (truthy (Lib.unitId o)) (truthy (Lib.unitCode o)) = true ->
  exists message : string,
    Lib.newDataQueues conn (Obj o) prefix isNetwork = Throw message.
Proof.
  intros Hxor. unfold Lib.newDataQueues.
  destruct conn as [conn |]; [| eauto].
  cbn [notAnObject fields].
  repeat match goal with
         | |- exists _, (if ?b then _ else _) = Throw _ =>
             let E := fresh "Hcheck" in destruct b eqn:E; [eauto |]
         end.
  exfalso.
  destruct (truthy (Lib.unitId o)), (truthy (Lib.unitCode o));
    discriminate.
Qed.

Lemma newDataQueues_rejects_half_unit_witness :
  exists message : string,
    Lib.newDataQueues freshMqtt
      (Obj (typedOptions (Some ("unit_id", "")) "id" "code" None None None))
      (JStr "broker.network") (JBool true) = Throw message.
Proof.
  apply (newDataQueues_rejects_half_unit freshMqtt
           (typedOptions (Some ("unit_id", "")) "id" "code" None None None)).
  reflexivity.
Defined.

Lemma truthy_JStr (s : string) : s <> "" -> truthy (JStr s) = true.
Proof.
  intros H. cbn. destruct (String.eqb_spec s ""); [contradiction | reflexivity].
Qed.

Lemma QueuePattern_nonempty (s : string) : QueuePattern_test s = true -> s <> "".
Proof. intros H ->. discriminate H. Qed.

Lemma engine_Queue_accepts (name : string) (isRecv : bool) (prefetch : Z)
    (persistent : bool) (sharedPrefix : option string) (g : Lib.GmqConn) :
  QueuePattern_test name = true ->
  1 <= prefetch <= 65535 ->
  sharedPrefix <> Some "" ->
  exists (q : Queue) (g' : Lib.GmqConn),
    Lib.engine_Queue
      (mkQueueOpts name (JBool isRecv) (JBool true) (JBool false) JUndefined
         (JInt prefetch) (JBool persistent)
         (match sharedPrefix with Some p => JStr p | None => JUndefined end))
      g = Ok (q, g').
Proof.
  intros Hname Hpf Hsp. unfold Lib.engine_Queue. destruct g as [c | c].
  - unfold AmqpQueue.constructor.
    cbn [notAnObject fields o_name o_isRecv o_reliable o_broadcast
         o_reconnectMillis o_prefetch o_persistent o_sharedPrefix].
    rewrite Hname. cbn [typeof negb isUndefined andb Number_isInteger orb
                        numLe numGt truthy].
    simpl bool_decide. cbn [negb andb orb].
    replace (prefetch <=? 0) with false by (symmetry; apply Z.leb_gt; lia).
    replace (prefetch >? 65535) with false
      by (symmetry; rewrite Z.gtb_ltb; apply Z.ltb_ge; lia).
    cbn [orb andb]. rewrite andb_false_r. cbn [bind]. eauto.
  - unfold MqttQueue.constructor.
    cbn [notAnObject fields o_name o_isRecv o_reliable o_broadcast
         o_reconnectMillis o_prefetch o_persistent o_sharedPrefix].
    rewrite Hname. cbn [typeof negb isUndefined andb].
    simpl bool_decide. cbn [negb andb orb].
    destruct sharedPrefix as [p |].
    + assert (p <> "") as Hp by congruence.
      rewrite (truthy_JStr p Hp). cbn [isUndefined typeof negb andb orb].
      simpl bool_decide. cbn [negb andb orb bind]. eauto.
    + cbn [isUndefined negb andb bind]. eauto.
Qed.

Lemma factory_name_valid (prefix ucode name role : string) :
  QueuePattern_test prefix = true ->
  QueuePattern_test ucode = true ->
  QueuePattern_test name = true ->
  QueuePattern_test role = true ->
  QueuePattern_test ((prefix ++ "." ++ ucode ++ "." ++ name) ++ "." ++ role)
  = true.
Proof.
  intros Hp Hu Hn Hr.
  rewrite (QueuePattern_test_dot _ role), Hr, andb_true_r.
  rewrite (QueuePattern_test_dot prefix _), Hp.
  rewrite (QueuePattern_test_dot ucode name), Hu, Hn. reflexivity.
Qed.

Ltac accept_queue Hsp :=
  match goal with
  | |- context [Lib.engine_Queue
                  (mkQueueOpts ?n (JBool ?r) (JBool true) (JBool false)
                     JUndefined (JInt ?pf) (JBool ?ps) ?spv) ?g] =>
      let sp := match spv with
                | JStr ?p => constr:(Some p)
                | JUndefined => constr:(@None string)
                end in
      let q := fresh "q" in
      let g' := fresh "g" in
      let Hn := fresh "Hn" in
      let Hq := fresh "Hq" in
      assert (QueuePattern_test n = true) as Hn
        by (apply factory_name_valid; (assumption || reflexivity));
      destruct (engine_Queue_accepts n r pf ps sp g Hn ltac:(lia) Hsp)
        as (q & g' & Hq);
      cbn [bind] in Hq |- *; rewrite Hq; cbn [bind]; clear Hn Hq
  end.

(** X8: The factory accepts the options a caller is meant to give: a prefix and
    a name that match the queue-name pattern, a non-empty id, a unit that
    is absent, or empty in both parts, or has a non-empty id and a code
    that matches the pattern, a prefetch that is absent or between 0 and
    65535, and a shared prefix that is absent or not empty. *)
Theorem newDataQueues_accepts_valid_options (conn : Lib.Connection)
    (unit : option (string * string)) (id name prefix : string)
    (prefetch : option Z) (persistent : option bool)
    (sharedPrefix : option string) (isNetwork : bool) :
  QueuePattern_test prefix = true ->
  QueuePattern_test name = true ->
  id <> "" ->
  match unit with
  | Some (uid, ucode) =>
      (uid = "" /\ ucode = "")
      \/ (uid <> "" /\ QueuePattern_test ucode = true)
  | None => True
  end ->
  match prefetch with
  | Some z => 0 <= z <= 65535
  | None => True
  end ->
  sharedPrefix <> Some "" ->
  exists (qs : Lib.DataMqQueues) (c : Lib.Connection),
    Lib.newDataQueues (Lib.IsConnection conn)
      (Obj (typedOptions unit id name prefetch persistent sharedPrefix))
      (JStr prefix) (JBool isNetwork) = Ok (qs, c).
Proof.
  intros Hprefix Hname Hid Hunit Hpf Hsp.
  pose proof (truthy_JStr _ (QueuePattern_nonempty _ Hprefix)) as Tprefix.
  pose proof (truthy_JStr _ (QueuePattern_nonempty _ Hname)) as Tname.
  pose proof (truthy_JStr _ Hid) as Tid.
  assert (exists ucode' : string,
             QueuePattern_test ucode' = true
             /\ Lib.str (orElse (Lib.unitCode
                          (typedOptions unit id name prefetch persistent
                             sharedPrefix)) (JStr "_")) = ucode'
             /\ truthy (Lib.unitId (typedOptions unit id name prefetch
                                      persistent sharedPrefix))
                = truthy (Lib.unitCode (typedOptions unit id name prefetch
                                          persistent sharedPrefix)))
    as (ucode' & Hucode' & Hstr & Htruthy).
  { destruct unit as [[uid ucode] |]; cbn.
    - destruct Hunit as [[-> ->] | [Huid Hucode]].
      + exists "_". repeat split.
      + exists ucode. unfold orElse.
        rewrite (truthy_JStr _ (QueuePattern_nonempty _ Hucode)).
        pose proof (truthy_JStr _ Huid) as Tu.
        pose proof (truthy_JStr _ (QueuePattern_nonempty _ Hucode)) as Tc.
        cbn in Tu, Tc. rewrite Tu, Tc. repeat split. exact Hucode.
    - exists "_". repeat split. }
  assert (exists pf : Z,
             1 <= pf <= 65535
             /\ orElse (Lib.prefetch (typedOptions unit id name prefetch
                                        persistent sharedPrefix))
                  (JInt Lib.DEF_PREFETCH) = JInt pf
             /\ negb (isUndefined (Lib.prefetch
                        (typedOptions unit id name prefetch persistent
                           sharedPrefix)))
                && (negb (Number_isInteger
                            (Lib.prefetch
                               (typedOptions unit id name prefetch persistent
                                  sharedPrefix)))
                    || numLt (Lib.prefetch
                                (typedOptions unit id name prefetch persistent
                                   sharedPrefix)) 0
                    || numGt (Lib.prefetch
                                (typedOptions unit id name prefetch persistent
                                   sharedPrefix)) 65535) = false)
    as (pf & Hpf' & Hor & Hcheck).
  { destruct prefetch as [z |]; cbn.
    - replace (z <? 0) with false by (symmetry; apply Z.ltb_ge; lia).
      replace (z >? 65535) with false
        by (symmetry; rewrite Z.gtb_ltb; apply Z.ltb_ge; lia).
      unfold orElse. cbn. destruct (Z.eqb_spec z 0) as [-> | Hz]; cbn.
      + exists 100. repeat split; lia.
      + exists z. repeat split; lia.
    - exists 100. repeat split; lia. }
  unfold Lib.newDataQueues.
  cbn [notAnObject fields]. rewrite Hcheck, Htruthy, Tprefix, Hor, Hstr.
  clear Hcheck Htruthy Hor Hstr.
  destruct unit as [[uid ucode] |], persistent as [b |],
    sharedPrefix as [p |], isNetwork;
    cbn [typedOptions Lib.unitId Lib.unitCode Lib.id Lib.name Lib.prefetch
         Lib.persistent Lib.sharedPrefix isUndefined typeof negb andb orb
         asBool Lib.str orElse truthy Lib.DEF_PERSISTENT Lib.conn];
    simpl bool_decide; cbn [negb andb orb];
    cbn [truthy] in Tname, Tid; rewrite ?Tname, ?Tid; cbn [negb andb orb];
    rewrite ?andb_negb_r, ?andb_negb_l; cbn [orb].
  all: try destruct b.
  all: cbn [negb andb orb truthy orElse Lib.DEF_PERSISTENT].
  all: repeat accept_queue Hsp.
  all: eauto.
Qed.

Lemma newDataQueues_accepts_valid_options_witness :
  exists (qs : Lib.DataMqQueues) (c : Lib.Connection),
    Lib.newDataQueues (Lib.IsConnection (Lib.mkConnection (Lib.Mqtt newMqtt) 0))
      (Obj (typedOptions (Some ("unit_id", "unit_code")) "id_network"
              "code_network" (Some 0) (Some false)
              (Some "$share/general-mq/")))
      (JStr "broker.network") (JBool true) = Ok (qs, c).
Proof.
  apply newDataQueues_accepts_valid_options.
  - reflexivity.
  - reflexivity.
  - discriminate.
  - right. split; [discriminate | reflexivity].
  - lia.
  - discriminate.
Defined.

(** ** More on the connection pool *)

(** X2: The pool keeps one connection for a host: whenever [getConnection]
    returns, the pool holds the returned connection under the URI and its
    other entries are as before; an entry that was there is returned as it
    is and the pool is not changed; a connection made for the call is
    closed, has no listener and count 0, and is an AMQP one for the schemes
    [amqp:] and [amqps:] and an MQTT one otherwise; asking again gives the
    same connection and the same pool. *)
Theorem getConnection_one_connection_per_host
    (connPool pool' : gmap string Lib.Connection) (hostUri : Lib.URL)
    (conn : Lib.Connection) :
  Lib.getConnection connPool hostUri = Ok (pool', conn) ->
  pool' !! Lib.href hostUri = Some conn
  /\ (forall other : string,
        other <> Lib.href hostUri -> pool' !! other = connPool !! other)
  /\ (forall e : Lib.Connection,
        connPool !! Lib.href hostUri = Some e -> pool' = connPool /\ conn = e)
  /\ (connPool !! Lib.href hostUri = None ->
      Lib.count conn = 0
      /\ Lib.conn_status (Lib.conn conn) = Closed
      /\ Lib.conn_raw (Lib.conn conn) = None
      /\ Lib.conn_listeners (Lib.conn conn) = []
      /\ isAmqp (Lib.conn conn)
         = (String.eqb (Lib.protocol hostUri) "amqp:"
            || String.eqb (Lib.protocol hostUri) "amqps:"))
  /\ Lib.getConnection pool' hostUri = Ok (pool', conn).
Proof.
  unfold Lib.getConnection. intros H.
  destruct (connPool !! Lib.href hostUri) as [e |] eqn:He.
  - injection H as <- <-. rewrite He.
    repeat split; try congruence; intros e' He'; congruence.
  - destruct (String.eqb (Lib.protocol hostUri) "amqp:"
              || String.eqb (Lib.protocol hostUri) "amqps:") eqn:Hamqp.
    + cbn in H. injection H as <- <-. rewrite lookup_insert_eq.
      repeat split; try discriminate.
      intros other Hne. apply lookup_insert_ne. congruence.
    + destruct (String.eqb (Lib.protocol hostUri) "mqtt:"
                || String.eqb (Lib.protocol hostUri) "mqtts:") eqn:Hmqtt;
        [| discriminate].
      cbn in H. injection H as <- <-. rewrite lookup_insert_eq.
      repeat split; try discriminate.
      intros other Hne. apply lookup_insert_ne. congruence.
Qed.

Lemma getConnection_one_connection_per_host_witness :
  Lib.getConnection sharedPool (Lib.mkURL "amqp://localhost" "amqp:")
  = Ok (sharedPool, Lib.mkConnection (Lib.Amqp sharedAmqp) 8).
Proof.
  apply (getConnection_one_connection_per_host sharedPool sharedPool
           (Lib.mkURL "amqp://localhost" "amqp:")
           (Lib.mkConnection (Lib.Amqp sharedAmqp) 8)).
  reflexivity.
Defined.

(** X3: [getConnection] throws exactly for a host that is not in the pool and
    whose scheme is none of [amqp:], [amqps:], [mqtt:] and [mqtts:]. *)
Theorem getConnection_throws_iff (connPool : gmap string Lib.Connection)
    (hostUri : Lib.URL) :
  isOk (Lib.getConnection connPool hostUri) = false
  <-> connPool !! Lib.href hostUri = None
      /\ ~ In (Lib.protocol hostUri) ["amqp:"; "amqps:"; "mqtt:"; "mqtts:"].
Proof.
  unfold Lib.getConnection.
  destruct (connPool !! Lib.href hostUri) as [e |] eqn:He; cbn.
  - split; [discriminate | intros [? _]; discriminate].
  - destruct (String.eqb_spec (Lib.protocol hostUri) "amqp:") as [-> | H1];
      cbn; [split; [discriminate | intros [_ H]; exfalso; apply H; auto] |].
    destruct (String.eqb_spec (Lib.protocol hostUri) "amqps:") as [-> | H2];
      cbn; [split; [discriminate | intros [_ H]; exfalso; apply H; auto] |].
    destruct (String.eqb_spec (Lib.protocol hostUri) "mqtt:") as [-> | H3];
      cbn; [split; [discriminate | intros [_ H]; exfalso; apply H; auto] |].
    destruct (String.eqb_spec (Lib.protocol hostUri) "mqtts:") as [-> | H4];
      cbn; [split; [discriminate | intros [_ H]; exfalso; apply H; auto 6] |].
    split; [| reflexivity]. intros _. split; [reflexivity |].
    intros [H | [H | [H | [H | []]]]]; congruence.
Qed.

(** X4: [removeConnection] and the counts of the pool.  An entry whose count
    stays positive after [n] is subtracted remains, with the new count;
    otherwise it is dropped.  No other entry is touched, and for a host
    that has no entry the pool stays as it is and the callback is
    scheduled, once, with [null]. *)
Theorem removeConnection_counts (connPool : gmap string Lib.Connection)
    (hostUri : string) (n : Z) (callback : FunRef) :
  let res := Lib.removeConnection connPool hostUri n callback in
  (forall other : string,
     hostUri <> other -> res.1.1 !! other = connPool !! other)
  /\ (connPool !! hostUri = None ->
      res = (connPool, None, [NextTick (Call callback None)]))
  /\ (forall e : Lib.Connection,
        connPool !! hostUri = Some e ->
        (Lib.count e - n <= 0 -> res.1.1 !! hostUri = None)
        /\ (0 < Lib.count e - n ->
            exists e' : Lib.Connection,
              res.1.1 !! hostUri = Some e'
              /\ Lib.count e' = Lib.count e - n)).
Proof.
  cbn zeta. split; [| split].
  - intros other Hne. now apply removeConnection_other.
  - intros Hnone. unfold Lib.removeConnection. rewrite Hnone. reflexivity.
  - intros e He. now apply removeConnection_entry.
Qed.

Lemma removeConnection_counts_witness :
  (Lib.removeConnection sharedPool "amqp://localhost" 8 (UserFn 0)).1.1
    !! "amqp://localhost" = None
  /\ (exists e' : Lib.Connection,
        (Lib.removeConnection sharedPool "amqp://localhost" 3 (UserFn 0)).1.1
          !! "amqp://localhost" = Some e'
        /\ Lib.count e' = 8 - 3)
  /\ (Lib.removeConnection sharedPool "mqtt://localhost" 4 (UserFn 0)).1.1
       !! "amqp://localhost"
     = sharedPool !! "amqp://localhost".
Proof.
  split; [| split].
  - apply (proj1 (proj2 (proj2 (removeConnection_counts sharedPool
                                  "amqp://localhost" 8 (UserFn 0)))
                    (Lib.mkConnection (Lib.Amqp sharedAmqp) 8) eq_refl)).
    cbn. lia.
  - apply (proj2 (proj2 (proj2 (removeConnection_counts sharedPool
                                  "amqp://localhost" 3 (UserFn 0)))
                    (Lib.mkConnection (Lib.Amqp sharedAmqp) 8) eq_refl)).
    cbn. lia.
  - apply (proj1 (removeConnection_counts sharedPool "mqtt://localhost" 4
                    (UserFn 0))).
    discriminate.
Defined.

(** ** The packet handlers of an MQTT connection *)

Lemma endsWith_nonempty (s suffix : string) :
  endsWith s suffix = true -> suffix <> "" -> s <> "".
Proof. intros H Hs ->. cbn in H. destruct suffix; [contradiction | discriminate]. Qed.

(** X9: [addPacketHandler], given a string topic, a boolean and a function,
    registers the handler exactly when the name matches the queue-name
    pattern and the topic ends with the name; otherwise it throws. *)
Theorem addPacketHandler_accepts_iff (name topic : string) (reliable : bool)
    (handler : FunRef) (c : MqttConnection.t) :
  isOk (MqttConnection.addPacketHandler name (JStr topic) (JBool reliable)
          (JFun handler) c)
  = QueuePattern_test name && endsWith topic name.
Proof.
  unfold MqttConnection.addPacketHandler.
  destruct (QueuePattern_test name) eqn:Hname; [| reflexivity]. cbn [negb andb].
  destruct (endsWith topic name) eqn:Hends.
  - rewrite (truthy_JStr topic
               (endsWith_nonempty _ _ Hends (QueuePattern_nonempty _ Hname))).
    reflexivity.
  - rewrite orb_true_r. reflexivity.
Qed.

(** X10: The packet handlers are kept under the queue name, and [#onMessage]
    looks a handler up under the topic of the inbound message.  A
    registered handler is stored under the name, with quality of service 1
    for a reliable queue and 0 otherwise, and replaces an earlier one of
    that name; it is the handler of an inbound message whose topic is the
    name.  The topic it was registered with is only stored: when it differs
    from the name, an inbound message with that topic does not reach the
    handler (it finds what was stored under that string before, if
    anything).  The handlers of other names are not touched;
    [removePacketHandler] then leaves no handler under the name, and when
    there was none before the registration the handlers are again what they
    were. *)
Theorem packetHandler_add_remove (name : string) (topic reliable handler : JsVal)
    (c c' : MqttConnection.t) :
  MqttConnection.addPacketHandler name topic reliable handler c = Ok c' ->
  (exists (tp : string) (r : bool) (h : FunRef),
      topic = JStr tp /\ reliable = JBool r /\ handler = JFun h
      /\ MqttConnection.packetHandlers c' !! name
         = Some (MqttConnection.mkHandler tp (if r then 1 else 0) h)
      /\ MqttConnection.onMessage name c' = Some h
      /\ (tp <> name ->
          MqttConnection.onMessage tp c' = MqttConnection.onMessage tp c))
  /\ (forall other : string,
        other <> name ->
        MqttConnection.onMessage other c' = MqttConnection.onMessage other c)
  /\ exists c'' : MqttConnection.t,
       MqttConnection.removePacketHandler name c' = Ok c''
       /\ MqttConnection.onMessage name c'' = None
       /\ (forall other : string,
             other <> name ->
             MqttConnection.onMessage other c''
             = MqttConnection.onMessage other c)
       /\ (MqttConnection.packetHandlers c !! name = None -> c'' = c).
Proof.
  unfold MqttConnection.addPacketHandler. intros H.
  destruct (QueuePattern_test name) eqn:Hname; [| discriminate].
  cbn [negb] in H. destruct topic as [| | | | | tp | | |]; try discriminate.
  destruct (negb (truthy (JStr tp)) || negb (endsWith tp name));
    [discriminate |].
  destruct reliable as [| | r | | | | | |]; try discriminate.
  destruct handler as [| | | | | | h | |]; try discriminate.
  injection H as <-. split; [| split].
  - exists tp, r, h. unfold MqttConnection.onMessage. cbn.
    rewrite lookup_insert_eq. repeat split.
    intros Hne. rewrite lookup_insert_ne by congruence. reflexivity.
  - intros other Hne. unfold MqttConnection.onMessage. cbn.
    rewrite lookup_insert_ne by congruence. reflexivity.
  - unfold MqttConnection.removePacketHandler. rewrite Hname. cbn [negb].
    eexists. split; [reflexivity |]. unfold MqttConnection.onMessage. cbn.
    split; [| split].
    + rewrite lookup_delete_eq. reflexivity.
    + intros other Hne. rewrite lookup_delete_ne by congruence.
      rewrite lookup_insert_ne by congruence. reflexivity.
    + intros Hnone. rewrite delete_insert_id by exact Hnone.
      destruct c. reflexivity.
Qed.

Lemma packetHandler_add_remove_witness :
  exists c' : MqttConnection.t,
    MqttConnection.addPacketHandler "name" (JStr "$share/general-mq/name")
      (JBool true) (JFun (QueueInnerOnMessage "name")) connectedMqtt = Ok c'
    /\ MqttConnection.onMessage "name" c' = Some (QueueInnerOnMessage "name")
    /\ MqttConnection.onMessage "$share/general-mq/name" c' = None
    /\ MqttConnection.removePacketHandler "name" c' = Ok connectedMqtt.
Proof.
  eexists. split; [reflexivity |].
  match goal with
  | |- MqttConnection.onMessage _ ?c' = _ /\ _ =>
      destruct (packetHandler_add_remove "name"
                  (JStr "$share/general-mq/name") (JBool true)
                  (JFun (QueueInnerOnMessage "name")) connectedMqtt c'
                  eq_refl)
        as ((tp & r & h & Htp & Hr & Hh & _ & Hfound & Htopic) & _
            & (c'' & Hremove & _ & _ & Hsame))
  end.
  injection Hh as <-. injection Htp as <-. split; [exact Hfound |].
  split; [rewrite Htopic by discriminate; reflexivity |].
  rewrite Hremove. f_equal. apply Hsame. reflexivity.
Defined.

(** ** The state machines of the connections *)

(** X11: [connect] starts one dial from [Closed] or [Closing], leaving the
    connection in [Connecting], and does nothing in any other status: a
    second [connect] right after the first one has no effect.  This holds
    for both engines. *)
Theorem connection_connect_once (a : AmqpConnection.t) (m : MqttConnection.t)
    (raw raw' : nat) :
  let a1 := (AmqpConnection.connect a).1 in
  let m1 := (MqttConnection.connect raw m).1 in
  (AmqpConnection.connect a1 = (a1, [])
   /\ AmqpConnection.status a1 <> Closed
   /\ AmqpConnection.status a1 <> Closing
   /\ (AmqpConnection.status a = Closed \/ AmqpConnection.status a = Closing ->
       AmqpConnection.status a1 = Connecting
       /\ (AmqpConnection.connect a).2
          = [EmitStatus Connecting;
             Raw (AmqplibConnect (AmqpConnection.uri a))])
   /\ (AmqpConnection.status a <> Closed ->
       AmqpConnection.status a <> Closing ->
       AmqpConnection.connect a = (a, [])))
  /\ (MqttConnection.connect raw' m1 = (m1, [])
      /\ MqttConnection.status m1 <> Closed
      /\ MqttConnection.status m1 <> Closing
      /\ (MqttConnection.status m = Closed
          \/ MqttConnection.status m = Closing ->
          MqttConnection.status m1 = Connecting
          /\ MqttConnection.conn m1 = Some raw
          /\ (MqttConnection.connect raw m).2
             = [EmitStatus Connecting;
                Raw (MqttLibConnect (MqttConnection.uri m))])
      /\ (MqttConnection.status m <> Closed ->
          MqttConnection.status m <> Closing ->
          MqttConnection.connect raw m = (m, []))).
Proof.
  unfold AmqpConnection.connect, MqttConnection.connect. split.
  - destruct a as [u ms st cn ls]. cbn.
    destruct st; simpl bool_decide; cbn;
      intuition (try discriminate; try reflexivity).
  - destruct m as [u ms st cn ph ls]. cbn.
    destruct st; simpl bool_decide; cbn;
      intuition (try discriminate; try reflexivity).
Qed.

Lemma connection_connect_once_witness :
  AmqpConnection.status (AmqpConnection.connect newAmqp).1 = Connecting
  /\ MqttConnection.conn (MqttConnection.connect 1%nat newMqtt).1
     = Some 1%nat.
Proof.
  split.
  - apply (proj1 (proj1 (proj2 (proj2 (proj2 (proj1
             (connection_connect_once newAmqp newMqtt 1%nat 2%nat)))))
             (or_introl eq_refl))).
  - apply (proj1 (proj2 (proj1 (proj2 (proj2 (proj2 (proj2
             (connection_connect_once newAmqp newMqtt 1%nat 2%nat)))))
             (or_introl eq_refl)))).
Defined.

(** X12: On the [close] and [offline] events of the broker client a
    connection that is closing or closed keeps its status: nothing is
    emitted, no dial is started and the broker connection is dropped; on
    the [reconnect] event of the MQTT client such a connection is left as
    it is.  Once the connection is closed and holds no broker connection,
    the [close], [connect], [reconnect] and [error] events change nothing
    and emit nothing. *)
Theorem closing_connection_stays_down (a : AmqpConnection.t)
    (m : MqttConnection.t) (raw : nat) (err : string) :
  ((AmqpConnection.status a = Closing \/ AmqpConnection.status a = Closed) ->
   AmqpConnection.status (AmqpConnection.onClose a).1 = AmqpConnection.status a
   /\ AmqpConnection.conn (AmqpConnection.onClose a).1 = None
   /\ (AmqpConnection.onClose a).2 = [])
  /\ ((MqttConnection.status m = Closing \/ MqttConnection.status m = Closed) ->
      MqttConnection.status (MqttConnection.onClose raw m).1
      = MqttConnection.status m
      /\ MqttConnection.conn (MqttConnection.onClose raw m).1 = None
      /\ (MqttConnection.onClose raw m).2 = []
      /\ MqttConnection.onReconnect m = (m, []))
  /\ (AmqpConnection.status a = Closed -> AmqpConnection.conn a = None ->
      AmqpConnection.onClose a = (a, [])
      /\ AmqpConnection.onError err a = (a, []))
  /\ (MqttConnection.status m = Closed -> MqttConnection.conn m = None ->
      MqttConnection.onClose raw m = (m, [])
      /\ MqttConnection.onConnect m = (m, [])
      /\ MqttConnection.onReconnect m = (m, [])
      /\ MqttConnection.onError err m = (m, [])).
Proof.
  destruct a as [u ms st cn ls], m as [u' ms' st' cn' ph ls'].
  unfold AmqpConnection.onClose, AmqpConnection.onError,
    MqttConnection.onClose, MqttConnection.onConnect,
    MqttConnection.onReconnect, MqttConnection.onError.
  cbn. split; [| split; [| split]].
  - intros [-> | ->]; destruct cn; simpl bool_decide; cbn; auto.
  - intros [-> | ->]; destruct cn'; simpl bool_decide; cbn; auto.
  - intros -> ->. simpl bool_decide. cbn. auto.
  - intros -> ->. simpl bool_decide. cbn. auto.
Qed.

Lemma closing_connection_stays_down_witness :
  AmqpConnection.onClose newAmqp = (newAmqp, [])
  /\ MqttConnection.onReconnect newMqtt = (newMqtt, []).
Proof.
  split.
  - apply (proj1 (proj2 (proj2 (closing_connection_stays_down newAmqp newMqtt
                                  1%nat "error")))); reflexivity.
  - apply (proj2 (proj2 (proj2 (closing_connection_stays_down newAmqp newMqtt
                                  1%nat "error")))); reflexivity.
Defined.

(** X13: A connection that loses its broker connection while it is neither
    closing nor closed goes back to [Connecting], emits that status and
    dials again; the AMQP connection holds no broker connection until the
    dial returns -- a failed dial is retried after [reconnectMillis] without
    any change of state, a successful one gives [Connected] --, the MQTT
    connection holds the new client at once and is [Connected] on its
    [connect] event. *)
Theorem lost_connection_redials (a : AmqpConnection.t) (m : MqttConnection.t)
    (raw : nat) (err : string) :
  (AmqpConnection.status a <> Closing -> AmqpConnection.status a <> Closed ->
   let a1 := (AmqpConnection.onClose a).1 in
   AmqpConnection.status a1 = Connecting
   /\ AmqpConnection.conn a1 = None
   /\ (AmqpConnection.onClose a).2
      = [EmitStatus Connecting; Raw (AmqplibConnect (AmqpConnection.uri a))]
   /\ AmqpConnection.innerConnect_done (inl err) a1
      = (a1, [SetTimeout InnerConnect (AmqpConnection.reconnectMillis a)])
   /\ AmqpConnection.status
        (AmqpConnection.innerConnect_done (inr raw) a1).1 = Connected
   /\ AmqpConnection.conn (AmqpConnection.innerConnect_done (inr raw) a1).1
      = Some raw)
  /\ (MqttConnection.status m <> Closing -> MqttConnection.status m <> Closed ->
      let m1 := (MqttConnection.onClose raw m).1 in
      MqttConnection.status m1 = Connecting
      /\ MqttConnection.conn m1 = Some raw
      /\ MqttConnection.packetHandlers m1 = MqttConnection.packetHandlers m
      /\ (MqttConnection.onClose raw m).2
         = [EmitStatus Connecting;
            Raw (MqttLibConnect (MqttConnection.uri m))]
      /\ MqttConnection.onConnect m1
         = (MqttConnection.set_status Connected m1, [EmitStatus Connected])).
Proof.
  destruct a as [u ms st cn ls], m as [u' ms' st' cn' ph ls'].
  unfold AmqpConnection.onClose, MqttConnection.onClose,
    MqttConnection.onConnect. cbn. split.
  - intros H1 H2. destruct st, cn; try contradiction; cbn; auto 7.
  - intros H1 H2. destruct st', cn'; try contradiction; cbn; auto 7.
Qed.

Lemma lost_connection_redials_witness :
  AmqpConnection.status (AmqpConnection.onClose sharedAmqp).1 = Connecting
  /\ MqttConnection.status (MqttConnection.onClose 2%nat connectedMqtt).1
     = Connecting.
Proof.
  split.
  - apply (proj1 (lost_connection_redials sharedAmqp connectedMqtt 2%nat
                    "error")); discriminate.
  - apply (proj2 (lost_connection_redials sharedAmqp connectedMqtt 2%nat
                    "error")); discriminate.
Defined.

(** ** The state machine of the MQTT queue *)

Lemma topic_endsWith_name (q : MqttQueue.t) :
  endsWith (MqttQueue.topic q) (MqttQueue.name q) = true.
Proof.
  unfold MqttQueue.topic.
  destruct (MqttQueue.isRecv q && negb (MqttQueue.broadcast q)).
  - apply endsWith_app.
  - apply endsWith_refl.
Qed.

Lemma addPacketHandler_of_queue (q : MqttQueue.t) (c : MqttConnection.t) :
  QueuePattern_test (MqttQueue.name q) = true ->
  MqttConnection.addPacketHandler (MqttQueue.name q)
    (JStr (MqttQueue.topic q)) (JBool (MqttQueue.reliable q))
    (JFun (QueueInnerOnMessage (MqttQueue.name q))) c
  = Ok (MqttConnection.set_packetHandlers
          (<[MqttQueue.name q
             := MqttConnection.mkHandler (MqttQueue.topic q) (MqttQueue.qos q)
                  (QueueInnerOnMessage (MqttQueue.name q))]>
             (MqttConnection.packetHandlers c)) c).
Proof.
  intros Hname. unfold MqttConnection.addPacketHandler.
  rewrite Hname, topic_endsWith_name.
  rewrite (truthy_JStr _ (endsWith_nonempty _ _ (topic_endsWith_name q)
                            (QueuePattern_nonempty _ Hname))).
  reflexivity.
Qed.

(** X16: [connect] on a closed (or closing) queue with no subscription in
    flight -- a sender, or a receiver with a message handler and a name
    that matches the pattern -- never throws and leaves the options and the handler alone.  A receiver
    registers its packet handler under its name, with its topic and quality
    of service; a sender does not touch the connection.  On a connection
    that is not connected, or holds no client, the queue is [Connecting] and
    retries after [reconnectMillis]; on a connected one a sender is
    [Connected] at once and a receiver has issued its subscription and
    waits for it in [Connecting]. *)
Theorem mqtt_queue_connect (q : MqttQueue.t) (c : MqttConnection.t) :
  MqttQueue.status q = Closed \/ MqttQueue.status q = Closing ->
  MqttQueue.connProcessing q = false ->
  (MqttQueue.isRecv q = true ->
   is_Some (MqttQueue.msgHandler q)
   /\ QueuePattern_test (MqttQueue.name q) = true) ->
  exists (q' : MqttQueue.t) (c' : MqttConnection.t) (acts : list Action),
    MqttQueue.connect q c = Ok (q', c', acts)
    /\ sameMqttQueue q q'
    /\ c' = (if MqttQueue.isRecv q then
               MqttConnection.set_packetHandlers
                 (<[MqttQueue.name q
                    := MqttConnection.mkHandler (MqttQueue.topic q)
                         (MqttQueue.qos q)
                         (QueueInnerOnMessage (MqttQueue.name q))]>
                    (MqttConnection.packetHandlers c)) c
             else c)
    /\ (MqttConnection.status c <> Connected \/ MqttConnection.conn c = None ->
        MqttQueue.status q' = Connecting
        /\ MqttQueue.connProcessing q' = false
        /\ acts = [EmitStatus Connecting;
                   SetTimeout InnerConnect (MqttQueue.reconnectMillis q)])
    /\ (MqttConnection.status c = Connected ->
        is_Some (MqttConnection.conn c) ->
        if MqttQueue.isRecv q then
          MqttQueue.status q' = Connecting
          /\ MqttQueue.connProcessing q' = true
          /\ acts = [EmitStatus Connecting;
                     Raw (MqttSubscribe (MqttQueue.topic q) (MqttQueue.qos q))]
        else
          MqttQueue.status q' = Connected
          /\ MqttQueue.connProcessing q' = false
          /\ acts = [EmitStatus Connecting; EmitStatus Connected]).
Proof.
  intros Hst Hcp Hrecv.
  unfold MqttQueue.connect.
  assert (MqttQueue.isRecv q
          && negb (bool_decide (is_Some (MqttQueue.msgHandler q))) = false)
    as ->.
  { destruct (MqttQueue.isRecv q); [| reflexivity].
    destruct (Hrecv eq_refl) as [Hh _]. cbn.
    rewrite bool_decide_eq_true_2 by exact Hh. reflexivity. }
  assert (negb (bool_decide (MqttQueue.status q = Closed))
          && negb (bool_decide (MqttQueue.status q = Closing)) = false) as ->.
  { destruct Hst as [-> | ->]; reflexivity. }
  assert ((if MqttQueue.isRecv q then
             MqttConnection.addPacketHandler (MqttQueue.name q)
               (JStr (MqttQueue.topic q)) (JBool (MqttQueue.reliable q))
               (JFun (QueueInnerOnMessage (MqttQueue.name q))) c
           else Ok c)
          = Ok (if MqttQueue.isRecv q then
                  MqttConnection.set_packetHandlers
                    (<[MqttQueue.name q
                       := MqttConnection.mkHandler (MqttQueue.topic q)
                            (MqttQueue.qos q)
                            (QueueInnerOnMessage (MqttQueue.name q))]>
                       (MqttConnection.packetHandlers c)) c
                else c)) as ->.
  { destruct (MqttQueue.isRecv q) eqn:Hr; [| reflexivity].
    apply addPacketHandler_of_queue. apply (Hrecv eq_refl). }
  cbn [bind].
  destruct q as [name isRecv reliable broadcast ms sp st cp mh].
  destruct c as [uri cms cst cn ph ls].
  cbn in Hcp. subst cp.
  unfold sameMqttQueue, MqttQueue.innerConnect.
  cbn [MqttQueue.status MqttQueue.set_status MqttQueue.isRecv
       MqttQueue.connProcessing MqttConnection.status MqttConnection.conn
       MqttConnection.getRawConnection].
  simpl bool_decide. cbn [negb orb].
  clear Hst Hrecv.
  destruct isRecv, cn as [raw |], cst; simpl bool_decide; cbn;
    eexists _, _, _; (split; [reflexivity |]);
    intuition (try reflexivity; try discriminate; try congruence);
    match goal with
    | H : is_Some None |- _ => destruct H; discriminate
    end.
Qed.

Lemma mqtt_queue_connect_witness :
  exists (q' : MqttQueue.t) (c' : MqttConnection.t) (acts : list Action),
    MqttQueue.connect (MqttQueue.set_msgHandler (Some (UserFn 1)) sharedReceiver)
      connectedMqtt = Ok (q', c', acts)
    /\ MqttQueue.status q' = Connecting
    /\ MqttQueue.connProcessing q' = true.
Proof.
  destruct (mqtt_queue_connect
              (MqttQueue.set_msgHandler (Some (UserFn 1)) sharedReceiver)
              connectedMqtt)
    as (q' & c' & acts & H & _ & _ & _ & Hc).
  - left. reflexivity.
  - reflexivity.
  - intros _. split; [eexists; reflexivity | vm_compute; reflexivity].
  - exists q', c', acts. split; [exact H |].
    destruct (Hc eq_refl (ex_intro _ 1%nat eq_refl)) as (Hs & Hp & _).
    split; assumption.
Defined.

(** X17: While the subscription that [connect] issued is pending, the queue
    does nothing else: the retry timer, every status event of the
    connection and a second [connect] leave it as it is and have no
    effect.  The completion of the subscription ends the wait: without
    error the queue is [Connected] and says so, with an error it stays
    [Connecting] and retries after [reconnectMillis]. *)
Theorem mqtt_queue_pending_subscribe (q q' : MqttQueue.t)
    (c c' : MqttConnection.t) (acts : list Action) (tp : string) (qs : Z) :
  MqttQueue.connect q c = Ok (q', c', acts) ->
  In (Raw (MqttSubscribe tp qs)) acts ->
  (forall c2 : MqttConnection.t,
     MqttQueue.innerConnect q' c2 = (q', [])
     /\ (forall s : Status, MqttQueue.onConnStatusChanged s q' c2 = (q', []))
     /\ MqttQueue.connect q' c2 = Ok (q', c2, []))
  /\ MqttQueue.subscribe_done None q'
     = (MqttQueue.set_status Connected (MqttQueue.set_connProcessing false q'),
        [EmitStatus Connected])
  /\ (forall e : string,
        MqttQueue.subscribe_done (Some e) q'
        = (MqttQueue.set_connProcessing false q',
           [SetTimeout InnerConnect (MqttQueue.reconnectMillis q)])
        /\ MqttQueue.status (MqttQueue.set_connProcessing false q')
           = Connecting).
Proof.
  unfold MqttQueue.connect. intros H Hin.
  destruct (MqttQueue.isRecv q
            && negb (bool_decide (is_Some (MqttQueue.msgHandler q))))
    eqn:Hh; [discriminate |].
  destruct (negb (bool_decide (MqttQueue.status q = Closed))
            && negb (bool_decide (MqttQueue.status q = Closing))).
  { injection H as <- <- <-. destruct Hin. }
  apply bind_Ok in H as (c1 & Hc1 & H).
  destruct q as [name isRecv reliable broadcast ms sp st cp mh].
  unfold MqttQueue.innerConnect in H.
  cbn [MqttQueue.status MqttQueue.set_status MqttQueue.connProcessing
       MqttQueue.isRecv MqttQueue.msgHandler MqttQueue.set_connProcessing
       MqttQueue.name MqttQueue.reliable MqttQueue.broadcast
       MqttQueue.reconnectMillis MqttQueue.sharedPrefix] in H, Hh.
  simpl bool_decide in H. cbn [negb orb] in H.
  assert (forall a : Action,
            In (Raw (MqttSubscribe tp qs)) [EmitStatus Connecting; a] ->
            exists t k, a = Raw (MqttSubscribe t k)) as Hsub.
  { intros a [Hd | [-> | []]]; [discriminate | eauto]. }
  destruct cp.
  { injection H as <- <- <-. destruct Hin as [Hd | []]. discriminate. }
  destruct (negb (bool_decide (MqttConnection.status c1 = Connected))).
  { injection H as <- <- <-. destruct (Hsub _ Hin) as (t & k & Hd).
    discriminate. }
  destruct (MqttConnection.getRawConnection c1).
  2: { injection H as <- <- <-. destruct (Hsub _ Hin) as (t & k & Hd).
       discriminate. }
  destruct isRecv; cbn [negb] in H.
  2: { injection H as <- <- <-. destruct (Hsub _ Hin) as (t & k & Hd).
       discriminate. }
  injection H as <- <- <-. cbn [andb] in Hh.
  destruct mh as [h |];
    [| rewrite bool_decide_eq_false_2 in Hh
         by (intros [x Hx]; discriminate); discriminate].
  split; [| split].
  - intros c2. split; [reflexivity |]. split.
    + intros s; destruct s; reflexivity.
    + unfold MqttQueue.connect. cbn [MqttQueue.isRecv MqttQueue.msgHandler
        MqttQueue.status]. simpl bool_decide. reflexivity.
  - reflexivity.
  - intros e. split; reflexivity.
Qed.

Lemma mqtt_queue_pending_subscribe_witness :
  MqttQueue.subscribe_done None
    (MqttQueue.mk "name" true false false DEF_RECONN
       (Some "$share/general-mq/") Connecting true (Some (UserFn 1)))
  = (MqttQueue.mk "name" true false false DEF_RECONN
       (Some "$share/general-mq/") Connected false (Some (UserFn 1)),
     [EmitStatus Connected]).
Proof.
  apply (proj1 (proj2 (mqtt_queue_pending_subscribe
                         (MqttQueue.set_msgHandler (Some (UserFn 1))
                            sharedReceiver)
                         _ connectedMqtt
                         (MqttConnection.set_packetHandlers
                            {[ "name" := MqttConnection.mkHandler
                                           "$share/general-mq/name" 0
                                           (QueueInnerOnMessage "name") ]}
                            connectedMqtt)
                         [EmitStatus Connecting;
                          Raw (MqttSubscribe "$share/general-mq/name" 0)]
                         "$share/general-mq/name" 0 eq_refl
                         (or_intror (or_introl eq_refl))))).
Defined.



(** ** The state machine of the AMQP queue *)

(** X19: [connect] on a closed (or closing) AMQP queue with no channel creation
    in flight -- a sender, or a receiver with a message handler -- never
    throws; the queue is [Connecting], with its options, handler and channel
    as before.  On a connection that is not connected, or holds no client,
    it retries after [reconnectMillis]; on a connected one it asks for a
    channel, a confirm channel if the queue is reliable.  When the setup of
    the channel ends without error the queue holds the channel and is
    [Connected].  When it ends with an error the queue stays [Connecting]
    with nothing in flight; if a listener of [error] is registered on the
    queue it emits the error and retries after [reconnectMillis]; if none
    is -- the managers register none -- the [emit] throws the error out of
    the closure and no retry is scheduled; a later [connect] on the queue,
    which is still [Connecting], does nothing either. *)
Theorem amqp_queue_connect (q : AmqpQueue.t) (c : AmqpConnection.t) :
  AmqpQueue.status q = Closed \/ AmqpQueue.status q = Closing ->
  AmqpQueue.connProcessing q = false ->
  (AmqpQueue.isRecv q = true -> is_Some (AmqpQueue.msgHandler q)) ->
  exists (q' : AmqpQueue.t) (acts : list Action),
    AmqpQueue.connect q c = Ok (q', acts)
    /\ sameAmqpQueue q q'
    /\ AmqpQueue.channel q' = AmqpQueue.channel q
    /\ AmqpQueue.status q' = Connecting
    /\ (AmqpConnection.status c <> Connected \/ AmqpConnection.conn c = None ->
        AmqpQueue.connProcessing q' = false
        /\ acts = [EmitStatus Connecting;
                   SetTimeout InnerConnect (AmqpQueue.reconnectMillis q)])
    /\ (AmqpConnection.status c = Connected ->
        is_Some (AmqpConnection.conn c) ->
        AmqpQueue.connProcessing q' = true
        /\ acts = [EmitStatus Connecting;
                   Raw (AmqplibCreateChannel (AmqpQueue.reliable q))]
        /\ (forall (l : bool) (ch : nat),
              let '(q2, acts2, thrown) :=
                AmqpQueue.innerConnect_done l (inr ch) q' in
              AmqpQueue.status q2 = Connected
              /\ AmqpQueue.channel q2 = Some ch
              /\ AmqpQueue.connProcessing q2 = false
              /\ sameAmqpQueue q q2
              /\ acts2 = [EmitStatus Connected]
              /\ thrown = None)
        /\ (forall (l : bool) (e : string),
              let '(q2, acts2, thrown) :=
                AmqpQueue.innerConnect_done l (inl e) q' in
              AmqpQueue.status q2 = Connecting
              /\ AmqpQueue.channel q2 = AmqpQueue.channel q
              /\ AmqpQueue.connProcessing q2 = false
              /\ sameAmqpQueue q q2
              /\ (acts2, thrown)
                 = (if l then
                      ([EmitError e;
                        SetTimeout InnerConnect (AmqpQueue.reconnectMillis q)],
                       None)
                    else ([], Some e))
              /\ AmqpQueue.connect q2 c = Ok (q2, []))).
Proof.
  intros Hst Hcp Hrecv.
  unfold AmqpQueue.connect.
  assert (AmqpQueue.isRecv q
          && negb (bool_decide (is_Some (AmqpQueue.msgHandler q))) = false)
    as ->.
  { destruct (AmqpQueue.isRecv q); [| reflexivity].
    cbn. rewrite bool_decide_eq_true_2 by exact (Hrecv eq_refl).
    reflexivity. }
  assert (negb (bool_decide (AmqpQueue.status q = Closed))
          && negb (bool_decide (AmqpQueue.status q = Closing)) = false) as ->.
  { destruct Hst as [-> | ->]; reflexivity. }
  destruct q as [name isRecv reliable broadcast ms pf ps st cp ch mh].
  destruct c as [uri cms cst cn ls].
  cbn in Hcp. subst cp.
  unfold sameAmqpQueue, AmqpQueue.innerConnect.
  cbn [AmqpQueue.status AmqpQueue.set_status AmqpQueue.connProcessing
       AmqpConnection.status AmqpConnection.conn
       AmqpConnection.getRawConnection].
  simpl bool_decide. cbn [negb orb].
  assert (isRecv && negb (bool_decide (is_Some mh)) = false) as Hh.
  { destruct isRecv; [| reflexivity]. cbn.
    rewrite bool_decide_eq_true_2 by exact (Hrecv eq_refl). reflexivity. }
  clear Hst Hrecv.
  destruct cn as [raw |], cst; simpl bool_decide; cbn;
    eexists _, _; (split; [reflexivity |]);
    (split; [repeat split |]); (split; [reflexivity |]);
    (split; [reflexivity |]); split;
    try (intros [Hne | Hnone]; try discriminate; try (now destruct Hne);
         split; reflexivity);
    try (intros Hc [r Hr]; discriminate).
  intros _ _. split; [reflexivity |]. split; [reflexivity |]. split.
  - intros l ch'. destruct l; cbn; repeat split.
  - intros l e. unfold AmqpQueue.connect. destruct l; cbn.
    all: rewrite Hh; simpl bool_decide; cbn [negb andb]; repeat split.
Qed.

Lemma amqp_queue_connect_witness :
  exists (q' : AmqpQueue.t) (acts : list Action),
    AmqpQueue.connect (AmqpQueue.set_msgHandler (Some (UserFn 1)) amqpReceiver)
      sharedAmqp = Ok (q', acts)
    /\ AmqpQueue.status q' = Connecting
    /\ AmqpQueue.connProcessing q' = true.
Proof.
  destruct (amqp_queue_connect
              (AmqpQueue.set_msgHandler (Some (UserFn 1)) amqpReceiver)
              sharedAmqp)
    as (q' & acts & H & _ & _ & Hs & _ & Hc).
  - left. reflexivity.
  - reflexivity.
  - intros _. eexists. reflexivity.
  - exists q', acts. split; [exact H |]. split; [exact Hs |].
    exact (proj1 (Hc eq_refl (ex_intro _ 1%nat eq_refl))).
Defined.





(** ** Queues and the events of their connection *)

(** X22: A queue that is closed or closing ignores its connection: no status
    event of the connection and no retry timer changes its status, its
    options or its handler, and none has an effect.  (An AMQP queue drops
    the channel it may still hold.) *)
Theorem closed_queue_ignores_connection (mq : MqttQueue.t)
    (aq : AmqpQueue.t) (s : Status) (mc : MqttConnection.t)
    (ac : AmqpConnection.t) :
  (MqttQueue.status mq = Closed \/ MqttQueue.status mq = Closing ->
   MqttQueue.onConnStatusChanged s mq mc = (mq, [])
   /\ MqttQueue.innerConnect mq mc = (mq, []))
  /\ (AmqpQueue.status aq = Closed \/ AmqpQueue.status aq = Closing ->
      (AmqpQueue.onConnStatusChanged s aq ac).2 = []
      /\ AmqpQueue.status (AmqpQueue.onConnStatusChanged s aq ac).1
         = AmqpQueue.status aq
      /\ sameAmqpQueue aq (AmqpQueue.onConnStatusChanged s aq ac).1
      /\ AmqpQueue.innerConnect aq ac = (aq, [])).
Proof.
  split.
  - intros Hst. unfold MqttQueue.onConnStatusChanged, MqttQueue.innerConnect.
    destruct mq as [name isRecv reliable broadcast ms sp st cp mh].
    cbn in Hst.
    destruct Hst as [-> | ->], s; simpl bool_decide; cbn; auto.
  - intros Hst.
    unfold AmqpQueue.onConnStatusChanged, AmqpQueue.onClose,
      AmqpQueue.innerConnect, sameAmqpQueue.
    destruct aq as [name isRecv reliable broadcast ms pf ps st cp ch mh].
    cbn in Hst.
    destruct Hst as [-> | ->], s, ch; simpl bool_decide; cbn;
      repeat split; reflexivity.
Qed.

Lemma closed_queue_ignores_connection_witness :
  MqttQueue.onConnStatusChanged Connected mqttReceiver connectedMqtt
  = (mqttReceiver, [])
  /\ (AmqpQueue.onConnStatusChanged Connected amqpReceiver sharedAmqp).2 = [].
Proof.
  split.
  - apply (proj1 (closed_queue_ignores_connection mqttReceiver amqpReceiver
                    Connected connectedMqtt sharedAmqp)).
    left. reflexivity.
  - apply (proj2 (closed_queue_ignores_connection mqttReceiver amqpReceiver
                    Connected connectedMqtt sharedAmqp)).
    left. reflexivity.
Defined.

(** X23: A connected queue follows the loss of its connection: on any status
    event other than [Connected] it becomes [Connecting], says so and
    starts the retry timer (an AMQP queue also drops its channel).  As long
    as the connection is not [Connected], or holds no client, each firing
    of the timer only starts the next one, after [reconnectMillis]. *)
Theorem queue_follows_connection_loss (mq : MqttQueue.t) (aq : AmqpQueue.t)
    (s : Status) (mc : MqttConnection.t) (ac : AmqpConnection.t) :
  s <> Connected ->
  (MqttQueue.status mq = Connected ->
   MqttQueue.connProcessing mq = false ->
   let q' := MqttQueue.set_status Connecting mq in
   MqttQueue.onConnStatusChanged s mq mc
   = (q', [EmitStatus Connecting;
           SetTimeout InnerConnect (MqttQueue.reconnectMillis mq)])
   /\ (MqttConnection.status mc <> Connected \/ MqttConnection.conn mc = None ->
       MqttQueue.innerConnect q' mc
       = (q', [SetTimeout InnerConnect (MqttQueue.reconnectMillis mq)])))
  /\ (AmqpQueue.status aq = Connected ->
      AmqpQueue.connProcessing aq = false ->
      let q' := AmqpQueue.set_status Connecting
                  (AmqpQueue.set_channel None aq) in
      AmqpQueue.onConnStatusChanged s aq ac
      = (q', [EmitStatus Connecting;
              SetTimeout InnerConnect (AmqpQueue.reconnectMillis aq)])
      /\ (AmqpConnection.status ac <> Connected
          \/ AmqpConnection.conn ac = None ->
          AmqpQueue.innerConnect q' ac
          = (q', [SetTimeout InnerConnect (AmqpQueue.reconnectMillis aq)]))).
Proof.
  intros Hs. split.
  - destruct mq as [name isRecv reliable broadcast ms sp st cp mh].
    cbn. intros -> ->. split.
    + destruct s; try reflexivity. now destruct Hs.
    + unfold MqttQueue.innerConnect. cbn. simpl bool_decide. cbn.
      unfold MqttConnection.getRawConnection.
      intros [Hne | ->].
      * rewrite (bool_decide_eq_false_2 _ Hne). reflexivity.
      * destruct (bool_decide _); reflexivity.
  - destruct aq as [name isRecv reliable broadcast ms pf ps st cp ch mh].
    cbn. intros -> ->. split.
    + unfold AmqpQueue.onConnStatusChanged, AmqpQueue.onClose.
      destruct s, ch; try reflexivity; now destruct Hs.
    + unfold AmqpQueue.innerConnect. cbn. simpl bool_decide. cbn.
      unfold AmqpConnection.getRawConnection.
      intros [Hne | ->].
      * rewrite (bool_decide_eq_false_2 _ Hne). reflexivity.
      * destruct (bool_decide _); reflexivity.
Qed.

Lemma queue_follows_connection_loss_witness :
  MqttQueue.status
    (MqttQueue.onConnStatusChanged Disconnected connectedMqttSender
       connectedMqtt).1 = Connecting
  /\ AmqpQueue.status
       (AmqpQueue.onConnStatusChanged Disconnected connectedAmqpSender
          sharedAmqp).1 = Connecting.
Proof.
  split.
  - rewrite (proj1 (proj1 (queue_follows_connection_loss connectedMqttSender
                             connectedAmqpSender Disconnected connectedMqtt
                             sharedAmqp ltac:(discriminate))
                      eq_refl eq_refl)).
    reflexivity.
  - rewrite (proj1 (proj2 (queue_follows_connection_loss connectedMqttSender
                             connectedAmqpSender Disconnected connectedMqtt
                             sharedAmqp ltac:(discriminate))
                      eq_refl eq_refl)).
    reflexivity.
Defined.

(** ** Sending *)

(** X24: [sendMsg] of a buffer, with a function as callback, on a sender that
    is [Connected].  When the connection of an MQTT sender holds its
    client, and when an AMQP sender holds its channel, the buffer is
    published exactly once and the callback is called exactly once: an
    MQTT sender publishes to the bare queue name, whatever its shared
    prefix, with its quality of service, and the callback gets the result
    of the publish; an AMQP sender publishes to the exchange of its name
    with an empty routing key if it is a broadcast queue and to the default
    exchange with its name as routing key otherwise; a reliable one asks
    for a confirmation and hands its result to the callback, any other
    publishes with its [persistent] flag and calls the callback with [null]
    after one millisecond.  When the connection of the MQTT sender holds no
    client -- as after [removeConnection] has removed the listeners of the
    connection and closed it, which the queue does not hear of --, or the
    AMQP sender holds no channel, [sendMsg] throws a [TypeError]: nothing
    is published and the callback is not called. *)
Theorem sendMsg_publishes_once (mq : MqttQueue.t) (mc : MqttConnection.t)
    (aq : AmqpQueue.t) (bytes : list Byte.byte) (cb : FunRef)
    (err : option string) :
  (MqttQueue.status mq = Connected ->
   MqttQueue.isRecv mq = false ->
   (is_Some (MqttConnection.conn mc) ->
    exists acts : list Action,
      MqttQueue.sendMsg (Buffer bytes) (JFun cb) mq mc = Ok acts
      /\ publishesOf acts
         = [MqttPublish (MqttQueue.name mq) bytes
              (if MqttQueue.reliable mq then 1 else 0)]
      /\ countCalls cb (acts ++ MqttQueue.sendMsg_done cb err)%list = 1%nat)
   /\ (MqttConnection.conn mc = None ->
       MqttQueue.sendMsg (Buffer bytes) (JFun cb) mq mc
       = Throw "TypeError: Cannot read properties of null"))
  /\ (AmqpQueue.status aq = Connected ->
      AmqpQueue.isRecv aq = false ->
      (is_Some (AmqpQueue.channel aq) ->
       exists acts : list Action,
         AmqpQueue.sendMsg (Buffer bytes) (JFun cb) aq = Ok acts
         /\ publishesOf acts
            = [ChannelPublish
                 (if AmqpQueue.broadcast aq then AmqpQueue.name aq else "")
                 (if AmqpQueue.broadcast aq then "" else AmqpQueue.name aq)
                 bytes
                 (if AmqpQueue.reliable aq then MandatoryConfirm
                  else Persistent (AmqpQueue.persistent aq))]
         /\ countCalls cb
              (acts ++ (if AmqpQueue.reliable aq
                        then AmqpQueue.sendMsg_done cb err else []))%list
            = 1%nat)
      /\ (AmqpQueue.channel aq = None ->
          AmqpQueue.sendMsg (Buffer bytes) (JFun cb) aq
          = Throw "TypeError: Cannot read properties of null")).
Proof.
  split.
  - intros Hst Hsend. unfold MqttQueue.sendMsg.
    rewrite Hst, Hsend. unfold MqttConnection.getRawConnection.
    simpl bool_decide. cbn [negb]. split.
    + intros [raw Hraw]. rewrite Hraw.
      eexists. split; [reflexivity |].
      unfold MqttQueue.topic, MqttQueue.qos. rewrite Hsend. cbn [andb].
      split; [reflexivity |]. cbn.
      case_bool_decide; [reflexivity | congruence].
    + intros ->. reflexivity.
  - intros Hst Hsend. unfold AmqpQueue.sendMsg.
    rewrite Hst, Hsend. simpl bool_decide. cbn [negb]. split.
    + intros [ch Hch]. rewrite Hch.
      destruct (AmqpQueue.reliable aq); eexists; (split; [reflexivity |]);
        (split; [reflexivity |]); cbn;
        (case_bool_decide; [reflexivity | congruence]).
    + intros ->. reflexivity.
Qed.

Lemma sendMsg_publishes_once_witness :
  (exists acts : list Action,
     MqttQueue.sendMsg (Buffer []) (JFun (UserFn 3)) connectedMqttSender
       connectedMqtt = Ok acts
     /\ publishesOf acts = [MqttPublish "name" [] 0])
  /\ MqttQueue.sendMsg (Buffer []) (JFun (UserFn 3)) connectedMqttSender
       (MqttConnection.set_conn None connectedMqtt)
     = Throw "TypeError: Cannot read properties of null"
  /\ (exists acts : list Action,
        AmqpQueue.sendMsg (Buffer []) (JFun (UserFn 3)) connectedAmqpSender
        = Ok acts
        /\ publishesOf acts
           = [ChannelPublish "" "name" [] (Persistent false)]).
Proof.
  split; [| split].
  - destruct (proj1 (proj1 (sendMsg_publishes_once connectedMqttSender
                              connectedMqtt connectedAmqpSender [] (UserFn 3)
                              None)
                       eq_refl eq_refl) (ex_intro _ 1%nat eq_refl))
      as (acts & H & Hp & _).
    exists acts. split; assumption.
  - exact (proj2 (proj1 (sendMsg_publishes_once connectedMqttSender
                           (MqttConnection.set_conn None connectedMqtt)
                           connectedAmqpSender [] (UserFn 3) None)
                    eq_refl eq_refl) eq_refl).
  - destruct (proj1 (proj2 (sendMsg_publishes_once connectedMqttSender
                              connectedMqtt connectedAmqpSender [] (UserFn 3)
                              None)
                       eq_refl eq_refl) (ex_intro _ 1%nat eq_refl))
      as (acts & H & Hp & _).
    exists acts. split; assumption.
Defined.

(** ** What the queue constructors guarantee *)

Lemma reconnectMillis_positive (v : JsVal) :
  negb (isUndefined v) && (negb (Number_isInteger v) || numLt v 0) = false ->
  0 < asInt (orElse v (JInt DEF_RECONN)).
Proof.
  destruct v as [| | b | z | k | s | f | |]; cbn; try discriminate;
    try (intros _; reflexivity).
  intros Hz. apply Z.ltb_ge in Hz. unfold orElse. cbn.
  destruct (Z.eqb_spec z 0) as [-> | Hne]; cbn; [reflexivity | lia].
Qed.

(** X14: An MQTT queue that the constructor returns is [Closed], has no message
    handler and no subscription in flight; its name matches the queue
    pattern, its reconnect delay is positive (0 and an absent delay give
    1000 ms), its shared prefix, if any, is not empty; and the only change
    to the connection is one more status listener, the queue's own. *)
Theorem mqtt_queue_constructor_invariants (opts : Arg QueueOpts)
    (conn : ConnArg) (q : MqttQueue.t) (c : MqttConnection.t) :
  MqttQueue.constructor opts conn = Ok (q, c) ->
  MqttQueue.status q = Closed
  /\ MqttQueue.msgHandler q = None
  /\ MqttQueue.connProcessing q = false
  /\ QueuePattern_test (MqttQueue.name q) = true
  /\ 0 < MqttQueue.reconnectMillis q
  /\ MqttQueue.sharedPrefix q <> Some ""
  /\ exists c0 : MqttConnection.t,
       conn = IsMqtt c0
       /\ c = MqttConnection.on
                (QueueOnConnStatusChanged (MqttQueue.name q)) c0.
Proof.
  unfold MqttQueue.constructor. intros H.
  destruct (notAnObject opts); [discriminate |].
  destruct conn as [| c0 |]; try discriminate.
  set (o := fields noQueueOpts opts) in *.
  destruct (QueuePattern_test (o_name o)) eqn:Hname; [| discriminate].
  cbn [negb] in H. pass_checks H. injection H as <- <-.
  cbn [MqttQueue.status MqttQueue.msgHandler MqttQueue.connProcessing
       MqttQueue.name MqttQueue.reconnectMillis MqttQueue.sharedPrefix].
  repeat split; try assumption.
  - apply reconnectMillis_positive. assumption.
  - destruct (o_sharedPrefix o) as [| | b | z | k | s | f | |];
      try discriminate.
    intros [= ->]. cbn in Hcheck3. discriminate.
  - eauto.
Qed.

Lemma mqtt_queue_constructor_invariants_witness :
  exists (q : MqttQueue.t) (c : MqttConnection.t),
    MqttQueue.constructor (Obj receiverOpts) (IsMqtt newMqtt) = Ok (q, c)
    /\ 0 < MqttQueue.reconnectMillis q.
Proof.
  eexists _, _. split; [reflexivity |].
  apply (mqtt_queue_constructor_invariants (Obj receiverOpts) (IsMqtt newMqtt)
           _ _ eq_refl).
Defined.

(** X15: An AMQP queue that the constructor returns is [Closed], has no message
    handler, no channel and no channel creation in flight; its name matches
    the queue pattern, its reconnect delay is positive, and a receiver's
    prefetch is an integer from 1 to 65535; the only change to the
    connection is one more status listener, the queue's own. *)
Theorem amqp_queue_constructor_invariants (opts : Arg QueueOpts)
    (conn : ConnArg) (q : AmqpQueue.t) (c : AmqpConnection.t) :
  AmqpQueue.constructor opts conn = Ok (q, c) ->
  AmqpQueue.status q = Closed
  /\ AmqpQueue.msgHandler q = None
  /\ AmqpQueue.channel q = None
  /\ AmqpQueue.connProcessing q = false
  /\ QueuePattern_test (AmqpQueue.name q) = true
  /\ 0 < AmqpQueue.reconnectMillis q
  /\ (AmqpQueue.isRecv q = true ->
      exists p : Z, AmqpQueue.prefetch q = JInt p /\ 1 <= p <= 65535)
  /\ exists c0 : AmqpConnection.t,
       conn = IsAmqp c0
       /\ c = AmqpConnection.on
                (QueueOnConnStatusChanged (AmqpQueue.name q)) c0.
Proof.
  unfold AmqpQueue.constructor. intros H.
  destruct (notAnObject opts); [discriminate |].
  destruct conn as [c0 | |]; try discriminate.
  set (o := fields noQueueOpts opts) in *.
  destruct (QueuePattern_test (o_name o)) eqn:Hname; [| discriminate].
  cbn [negb] in H. pass_checks H. injection H as <- <-.
  cbn [AmqpQueue.status AmqpQueue.msgHandler AmqpQueue.connProcessing
       AmqpQueue.name AmqpQueue.reconnectMillis AmqpQueue.channel
       AmqpQueue.isRecv AmqpQueue.prefetch].
  repeat split; try assumption.
  - apply reconnectMillis_positive. assumption.
  - intros Hrecv.
    destruct (o_isRecv o) as [| | [|] | z | k | s | f | |];
      try discriminate.
    cbn [truthy andb] in Hcheck2.
    destruct (o_prefetch o) as [| | b | p | k | s | f | |];
      try discriminate.
    cbn in Hcheck2. exists p. split; [reflexivity |].
    apply orb_false_iff in Hcheck2 as [Hle Hgt].
    apply Z.leb_gt in Hle. rewrite Z.gtb_ltb in Hgt. apply Z.ltb_ge in Hgt.
    lia.
  - eauto.
Qed.

Lemma amqp_queue_constructor_invariants_witness :
  exists (q : AmqpQueue.t) (c : AmqpConnection.t),
    AmqpQueue.constructor (Obj receiverOpts) (IsAmqp newAmqp) = Ok (q, c)
    /\ exists p : Z, AmqpQueue.prefetch q = JInt p /\ 1 <= p <= 65535.
Proof.
  eexists _, _. split; [reflexivity |].
  exact (proj1 (proj2 (proj2 (proj2 (proj2 (proj2 (proj2
           (amqp_queue_constructor_invariants (Obj receiverOpts)
              (IsAmqp newAmqp) _ _ eq_refl)))))))
           eq_refl).
Defined.

(** ** More on the message handler of a network manager *)

(** X25: A message that parses to an object or an array reaches the user of a
    network manager exactly once when its conversions return: on the
    [dldata] queue, when [new Date] accepts [pub] and [data] can be turned
    into a buffer, [onDlData] is called, and on the [ctrl] queue, when
    [new Date] accepts [time], [onCtrl]; each call of the completion
    callback then settles the message on that queue, with [nack] for a
    truthy error and [ack] otherwise, so that a handler that calls it once
    settles the message once.  When a conversion throws -- [new Date] does
    for an object with a member [toString], or an array that holds one --
    the [TypeError] escapes the handler of the manager: no user handler is
    called and the message is not settled. *)
Theorem gmqMsgHandler_calls_handler_once
    (Buffer_from_object : list (string * NetworkMgr.Json) -> bool)
    (m : NetworkMgr.t) (data : NetworkMgr.Json) :
  NetworkMgr.holdsProperties data = true ->
  let converts :=
    NetworkMgr.Date_returns (NetworkMgr.get "pub" data)
    && NetworkMgr.Buffer_from_returns Buffer_from_object
         (NetworkMgr.get "data" data) in
  (converts = true ->
   let r := NetworkMgr.onDlData (NetworkMgr.mgrMsgHandler m) data in
   let out := (NetworkMgr.gmqMsgHandler Buffer_from_object m
                 (NetworkMgr.dldata m) (Some data)).1 in
   out = NetworkMgr.CallOnDlData data
           :: map (NetworkMgr.settle (queue_name (NetworkMgr.dldata m)))
                (NetworkMgr.calls r)
   /\ handlerCalls out = 1%nat
   /\ settlements out = List.length (NetworkMgr.calls r))
  /\ (converts = false ->
      NetworkMgr.gmqMsgHandler Buffer_from_object m (NetworkMgr.dldata m)
        (Some data) = ([], Some NetworkMgr.typeError))
  /\ (queue_name (NetworkMgr.ctrl m) <> queue_name (NetworkMgr.dldata m) ->
      (NetworkMgr.Date_returns (NetworkMgr.get "time" data) = true ->
       let r := NetworkMgr.onCtrl (NetworkMgr.mgrMsgHandler m) data in
       let out := (NetworkMgr.gmqMsgHandler Buffer_from_object m
                     (NetworkMgr.ctrl m) (Some data)).1 in
       out = NetworkMgr.CallOnCtrl data
               :: map (NetworkMgr.settle (queue_name (NetworkMgr.ctrl m)))
                    (NetworkMgr.calls r)
       /\ handlerCalls out = 1%nat
       /\ settlements out = List.length (NetworkMgr.calls r))
      /\ (NetworkMgr.Date_returns (NetworkMgr.get "time" data) = false ->
          NetworkMgr.gmqMsgHandler Buffer_from_object m (NetworkMgr.ctrl m)
            (Some data) = ([], Some NetworkMgr.typeError))).
Proof.
  intros Hobj converts. subst converts. split; [| split].
  - intros Hc. apply andb_true_iff in Hc as [Hdate Hbuf].
    now apply gmqMsgHandler_dldata.
  - intros Hc. unfold NetworkMgr.gmqMsgHandler.
    rewrite String.eqb_refl, Hobj. cbn [negb].
    destruct (NetworkMgr.Date_returns _); [| reflexivity].
    cbn in Hc. rewrite Hc. reflexivity.
  - intros Hne. split.
    + intros Hdate. now apply gmqMsgHandler_ctrl.
    + intros Hdate. unfold NetworkMgr.gmqMsgHandler.
      rewrite (proj2 (String.eqb_neq _ _) Hne), String.eqb_refl, Hobj, Hdate.
      reflexivity.
Qed.

Lemma gmqMsgHandler_calls_handler_once_witness :
  (let out :=
     (NetworkMgr.gmqMsgHandler (fun _ => true) sampleMgr
        (NetworkMgr.dldata sampleMgr)
        (Some (NetworkMgr.JsonObj [("data", NetworkMgr.JsonStr "00")]))).1 in
   handlerCalls out = 1%nat /\ settlements out = 1%nat)
  /\ NetworkMgr.gmqMsgHandler (fun _ => true) sampleMgr
       (NetworkMgr.dldata sampleMgr)
       (Some (NetworkMgr.JsonObj
                [("pub", NetworkMgr.JsonObj
                           [("toString", NetworkMgr.JsonNum 1 0);
                            ("valueOf", NetworkMgr.JsonNum 1 0)]);
                 ("data", NetworkMgr.JsonStr "00")]))
     = ([], Some NetworkMgr.typeError)
  /\ (let out :=
        (NetworkMgr.gmqMsgHandler (fun _ => true) sampleMgr
           (NetworkMgr.ctrl sampleMgr)
           (Some (NetworkMgr.JsonObj [("data", NetworkMgr.JsonStr "00")]))).1 in
      handlerCalls out = 1%nat /\ settlements out = 1%nat).
Proof.
  split; [| split].
  - apply (proj1 (gmqMsgHandler_calls_handler_once (fun _ => true) sampleMgr
                    (NetworkMgr.JsonObj [("data", NetworkMgr.JsonStr "00")])
                    eq_refl)).
    reflexivity.
  - apply (proj1 (proj2 (gmqMsgHandler_calls_handler_once (fun _ => true)
                           sampleMgr
                           (NetworkMgr.JsonObj
                              [("pub", NetworkMgr.JsonObj
                                         [("toString", NetworkMgr.JsonNum 1 0);
                                          ("valueOf", NetworkMgr.JsonNum 1 0)]);
                               ("data", NetworkMgr.JsonStr "00")])
                           eq_refl))).
    reflexivity.
  - apply (proj1 (proj2 (proj2 (gmqMsgHandler_calls_handler_once
                                  (fun _ => true) sampleMgr
                                  (NetworkMgr.JsonObj
                                     [("data", NetworkMgr.JsonStr "00")])
                                  eq_refl))
                    ltac:(vm_compute; discriminate))).
    reflexivity.
Defined.

(** X26: Whatever the queue and the payload, the message handler of a network
    manager calls at most one user handler, and every [ack] and [nack] it
    makes is on the queue the message came from.  When it calls no handler
    it either does nothing at all, or -- for a payload that is not JSON,
    and only then -- acks the message.  In particular a message that
    parses, on a queue other than [dldata] and [ctrl], is dropped without
    settlement. *)
Theorem gmqMsgHandler_settles_on_own_queue
    (Buffer_from_object : list (string * NetworkMgr.Json) -> bool)
    (m : NetworkMgr.t) (queue : Queue) (parsed : option NetworkMgr.Json) :
  let out := (NetworkMgr.gmqMsgHandler Buffer_from_object m queue parsed).1 in
  (handlerCalls out <= 1)%nat
  /\ (forall e : NetworkMgr.Effect,
        In e out -> NetworkMgr.isSettlement e = true ->
        e = NetworkMgr.Ack (queue_name queue)
        \/ e = NetworkMgr.Nack (queue_name queue))
  /\ (handlerCalls out = 0%nat ->
      out = [] \/ (parsed = None /\ out = [NetworkMgr.Ack (queue_name queue)]))
  /\ (queue_name queue <> queue_name (NetworkMgr.dldata m) ->
      queue_name queue <> queue_name (NetworkMgr.ctrl m) ->
      is_Some parsed -> out = []).
Proof.
  assert (forall (q : string) (errs : list JsVal) (e : NetworkMgr.Effect),
            In e (map (NetworkMgr.settle q) errs) ->
            e = NetworkMgr.Ack q \/ e = NetworkMgr.Nack q) as Hsettle.
  { intros q errs e Hin. apply in_map_iff in Hin as (v & <- & _).
    unfold NetworkMgr.settle. destruct (truthy v); auto. }
  unfold NetworkMgr.gmqMsgHandler.
  destruct parsed as [data |]; cbn zeta.
  2: { cbn. repeat split; auto.
       - intros e [<- | []] _. auto.
       - intros _ _ [x Hx]. discriminate. }
  destruct (String.eqb_spec (queue_name queue)
              (queue_name (NetworkMgr.dldata m))) as [Hd | Hd].
  - destruct (NetworkMgr.holdsProperties data); cbn [negb];
      [destruct (NetworkMgr.Date_returns _); cbn [negb];
       [destruct (NetworkMgr.Buffer_from_returns _ _); cbn [negb] |] |];
      cbn [fst]; try (cbn; repeat split; auto; try lia; try tauto;
                      intros e []).
    repeat split.
    + unfold handlerCalls. cbn. fold (handlerCalls
        (map (NetworkMgr.settle (queue_name (NetworkMgr.dldata m)))
           (NetworkMgr.calls (NetworkMgr.onDlData
                                (NetworkMgr.mgrMsgHandler m) data)))).
      rewrite handlerCalls_settle. lia.
    + intros e [<- | Hin] He; [discriminate |]. rewrite Hd.
      exact (Hsettle _ _ _ Hin).
    + unfold handlerCalls. cbn. discriminate.
    + intros Hne. now destruct Hne.
  - destruct (String.eqb_spec (queue_name queue)
                (queue_name (NetworkMgr.ctrl m))) as [Hc | Hc].
    + destruct (NetworkMgr.holdsProperties data); cbn [negb fst];
        [destruct (NetworkMgr.Date_returns _); cbn [negb fst] |];
        try (cbn; repeat split; auto; try lia; try tauto; intros e []).
      repeat split.
      * unfold handlerCalls. cbn. fold (handlerCalls
          (map (NetworkMgr.settle (queue_name (NetworkMgr.ctrl m)))
             (NetworkMgr.calls (NetworkMgr.onCtrl
                                  (NetworkMgr.mgrMsgHandler m) data)))).
        rewrite handlerCalls_settle. lia.
      * intros e [<- | Hin] He; [discriminate |]. rewrite Hc.
        exact (Hsettle _ _ _ Hin).
      * unfold handlerCalls. cbn. discriminate.
      * intros _ Hne. now destruct Hne.
    + cbn. repeat split; auto; try lia.
Qed.

Lemma gmqMsgHandler_settles_on_own_queue_witness :
  (NetworkMgr.gmqMsgHandler (fun _ => true) sampleMgr
     (NetworkMgr.uldata sampleMgr) (Some NetworkMgr.JsonNull)).1 = [].
Proof.
  apply (gmqMsgHandler_settles_on_own_queue (fun _ => true) sampleMgr
           (NetworkMgr.uldata sampleMgr) (Some NetworkMgr.JsonNull)).
  - vm_compute. discriminate.
  - vm_compute. discriminate.
  - eexists. reflexivity.
Defined.

(** ** What the managers send *)

Lemma Buffer_toString_hex_length (bytes : list Byte.byte) :
  String.length (Buffer_toString_hex bytes) = (2 * List.length bytes)%nat.
Proof.
  induction bytes as [| b bytes IH]; [reflexivity |].
  cbn [Buffer_toString_hex String.length List.length]. rewrite IH. lia.
Qed.

Lemma nonEmptyString_check (v : JsVal) :
  negb (truthy v) || negb (bool_decide (typeof v = TString)) = false
  <-> nonEmptyString v.
Proof.
  unfold nonEmptyString. split.
  - destruct v as [| | b | z | k | s | f | |]; cbn; simpl bool_decide;
      cbn [negb]; try discriminate; try (rewrite orb_true_r; discriminate).
    rewrite orb_false_r, negb_false_iff, negb_true_iff.
    intros H. exists s. split; [reflexivity |]. now apply String.eqb_neq.
  - intros (s & -> & Hs). cbn. simpl bool_decide.
    rewrite (proj2 (String.eqb_neq s "") Hs). reflexivity.
Qed.

Lemma optionalString_check (v : JsVal) :
  negb (isUndefined v) && negb (bool_decide (typeof v = TString)) = false
  <-> optionalString v.
Proof.
  unfold optionalString. split.
  - destruct v as [| | b | z | k | s | f | |]; cbn; simpl bool_decide;
      cbn [negb]; try discriminate; eauto.
  - intros [-> | (s & ->)]; reflexivity.
Qed.

Lemma optionalObject_check {R : Type} (a : Arg R) :
  given a && notAnObject a = false <-> optionalObject a.
Proof.
  unfold optionalObject. rewrite andb_false_iff. reflexivity.
Qed.

Lemma queue_sendMsg_buffer (bytes : list Byte.byte) (cb : FunRef)
    (q : Queue) (mc : MqttConnection.t) :
  isOk (queue_sendMsg (Buffer bytes) (JFun cb) q mc) = sendable q mc
  /\ (queue_status q <> Connected ->
      queue_sendMsg (Buffer bytes) (JFun cb) q mc
      = Ok [NextTick (Call cb (Some Errors.NotConnected))])
  /\ (queue_status q = Connected -> queue_isRecv q = true ->
      queue_sendMsg (Buffer bytes) (JFun cb) q mc
      = Ok [NextTick (Call cb (Some Errors.QueueIsReceiver))])
  /\ (queue_status q = Connected -> queue_isRecv q = false ->
      forall acts : list Action,
        queue_sendMsg (Buffer bytes) (JFun cb) q mc = Ok acts ->
        payloadsOf acts = [bytes]).
Proof.
  unfold sendable, queue_sendMsg.
  destruct q as [a | m]; cbn [queue_status queue_isRecv].
  - unfold AmqpQueue.sendMsg.
    destruct (bool_decide (AmqpQueue.status a = Connected)) eqn:Hst;
      [apply bool_decide_eq_true_1 in Hst
      | apply bool_decide_eq_false_1 in Hst];
      cbn [negb orb];
      destruct (AmqpQueue.isRecv a) eqn:Hr; cbn [orb];
      destruct (AmqpQueue.channel a) as [ch |] eqn:Hch;
      simpl bool_decide;
      destruct (AmqpQueue.reliable a);
      repeat split; intros; try congruence; try reflexivity;
      try match goal with
          | H : Ok _ = Ok _ |- _ => injection H as <-; reflexivity
          end.
  - unfold MqttQueue.sendMsg, MqttConnection.getRawConnection.
    destruct (bool_decide (MqttQueue.status m = Connected)) eqn:Hst;
      [apply bool_decide_eq_true_1 in Hst
      | apply bool_decide_eq_false_1 in Hst];
      cbn [negb orb];
      destruct (MqttQueue.isRecv m) eqn:Hr; cbn [orb];
      destruct (MqttConnection.conn mc) as [raw |] eqn:Hraw;
      simpl bool_decide;
      repeat split; intros; try congruence; try reflexivity;
      try match goal with
          | H : Ok _ = Ok _ |- _ => injection H as <-; reflexivity
          end.
Qed.

Lemma extensionMember_outcome (e : Arg NetworkMgr.Stringified) :
  (extensionThrows e = false ->
   exists members : list (string * NetworkMgr.Json),
     NetworkMgr.extensionMember e = Ok members
     /\ NetworkMgr.member "extension" members = extensionOf e
     /\ forall key : string,
          key <> "extension" -> NetworkMgr.member key members = None)
  /\ (extensionThrows e = true -> isOk (NetworkMgr.extensionMember e) = false).
Proof.
  unfold extensionThrows, extensionOf, NetworkMgr.extensionMember, stringified.
  destruct (given e); cbn [andb].
  - destruct (fields _ e) as [| j | err]; split; try discriminate.
    + intros _. exists []. repeat split.
    + intros _. exists [("extension", j)]. split; [reflexivity |].
      split; [reflexivity |]. intros key Hkey.
      change (NetworkMgr.member key [("extension", j)])
        with (if String.eqb "extension" key then Some j else None).
      destruct (String.eqb_spec "extension" key); congruence.
    + reflexivity.
  - split; [| discriminate]. intros _. exists []. repeat split.
Qed.

Lemma member_app (key : string) (l1 l2 : list (string * NetworkMgr.Json)) :
  NetworkMgr.member key (l1 ++ l2)
  = match NetworkMgr.member key l1 with
    | Some v => Some v
    | None => NetworkMgr.member key l2
    end.
Proof.
  induction l1 as [| [k v] l1 IH]; [reflexivity |].
  cbn [app NetworkMgr.member]. destruct (String.eqb k key); [reflexivity | exact IH].
Qed.

Lemma optionalMember_member (key k : string) (v : JsVal) :
  optionalString v ->
  NetworkMgr.member k (NetworkMgr.optionalMember key v)
  = if String.eqb key k then memberOf v else None.
Proof.
  unfold memberOf, NetworkMgr.optionalMember, orElse.
  intros [-> | (s & ->)].
  - cbn. now destruct (String.eqb key k).
  - cbn [truthy Lib.str]. destruct (negb (String.eqb s "")); cbn [NetworkMgr.member];
    now destruct (String.eqb key k).
Qed.

(** X27: [sendUlData] of a network manager, given an object and a function.
    It returns exactly when [time] is a valid date, [networkAddr] a string
    that is not empty, [data] a buffer and [extension] absent or an object,
    [JSON.stringify] does not throw on the extension, and [sendMsg] of the
    [uldata] queue does not throw, which it does only on a [Connected]
    sender without its client or channel.  The payload is the JSON text of
    the time as an ISO string, the address, the data as two hexadecimal
    digits for each byte, and the extension as [JSON.stringify] writes it,
    if it writes one.  A queue that is not [Connected] gets nothing
    published and the callback the error of a queue that is not connected;
    a [Connected] sender publishes the payload, once. *)
Theorem sendUlData_validation (toISOString : Z -> string)
    (JSON_bytes : NetworkMgr.Json -> list Byte.byte)
    (u : NetworkMgr.NetUlData.t) (cb : FunRef) (m : NetworkMgr.t)
    (mc : MqttConnection.t) :
  let res := NetworkMgr.sendUlData toISOString JSON_bytes (Obj u) cb m mc in
  let q := NetworkMgr.uldata m in
  (isOk res = true
   <-> (exists ms : Z, NetworkMgr.NetUlData.time u = IsDate (Some ms))
       /\ nonEmptyString (NetworkMgr.NetUlData.networkAddr u)
       /\ (exists bytes, NetworkMgr.NetUlData.data u = Buffer bytes)
       /\ optionalObject (NetworkMgr.NetUlData.extension u)
       /\ extensionThrows (NetworkMgr.NetUlData.extension u) = false
       /\ sendable q mc = true)
  /\ (forall acts : list Action,
        res = Ok acts ->
        exists (ms : Z) (addr : string) (bytes : list Byte.byte)
               (body : NetworkMgr.Json),
          NetworkMgr.NetUlData.time u = IsDate (Some ms)
          /\ NetworkMgr.NetUlData.networkAddr u = JStr addr
          /\ NetworkMgr.NetUlData.data u = Buffer bytes
          /\ NetworkMgr.uldataOf toISOString (Obj u) = Ok body
          /\ NetworkMgr.get "time" body
             = Some (NetworkMgr.JsonStr (toISOString ms))
          /\ NetworkMgr.get "networkAddr" body
             = Some (NetworkMgr.JsonStr addr)
          /\ NetworkMgr.get "data" body
             = Some (NetworkMgr.JsonStr (Buffer_toString_hex bytes))
          /\ String.length (Buffer_toString_hex bytes)
             = (2 * List.length bytes)%nat
          /\ NetworkMgr.get "extension" body
             = extensionOf (NetworkMgr.NetUlData.extension u)
          /\ (queue_status q <> Connected ->
              acts = [NextTick (Call cb (Some Errors.NotConnected))])
          /\ (queue_status q = Connected -> queue_isRecv q = false ->
              payloadsOf acts = [JSON_bytes body])).
Proof.
  destruct u as [tm addr dt ext].
  cbn zeta. unfold NetworkMgr.sendUlData, NetworkMgr.uldataOf.
  cbn [notAnObject fields NetworkMgr.NetUlData.time
       NetworkMgr.NetUlData.networkAddr NetworkMgr.NetUlData.data
       NetworkMgr.NetUlData.extension].
  destruct (extensionMember_outcome ext) as [Hwrites Hthrows].
  split.
  - split.
    + intros H.
      destruct tm as [[ms |] | v]; try discriminate.
      destruct (negb (truthy addr) || _) eqn:Ha; [discriminate |].
      destruct dt as [bytes | v]; [| discriminate].
      destruct (given ext && notAnObject ext) eqn:He; [discriminate |].
      destruct (extensionThrows ext) eqn:Hx.
      { specialize (Hthrows eq_refl).
        destruct (NetworkMgr.extensionMember ext); discriminate. }
      destruct (Hwrites eq_refl) as (members & Hm & _). rewrite Hm in H.
      cbn [bind] in H.
      rewrite (proj1 (queue_sendMsg_buffer _ cb (NetworkMgr.uldata m) mc))
        in H.
      split; [eauto |]. split; [now apply nonEmptyString_check |].
      split; [eauto |]. split; [now apply optionalObject_check |].
      split; [reflexivity | exact H].
    + intros ((ms & ->) & Ha & (bytes & ->) & He & Hx & Hs).
      rewrite (proj2 (nonEmptyString_check _) Ha),
        (proj2 (optionalObject_check _) He).
      destruct (Hwrites Hx) as (members & Hm & _). rewrite Hm. cbn [bind].
      rewrite (proj1 (queue_sendMsg_buffer _ cb (NetworkMgr.uldata m) mc)).
      exact Hs.
  - intros acts H.
    destruct tm as [[ms |] | v]; try discriminate.
    destruct (negb (truthy addr) || _) eqn:Ha; [discriminate |].
    destruct dt as [bytes | v]; [| discriminate].
    destruct (given ext && notAnObject ext) eqn:He; [discriminate |].
    destruct (extensionThrows ext) eqn:Hx.
    { specialize (Hthrows eq_refl).
      destruct (NetworkMgr.extensionMember ext); discriminate. }
    destruct (Hwrites eq_refl) as (members & Hm & Hext & Hother).
    rewrite Hm in *. cbn [bind] in *.
    destruct (proj1 (nonEmptyString_check _) Ha) as (a & -> & Hne).
    destruct (queue_sendMsg_buffer
                (JSON_bytes
                   (NetworkMgr.JsonObj
                      ([("time", NetworkMgr.JsonStr (toISOString ms));
                        ("networkAddr", NetworkMgr.JsonStr (Lib.str (JStr a)));
                        ("data",
                         NetworkMgr.JsonStr (Buffer_toString_hex bytes))]
                       ++ members)))
                cb (NetworkMgr.uldata m) mc) as (_ & Hnot & _ & Hpub).
    exists ms, a, bytes. eexists. repeat split; try reflexivity.
    + apply Buffer_toString_hex_length.
    + cbn. exact Hext.
    + intros Hst. rewrite (Hnot Hst) in H. now injection H as <-.
    + intros Hst Hr. exact (Hpub Hst Hr acts H).
Qed.

Lemma sendUlData_validation_witness :
  exists acts : list Action,
    NetworkMgr.sendUlData (fun _ => "2024-01-01T00:00:00.000Z") (fun _ => [])
      (Obj (NetworkMgr.NetUlData.mk (IsDate (Some 1704067200000))
              (JStr "800012ae") (Buffer [Byte.x01; Byte.xff])
              (NotObj JUndefined)))
      (UserFn 1) sampleMgr connectedMqtt = Ok acts
    /\ acts = [NextTick (Call (UserFn 1) (Some Errors.NotConnected))].
Proof.
  destruct (NetworkMgr.sendUlData (fun _ => "2024-01-01T00:00:00.000Z")
              (fun _ => [])
              (Obj (NetworkMgr.NetUlData.mk (IsDate (Some 1704067200000))
                      (JStr "800012ae") (Buffer [Byte.x01; Byte.xff])
                      (NotObj JUndefined)))
              (UserFn 1) sampleMgr connectedMqtt) as [acts | msg] eqn:H.
  - exists acts. split; [reflexivity |].
    destruct (proj2 (sendUlData_validation _ _ _ _ _ _) acts H)
      as (ms & addr & bytes & body & _ & _ & _ & _ & _ & _ & _ & _ & _
          & Hnot & _).
    apply Hnot. discriminate.
  - vm_compute in H. discriminate H.
Defined.

(** X28: [sendDlDataResult] of a network manager, given an object and a
    function.  It returns exactly when [dataId] is a string that is not
    empty, [status] an integer -- of either sign, or zero -- and [message]
    absent or a string, and [sendMsg] of the [dldata-result] queue does not
    throw, which it does only on a [Connected] sender without its client or
    channel.  The payload is the JSON text of the id and the status, with a
    [message] member exactly when the message given is not empty.  A queue
    that is not [Connected] gets nothing published and the callback the
    error of a queue that is not connected; a [Connected] sender publishes
    the payload, once. *)
Theorem sendDlDataResult_validation
    (JSON_bytes : NetworkMgr.Json -> list Byte.byte)
    (r : NetworkMgr.NetDlDataResult.t) (cb : FunRef) (m : NetworkMgr.t)
    (mc : MqttConnection.t) :
  let res := NetworkMgr.sendDlDataResult JSON_bytes (Obj r) cb m mc in
  let q := NetworkMgr.dldataResult m in
  (isOk res = true
   <-> nonEmptyString (NetworkMgr.NetDlDataResult.dataId r)
       /\ (exists z : Z, NetworkMgr.NetDlDataResult.status r = JInt z)
       /\ optionalString (NetworkMgr.NetDlDataResult.message r)
       /\ sendable q mc = true)
  /\ (forall acts : list Action,
        res = Ok acts ->
        exists (id : string) (z : Z) (body : NetworkMgr.Json),
          NetworkMgr.NetDlDataResult.dataId r = JStr id
          /\ NetworkMgr.NetDlDataResult.status r = JInt z
          /\ NetworkMgr.dldataResultOf (Obj r) = Ok body
          /\ NetworkMgr.get "dataId" body = Some (NetworkMgr.JsonStr id)
          /\ NetworkMgr.get "status" body = Some (NetworkMgr.JsonNum z 0)
          /\ NetworkMgr.get "message" body
             = memberOf (NetworkMgr.NetDlDataResult.message r)
          /\ (queue_status q <> Connected ->
              acts = [NextTick (Call cb (Some Errors.NotConnected))])
          /\ (queue_status q = Connected -> queue_isRecv q = false ->
              payloadsOf acts = [JSON_bytes body])).
Proof.
  destruct r as [id st msg].
  cbn zeta. unfold NetworkMgr.sendDlDataResult, NetworkMgr.dldataResultOf.
  cbn [notAnObject fields NetworkMgr.NetDlDataResult.dataId
       NetworkMgr.NetDlDataResult.status NetworkMgr.NetDlDataResult.message].
  split.
  - split.
    + intros H.
      destruct (negb (truthy id) || _) eqn:Hi; [discriminate |].
      destruct st as [| | b | z | k | s | f | |]; try discriminate.
      destruct (negb (isUndefined msg) && _) eqn:Hm; [discriminate |].
      cbn [Number_isInteger negb bind] in H.
      rewrite (proj1 (queue_sendMsg_buffer _ cb (NetworkMgr.dldataResult m)
                        mc)) in H.
      split; [now apply nonEmptyString_check |]. split; [eauto |].
      split; [now apply optionalString_check | exact H].
    + intros (Hi & (z & ->) & Hm & Hs).
      rewrite (proj2 (nonEmptyString_check _) Hi),
        (proj2 (optionalString_check _) Hm).
      cbn [Number_isInteger negb bind].
      rewrite (proj1 (queue_sendMsg_buffer _ cb (NetworkMgr.dldataResult m)
                        mc)).
      exact Hs.
  - intros acts H.
    destruct (negb (truthy id) || _) eqn:Hi; [discriminate |].
    destruct st as [| | b | z | k | s0 | f | |]; try discriminate.
    destruct (negb (isUndefined msg) && _) eqn:Hm; [discriminate |].
    cbn [Number_isInteger negb bind asInt] in *.
    destruct (proj1 (nonEmptyString_check _) Hi) as (a & -> & Hne).
    destruct (queue_sendMsg_buffer
                (JSON_bytes
                   (NetworkMgr.JsonObj
                      ([("dataId", NetworkMgr.JsonStr (Lib.str (JStr a)));
                        ("status", NetworkMgr.JsonNum z 0)]
                       ++ NetworkMgr.optionalMember "message" msg)))
                cb (NetworkMgr.dldataResult m) mc) as (_ & Hnot & _ & Hpub).
    exists a, z. eexists. repeat split; try reflexivity.
    + unfold memberOf.
      destruct (proj1 (optionalString_check _) Hm) as [-> | (t & ->)];
        [reflexivity |].
      cbn. unfold NetworkMgr.optionalMember, orElse. cbn [truthy Lib.str].
      destruct (negb (String.eqb t "")); reflexivity.
    + intros Hst. rewrite (Hnot Hst) in H. now injection H as <-.
    + intros Hst Hr. exact (Hpub Hst Hr acts H).
Qed.

Lemma sendDlDataResult_validation_witness :
  isOk (NetworkMgr.sendDlDataResult (fun _ => [])
          (Obj (NetworkMgr.NetDlDataResult.mk (JStr "1") (JInt 0) (JStr "")))
          (UserFn 1) sampleMgr connectedMqtt)
  = true.
Proof.
  apply (proj1 (sendDlDataResult_validation (fun _ => [])
                  (NetworkMgr.NetDlDataResult.mk (JStr "1") (JInt 0)
                     (JStr ""))
                  (UserFn 1) sampleMgr connectedMqtt)).
  split; [| split; [| split]].
  - exists "1". split; [reflexivity | discriminate].
  - exists 0. reflexivity.
  - right. exists "". reflexivity.
  - reflexivity.
Defined.

(** X29: [sendDlData] of an application manager, given an object and a
    function.  A [correlationId] that is not a non-empty string makes it
    throw a [ReferenceError], not the error of the constants: the name
    [ErrParamCorrId] is not bound in the module.  For arguments of the
    documented types it throws [ErrParamDev] exactly when [deviceId] is
    empty and one of [networkCode] and [networkAddr] is empty while the
    other is not -- so not when none of the three is given --, and
    otherwise returns exactly when [JSON.stringify] does not throw on the
    extension and [sendMsg] of the [dldata] queue does not throw, which it
    does only on a [Connected] sender without its client or channel.  The
    payload is the JSON text of the correlation id, the identifiers that
    are not empty, the data as two hexadecimal digits for each byte, and
    the extension as [JSON.stringify] writes it.  A queue that is not
    [Connected] gets nothing published and the callback the error of a
    queue that is not connected; a [Connected] sender publishes the
    payload, once. *)
Theorem sendDlData_device_rule
    (JSON_bytes : NetworkMgr.Json -> list Byte.byte)
    (d : ApplicationMgr.AppDlData.t) (cb : FunRef) (m : ApplicationMgr.t)
    (mc : MqttConnection.t) :
  let res := ApplicationMgr.sendDlData JSON_bytes (Obj d) cb m mc in
  let q := ApplicationMgr.dldata m in
  let half :=
    negb (truthy (ApplicationMgr.AppDlData.deviceId d))
    && xorb (truthy (ApplicationMgr.AppDlData.networkCode d))
            (truthy (ApplicationMgr.AppDlData.networkAddr d)) in
  (~ nonEmptyString (ApplicationMgr.AppDlData.correlationId d) ->
   res = Throw (ApplicationMgr.referenceError "ErrParamCorrId"))
  /\ (nonEmptyString (ApplicationMgr.AppDlData.correlationId d) ->
      optionalString (ApplicationMgr.AppDlData.deviceId d) ->
      optionalString (ApplicationMgr.AppDlData.networkCode d) ->
      optionalString (ApplicationMgr.AppDlData.networkAddr d) ->
      forall bytes : list Byte.byte,
        ApplicationMgr.AppDlData.data d = Buffer bytes ->
        optionalObject (ApplicationMgr.AppDlData.extension d) ->
        (half = true -> res = Throw ApplicationMgr.ErrParamDev)
        /\ (half = false ->
            (isOk res = true
             <-> extensionThrows (ApplicationMgr.AppDlData.extension d) = false
                 /\ sendable q mc = true)
            /\ forall acts : list Action,
                 res = Ok acts ->
                 exists body : NetworkMgr.Json,
                   ApplicationMgr.dldataOf (Obj d) = Ok body
                   /\ NetworkMgr.get "correlationId" body
                      = memberOf (ApplicationMgr.AppDlData.correlationId d)
                   /\ NetworkMgr.get "deviceId" body
                      = memberOf (ApplicationMgr.AppDlData.deviceId d)
                   /\ NetworkMgr.get "networkCode" body
                      = memberOf (ApplicationMgr.AppDlData.networkCode d)
                   /\ NetworkMgr.get "networkAddr" body
                      = memberOf (ApplicationMgr.AppDlData.networkAddr d)
                   /\ NetworkMgr.get "data" body
                      = Some (NetworkMgr.JsonStr (Buffer_toString_hex bytes))
                   /\ NetworkMgr.get "extension" body
                      = extensionOf (ApplicationMgr.AppDlData.extension d)
                   /\ (queue_status q <> Connected ->
                       acts = [NextTick (Call cb (Some Errors.NotConnected))])
                   /\ (queue_status q = Connected ->
                       queue_isRecv q = false ->
                       payloadsOf acts = [JSON_bytes body]))).
Proof.
  destruct d as [cid dev code addr dt ext].
  cbn zeta. unfold ApplicationMgr.sendDlData, ApplicationMgr.dldataOf.
  cbn [notAnObject fields ApplicationMgr.AppDlData.correlationId
       ApplicationMgr.AppDlData.deviceId ApplicationMgr.AppDlData.networkCode
       ApplicationMgr.AppDlData.networkAddr ApplicationMgr.AppDlData.data
       ApplicationMgr.AppDlData.extension].
  destruct (extensionMember_outcome ext) as [Hwrites Hthrows].
  split.
  - intros Hcid.
    destruct (negb (truthy cid) || _) eqn:Hc; [reflexivity |].
    destruct Hcid. now apply nonEmptyString_check.
  - intros Hcid Hdev Hcode Haddr bytes -> Hext.
    rewrite (proj2 (nonEmptyString_check _) Hcid),
      (proj2 (optionalString_check _) Hdev),
      (proj2 (optionalString_check _) Hcode),
      (proj2 (optionalString_check _) Haddr),
      (proj2 (optionalObject_check _) Hext).
    replace (truthy code && negb (truthy addr)
             || negb (truthy code) && truthy addr)
      with (xorb (truthy code) (truthy addr))
      by (destruct (truthy code), (truthy addr); reflexivity).
    split; intros Hh; rewrite Hh; [reflexivity |].
    destruct (extensionThrows ext) eqn:Hx.
    { specialize (Hthrows eq_refl).
      destruct (NetworkMgr.extensionMember ext); [discriminate |].
      cbn [bind isOk]. split; [| discriminate].
      split; [discriminate | intros [? _]; discriminate]. }
    destruct (Hwrites eq_refl) as (members & Hm & Hmem & Hother).
    rewrite Hm. cbn [bind].
    split.
    + rewrite (proj1 (queue_sendMsg_buffer _ cb (ApplicationMgr.dldata m)
                        mc)).
      split; [auto | intros [_ H]; exact H].
    + intros acts H.
      match type of H with
      | queue_sendMsg (Buffer ?b) _ _ _ = _ =>
          destruct (queue_sendMsg_buffer b cb (ApplicationMgr.dldata m) mc)
            as (_ & Hnot & _ & Hpub)
      end.
      eexists. split; [reflexivity |].
      cbn [NetworkMgr.get].
      rewrite !member_app, !optionalMember_member by assumption.
      cbn [NetworkMgr.member]. simpl String.eqb. cbv iota.
      rewrite !Hother by discriminate.
      destruct Hcid as (c & -> & Hc).
      unfold memberOf at 1. cbn [truthy Lib.str].
      rewrite (proj2 (String.eqb_neq c "") Hc). cbn [negb].
      repeat split.
      * now destruct (memberOf dev).
      * now destruct (memberOf code).
      * now destruct (memberOf addr).
      * exact Hmem.
      * intros Hst. rewrite (Hnot Hst) in H. now injection H as <-.
      * intros Hst Hr. exact (Hpub Hst Hr acts H).
Qed.

Lemma sendDlData_device_rule_witness :
  ApplicationMgr.sendDlData (fun _ => [])
    (Obj (ApplicationMgr.AppDlData.mk (JStr "1") JUndefined (JStr "code")
            JUndefined (Buffer []) (NotObj JUndefined)))
    (UserFn 1) sampleAppMgr connectedMqtt
  = Throw ApplicationMgr.ErrParamDev
  /\ isOk (ApplicationMgr.sendDlData (fun _ => [])
             (Obj (ApplicationMgr.AppDlData.mk (JStr "1") JUndefined
                     JUndefined JUndefined (Buffer []) (NotObj JUndefined)))
             (UserFn 1) sampleAppMgr connectedMqtt)
     = true.
Proof.
  assert (nonEmptyString (JStr "1")) as H1
    by (exists "1"; split; [reflexivity | discriminate]).
  split.
  - pose proof (sendDlData_device_rule (fun _ => [])
                  (ApplicationMgr.AppDlData.mk (JStr "1") JUndefined
                     (JStr "code") JUndefined (Buffer [])
                     (NotObj JUndefined))
                  (UserFn 1) sampleAppMgr connectedMqtt) as H0.
    destruct H0 as [_ H].
    specialize (H H1).
    specialize (H (or_introl eq_refl)).
    specialize (H (or_intror (ex_intro _ "code" eq_refl))).
    specialize (H (or_introl eq_refl)).
    specialize (H [] eq_refl).
    specialize (H (or_introl eq_refl)).
    destruct H as [Hthrow _].
    apply Hthrow.
    reflexivity.
  - pose proof (sendDlData_device_rule (fun _ => [])
                  (ApplicationMgr.AppDlData.mk (JStr "1") JUndefined
                     JUndefined JUndefined (Buffer []) (NotObj JUndefined))
                  (UserFn 1) sampleAppMgr connectedMqtt) as H0.
    destruct H0 as [_ H].
    specialize (H H1).
    specialize (H (or_introl eq_refl)).
    specialize (H (or_introl eq_refl) (or_introl eq_refl)).
    specialize (H [] eq_refl).
    specialize (H (or_introl eq_refl)).
    destruct H as [_ Hreturns].
    destruct (Hreturns eq_refl) as [Hok _].
    apply (proj2 Hok).
    split; reflexivity.
Defined.

(** ** The message handler of an application manager *)

(** X30: Whatever the queue and the payload, the message handler of an
    application manager calls at most one user handler, and every [ack]
    and [nack] it makes is on the queue the message came from.  On the
    [dldata-resp] and [dldata-result] queues every payload that parses --
    the JSON text [null] included -- reaches [onDlDataResp] or
    [onDlDataResult], once, and each call of the completion callback
    settles the message; the manager itself raises no error there. *)
Theorem app_gmqMsgHandler_settles_on_own_queue
    (Buffer_from_object : list (string * NetworkMgr.Json) -> bool)
    (m : ApplicationMgr.t) (queue : Queue) (parsed : option NetworkMgr.Json) :
  let res := ApplicationMgr.gmqMsgHandler Buffer_from_object m queue parsed in
  let h := ApplicationMgr.mgrMsgHandler m in
  (appHandlerCalls res.1 <= 1)%nat
  /\ (forall e : ApplicationMgr.Effect,
        In e res.1 -> ApplicationMgr.isSettlement e = true ->
        e = ApplicationMgr.Ack (queue_name queue)
        \/ e = ApplicationMgr.Nack (queue_name queue))
  /\ (forall data : NetworkMgr.Json,
        parsed = Some data ->
        queue_name queue <> queue_name (ApplicationMgr.uldata m) ->
        (queue_name queue = queue_name (ApplicationMgr.dldataResp m) ->
         res = (ApplicationMgr.CallOnDlDataResp data
                  :: map (ApplicationMgr.settle (queue_name queue))
                       (NetworkMgr.calls
                          (ApplicationMgr.onDlDataResp h data)),
                NetworkMgr.throws (ApplicationMgr.onDlDataResp h data)))
        /\ (queue_name queue <> queue_name (ApplicationMgr.dldataResp m) ->
            queue_name queue = queue_name (ApplicationMgr.dldataResult m) ->
            res = (ApplicationMgr.CallOnDlDataResult data
                     :: map (ApplicationMgr.settle (queue_name queue))
                          (NetworkMgr.calls
                             (ApplicationMgr.onDlDataResult h data)),
                   NetworkMgr.throws
                     (ApplicationMgr.onDlDataResult h data)))).
Proof.
  assert (forall (q : string) (errs : list JsVal) (e : ApplicationMgr.Effect),
            In e (map (ApplicationMgr.settle q) errs) ->
            e = ApplicationMgr.Ack q \/ e = ApplicationMgr.Nack q) as Hsettle.
  { intros q errs e Hin. apply in_map_iff in Hin as (v & <- & _).
    unfold ApplicationMgr.settle. destruct (truthy v); auto. }
  assert (forall (q : string) (errs : list JsVal),
            appHandlerCalls (map (ApplicationMgr.settle q) errs) = 0%nat)
    as Hcalls.
  { intros q errs. unfold appHandlerCalls.
    induction errs as [| v errs IH]; [reflexivity |].
    cbn. unfold ApplicationMgr.settle at 1. destruct (truthy v); exact IH. }
  assert (forall (c : ApplicationMgr.Effect) (q : string) (errs : list JsVal),
            ApplicationMgr.isHandlerCall c = true ->
            (appHandlerCalls (c :: map (ApplicationMgr.settle q) errs) <= 1)%nat
            /\ forall e : ApplicationMgr.Effect,
                 In e (c :: map (ApplicationMgr.settle q) errs) ->
                 ApplicationMgr.isSettlement e = true ->
                 e = ApplicationMgr.Ack q \/ e = ApplicationMgr.Nack q)
    as Hcall.
  { intros c q errs Hc. split.
    - unfold appHandlerCalls. cbn. rewrite Hc. cbn.
      fold (appHandlerCalls (map (ApplicationMgr.settle q) errs)).
      rewrite Hcalls. lia.
    - intros e [<- | Hin] He; [| exact (Hsettle _ _ _ Hin)].
      destruct c; discriminate. }
  unfold ApplicationMgr.gmqMsgHandler.
  destruct parsed as [data |]; cbn zeta.
  2: { cbn. split; [lia |]. split; [| discriminate].
       intros e [<- | []] _. auto. }
  destruct (String.eqb_spec (queue_name queue)
              (queue_name (ApplicationMgr.uldata m))) as [Hu | Hu].
  { assert (forall d' : NetworkMgr.Json,
              Some data = Some d' ->
              queue_name queue <> queue_name (ApplicationMgr.uldata m) ->
              False) as Hno by (intros d' _ Hne; now destruct Hne).
    destruct (NetworkMgr.holdsProperties data); cbn [negb];
      [destruct (NetworkMgr.Date_returns (NetworkMgr.get "time" data));
       cbn [negb];
       [destruct (NetworkMgr.Date_returns (NetworkMgr.get "pub" data));
        cbn [negb];
        [destruct (NetworkMgr.Buffer_from_returns _ _); cbn [negb] |] |] |];
      cbn [fst].
    - rewrite <- Hu.
      destruct (Hcall (ApplicationMgr.CallOnUlData data) (queue_name queue)
                  (NetworkMgr.calls
                     (ApplicationMgr.onUlData (ApplicationMgr.mgrMsgHandler m)
                        data)) eq_refl) as [H1 H2].
      split; [exact H1 |]. split; [exact H2 |].
      intros d' Hd Hne. now destruct Hne.
    - split; [cbn; lia |]. split; [intros e [] |].
      intros d' Hd Hne. now destruct Hne.
    - split; [cbn; lia |]. split; [intros e [] |].
      intros d' Hd Hne. now destruct Hne.
    - split; [cbn; lia |]. split; [intros e [] |].
      intros d' Hd Hne. now destruct Hne.
    - split; [cbn; lia |]. split; [intros e [] |].
      intros d' Hd Hne. now destruct Hne. }
  destruct (String.eqb_spec (queue_name queue)
              (queue_name (ApplicationMgr.dldataResp m))) as [Hr | Hr].
  { cbn [fst]. rewrite <- Hr.
    destruct (Hcall (ApplicationMgr.CallOnDlDataResp data) (queue_name queue)
                (NetworkMgr.calls
                   (ApplicationMgr.onDlDataResp (ApplicationMgr.mgrMsgHandler m)
                      data)) eq_refl) as [H1 H2].
    split; [exact H1 |]. split; [exact H2 |].
    intros d' [= <-] _. split; [reflexivity |].
    intros Hne. now destruct Hne. }
  destruct (String.eqb_spec (queue_name queue)
              (queue_name (ApplicationMgr.dldataResult m))) as [Ht | Ht].
  { cbn [fst]. rewrite <- Ht.
    destruct (Hcall (ApplicationMgr.CallOnDlDataResult data)
                (queue_name queue)
                (NetworkMgr.calls
                   (ApplicationMgr.onDlDataResult
                      (ApplicationMgr.mgrMsgHandler m) data)) eq_refl)
      as [H1 H2].
    split; [exact H1 |]. split; [exact H2 |].
    intros d' [= <-] _. split; [| reflexivity].
    intros He. now destruct Hr. }
  split; [cbn; lia |]. split; [intros e [] |].
  intros d' _ _. split; intros; congruence.
Qed.

Lemma app_gmqMsgHandler_settles_on_own_queue_witness :
  ApplicationMgr.gmqMsgHandler (fun _ => true) sampleAppMgr
    (ApplicationMgr.dldataResp sampleAppMgr) (Some NetworkMgr.JsonNull)
  = ([ApplicationMgr.CallOnDlDataResp NetworkMgr.JsonNull;
      ApplicationMgr.Ack
        "broker.application.unit_code.code_app.dldata-resp"], None).
Proof.
  apply (proj1 (proj2 (proj2 (app_gmqMsgHandler_settles_on_own_queue
                                (fun _ => true) sampleAppMgr
                                (ApplicationMgr.dldataResp sampleAppMgr)
                                (Some NetworkMgr.JsonNull)))
                  NetworkMgr.JsonNull eq_refl
                  ltac:(vm_compute; discriminate))).
  reflexivity.
Defined.
